(** * plot_functions.py: a trace model of the plotting helpers

    The module [plot_functions.py] is a set of helpers over matplotlib.
    Each helper is a sequence of calls into the library; what a helper
    "does" is the ordered list of library calls it issues, with their
    arguments.  The embedding below runs every helper in a small monad
    over a Python-level state (the heap of list objects, the module's
    variables, and the trace of library calls issued so far) and with an
    arbitrary library: a function that, given the calls issued so far and
    the next call, either returns a value or raises. *)

From Stdlib Require Import ZArith QArith String Ascii List Lia Bool.
From stdpp Require Import base list strings.
Import ListNotations.

Local Open Scope string_scope.
Local Open Scope list_scope.
Set Warnings "-register-all".

(** ** Python values *)

(** A location of a list object on the heap. *)
Abbreviation loc := nat (only parsing).

(** The Python values the helpers handle.  Lists are mutable objects and
    are passed by reference ([VList]); tuples, and array-like data that the
    helpers only hand on to the library, are immutable sequences
    ([VTuple]).  Strings are sequences of 8-bit characters.  [VObj] is an
    opaque object of the library (a figure, an axes, a line, a locator).  *)
Inductive pyval : Type :=
| VNone
| VBool (b : bool)
| VInt (z : Z)
| VFloat (q : Q)
| VStr (s : string)
| VTuple (items : list pyval)
| VList (a : loc)
| VObj (h : nat).

#[global] Instance pyval_inhabited : Inhabited pyval := populate VNone.

(** ** Library calls and the trace *)

(** Where a called name lives: [plt.f(...)], a name imported from
    [matplotlib.ticker], or a method of an object ([obj.f(...)]; an
    attribute path such as [obj.xaxis.f] is kept in the name). *)
Inductive receiver : Type :=
| Pyplot
| Ticker
| Method (obj : pyval).

Record call : Type := Call {
  recv : receiver;
  fn : string;
  args : list pyval;
  kwargs : list (string * pyval)
}.

(** The trace records the entry into a function of the module and every
    call into the library, in the order they happen. *)
Inductive event : Type :=
| EEnter (f : string)
| ECall (c : call).

(** What the library answers to a call. *)
Inductive outcome : Type :=
| Returns (v : pyval)
| Raises (e : pyval).

(** Exceptions: the ones the library raises (with what it raised), and the
    ones the interpreter raises itself when a value is unpacked, iterated
    or subscripted. *)
Inductive exn : Type :=
| LibraryError (e : pyval)
| TypeError (msg : string)
| ValueError (msg : string)
| IndexError (msg : string).

Definition interpreter_error (e : exn) : Prop :=
  match e with LibraryError _ => False | _ => True end.

(** ** State and monad *)

Record pystate : Type := PyState {
  heap : list (list pyval);
  module_vars : list (string * pyval);
  trace : list event
}.

Inductive result (A : Type) : Type :=
| Ok (a : A)
| Err (e : exn).
Arguments Ok {A} a.
Arguments Err {A} e.

Definition M (A : Type) : Type := pystate -> pystate * result A.

Definition ret {A} (a : A) : M A := fun s => (s, Ok a).

Definition raise {A} (e : exn) : M A := fun s => (s, Err e).

Definition bind {A B} (m : M A) (k : A -> M B) : M B :=
  fun s =>
    match m s with
    | (s1, Ok a) => k a s1
    | (s1, Err e) => (s1, Err e)
    end.

Declare Scope py_scope.
Delimit Scope py_scope with py.
Notation "x <- y ;; z" := (bind y (fun x => z))
  (at level 20, y at level 99, z at level 200, only parsing) : py_scope.
Notation "' x <- y ;; z" := (bind y (fun x => z))
  (at level 20, x pattern, y at level 99, z at level 200, only parsing) : py_scope.
Notation "y ;; z" := (bind y (fun _ => z))
  (at level 100, z at level 200, only parsing, right associativity) : py_scope.
Bind Scope py_scope with M.
Local Open Scope py_scope.

(** The error of a result, if any. *)
Definition error_of {A} (r : result A) : option exn :=
  match r with Ok _ => None | Err e => Some e end.

(** The events a run added to the trace. *)
Definition events_since (s s' : pystate) : list event :=
  drop (length (trace s)) (trace s').

(** ** Reading values on the heap *)

(** The items of the list object at [a].  A location outside the heap
    reads as the empty list; the arguments of a call are locations of the
    heap. *)
Definition read (h : list (list pyval)) (a : loc) : list pyval :=
  default [] (h !! a).

(** The single-character strings of a string, as iteration yields them. *)
Definition chars (s : string) : list pyval :=
  map (fun c => VStr (String c EmptyString)) (list_ascii_of_string s).

(** The items of an iterable value; [None] for a value that cannot be
    iterated. *)
Definition items_of (h : list (list pyval)) (v : pyval) : option (list pyval) :=
  match v with
  | VTuple items => Some items
  | VList a => Some (read h a)
  | VStr s => Some (chars s)
  | _ => None
  end.

(** Truth value of [if v:]. *)
Definition truth (h : list (list pyval)) (v : pyval) : bool :=
  match v with
  | VNone => false
  | VBool b => b
  | VInt z => negb (z =? 0)%Z
  | VFloat q => negb (Qeq_bool q 0)
  | VStr s => negb (String.eqb s "")
  | VTuple items => negb (Nat.eqb (length items) 0)
  | VList a => negb (Nat.eqb (length (read h a)) 0)
  | VObj _ => true
  end.

Definition get_heap : M (list (list pyval)) := fun s => (s, Ok (heap s)).

(** [for x in list_object]: the items of a list object. *)
Definition read_list (a : loc) : M (list pyval) :=
  h <- get_heap ;; ret (read h a).

(** [iter(v)]. *)
Definition iter (v : pyval) : M (list pyval) :=
  h <- get_heap ;;
  match items_of h v with
  | Some items => ret items
  | None => raise (TypeError "object is not iterable")
  end.

Definition truthy (v : pyval) : M bool :=
  h <- get_heap ;; ret (truth h v).

Definition arity_error (want got : nat) : exn :=
  if Nat.ltb got want then ValueError "not enough values to unpack"
  else ValueError "too many values to unpack".

(** [a, b = v] and its siblings of length 3, 5 and 6. *)
Definition unpack2 (v : pyval) : M (pyval * pyval) :=
  items <- iter v ;;
  match items with
  | [a; b] => ret (a, b)
  | _ => raise (arity_error 2 (length items))
  end.

Definition unpack3 (v : pyval) : M (pyval * pyval * pyval) :=
  items <- iter v ;;
  match items with
  | [a; b; c] => ret (a, b, c)
  | _ => raise (arity_error 3 (length items))
  end.

Definition unpack5 (v : pyval) : M (pyval * pyval * pyval * pyval * pyval) :=
  items <- iter v ;;
  match items with
  | [a; b; c; d; e] => ret (a, b, c, d, e)
  | _ => raise (arity_error 5 (length items))
  end.

Definition unpack6 (v : pyval)
  : M (pyval * pyval * pyval * pyval * pyval * pyval) :=
  items <- iter v ;;
  match items with
  | [a; b; c; d; e; f] => ret (a, b, c, d, e, f)
  | _ => raise (arity_error 6 (length items))
  end.

(** [v[i]] for a literal index [i >= 0]. *)
Definition subscript (v : pyval) (i : nat) : M pyval :=
  h <- get_heap ;;
  match items_of h v with
  | Some items =>
      match items !! i with
      | Some x => ret x
      | None => raise (IndexError "index out of range")
      end
  | None => raise (TypeError "object is not subscriptable")
  end.

(** ** Writing the heap *)

(** A list display [[...]] or comprehension creates a new list object. *)
Definition alloc (items : list pyval) : M loc :=
  fun s =>
    (PyState (heap s ++ [items]) (module_vars s) (trace s),
     Ok (length (heap s))).

(** [lst.append(v)]. *)
Definition list_append (a : loc) (v : pyval) : M unit :=
  fun s =>
    (PyState (alter (fun l => l ++ [v]) a (heap s)) (module_vars s) (trace s),
     Ok tt).

(** ** Loops *)

(** [for x in items: body(x)], over the items read when the loop starts.
    No loop body of the module writes to the list it iterates over. *)
Fixpoint for_each (items : list pyval) (body : pyval -> M unit) : M unit :=
  match items with
  | [] => ret tt
  | x :: rest => body x ;; for_each rest body
  end.

(** [for i, x in enumerate(items, start=i0): body(i, x)]. *)
Fixpoint for_enumerate (i0 : Z) (items : list pyval)
    (body : Z -> pyval -> M unit) : M unit :=
  match items with
  | [] => ret tt
  | x :: rest => body i0 x ;; for_enumerate (i0 + 1) rest body
  end.

(** [[f(x) for x in items]], the results in order. *)
Fixpoint collect (items : list pyval) (f : pyval -> M pyval)
    : M (list pyval) :=
  match items with
  | [] => ret []
  | x :: rest => y <- f x ;; ys <- collect rest f ;; ret (y :: ys)
  end.

(** [[x for sub in items for x in sub]]. *)
Fixpoint flatten (items : list pyval) : M (list pyval) :=
  match items with
  | [] => ret []
  | sub :: rest => xs <- iter sub ;; ys <- flatten rest ;; ret (xs ++ ys)
  end.

(** ** Calls into the library *)

Definition plt (f : string) (args : list pyval)
    (kwargs : list (string * pyval)) : call :=
  Call Pyplot f args kwargs.

Definition method (obj : pyval) (f : string) (args : list pyval)
    (kwargs : list (string * pyval)) : call :=
  Call (Method obj) f args kwargs.

(** Entering a function of the module. *)
Definition enter (f : string) : M unit :=
  fun s => (PyState (heap s) (module_vars s) (trace s ++ [EEnter f]), Ok tt).

(** ** The palettes (lines 13-23)

    Each call builds a new list object from the same literals. *)

Definition palette_01 : list pyval :=
  [VStr "#ffb400"; VStr "#d2980d"; VStr "#a57c1b"; VStr "#786028";
   VStr "#363445"; VStr "#48446e"; VStr "#5e569b"; VStr "#776bcd";
   VStr "#9080ff"].

Definition palette_02 : list pyval :=
  [VStr "#450d54"; VStr "#482878"; VStr "#3e4a89"; VStr "#30688e";
   VStr "#25828e"; VStr "#1f9e89"; VStr "#35b779"; VStr "#6dcd59";
   VStr "#b4de2c"; VStr "#fde725"].

Definition palette_03 : list pyval :=
  [VStr "#e6194b"; VStr "#3cb44b"; VStr "#ffe119"; VStr "#4363d8";
   VStr "#f58231"; VStr "#911eb4"; VStr "#46f0f0"; VStr "#f032e6";
   VStr "#bcf60c"; VStr "#fabebe"; VStr "#008080"; VStr "#e6beff";
   VStr "#9a6324"; VStr "#fffac8"; VStr "#800000"; VStr "#aaffc3";
   VStr "#808000"; VStr "#ffd8b1"; VStr "#000075"; VStr "#808080";
   VStr "#ffffff"; VStr "#000000"].

Definition c_scheme : M pyval :=
  enter "c_scheme" ;; a <- alloc palette_01 ;; ret (VList a).

Definition c_scheme_02 : M pyval :=
  enter "c_scheme_02" ;; a <- alloc palette_02 ;; ret (VList a).

Definition c_scheme_03 : M pyval :=
  enter "c_scheme_03" ;; a <- alloc palette_03 ;; ret (VList a).

(** A hex colour string: [#] and six hexadecimal digits. *)
Definition is_hex_digit (c : ascii) : bool :=
  let n := nat_of_ascii c in
  (Nat.leb 48 n && Nat.leb n 57) || (Nat.leb 97 n && Nat.leb n 102)
  || (Nat.leb 65 n && Nat.leb n 70).

Definition is_hex_color (v : pyval) : bool :=
  match v with
  | VStr (String "#" digits) =>
      Nat.eqb (String.length digits) 6
      && forallb is_hex_digit (list_ascii_of_string digits)
  | _ => false
  end.

(** ** The plotting functions

    A parameter annotated [list] in the source is a list object, given by
    its location; [filename_to_save], documented as [str], is a string; any
    other parameter is any value.  The keyword arguments of a call are
    listed in the order the source writes them. *)

Section Library.

(** The plotting library: given the events so far and a call, it returns
    a value or raises.  Its own state (the current figure and axes) is a
    function of the events so far. *)
Variable lib : list event -> call -> outcome.

Definition lib_call (c : call) : M pyval :=
  fun s =>
    let s' := PyState (heap s) (module_vars s) (trace s ++ [ECall c]) in
    match lib (trace s) c with
    | Returns v => (s', Ok v)
    | Raises e => (s', Err (LibraryError e))
    end.

(** The block that ends every plotting function (lines 80-82, 138-140,
    187-189, 236-238, 312-314, 368-370, 409-410):
    [if filename_to_save != sentinel: plt.savefig(filename_to_save + ".pdf")],
    with the keyword arguments the call site gives. *)
Definition save_unless (sentinel filename_to_save : string)
    (kw : list (string * pyval)) : M unit :=
  if negb (String.eqb filename_to_save sentinel) then
    let fnts := String.append filename_to_save ".pdf" in
    lib_call (plt "savefig" [VStr fnts] kw) ;; ret tt
  else ret tt.

(** [plt.gca().xaxis.set_major_locator(MaxNLocator(nbins=n))]. *)
Definition set_x_locator (n : pyval) : M unit :=
  ax <- lib_call (plt "gca" [] []) ;;
  locator <- lib_call (Call Ticker "MaxNLocator" [] [("nbins", n)]) ;;
  lib_call (method ax "xaxis.set_major_locator" [locator] []) ;;
  ret tt.

(** [plt.gca().xaxis.get_offset_text().set_fontsize(size)]. *)
Definition set_offset_fontsize (size : pyval) : M unit :=
  ax <- lib_call (plt "gca" [] []) ;;
  t <- lib_call (method ax "xaxis.get_offset_text" [] []) ;;
  lib_call (method t "set_fontsize" [size] []) ;;
  ret tt.

(** [if y_lim: plt.ylim( *y_lim)]. *)
Definition apply_y_lim (y_lim : pyval) : M unit :=
  b <- truthy y_lim ;;
  if b then lim <- iter y_lim ;; lib_call (plt "ylim" lim []) ;; ret tt
  else ret tt.

(** [if vlines: for x_val, color, linestyle in vlines: target.axvline(...)]. *)
Definition draw_vlines (target : receiver) (vlines : pyval) : M unit :=
  b <- truthy vlines ;;
  if b then
    entries <- iter vlines ;;
    for_each entries (fun v =>
      '(x_val, color, linestyle) <- unpack3 v ;;
      lib_call (Call target "axvline" []
                  [("x", x_val); ("color", color); ("linestyle", linestyle)]) ;;
      ret tt)
  else ret tt.

(** One pass of the loop at lines 51-53. *)
Definition one_axis_entry (marker_size line_width l : pyval) : M unit :=
  '(data_x, data_y, label, colorr, line_style, marker_type) <- unpack6 l ;;
  lib_call (plt "plot" [data_x; data_y]
              [("label", label); ("marker", marker_type);
               ("linestyle", line_style); ("color", colorr);
               ("markersize", marker_size); ("linewidth", line_width)]) ;;
  ret tt.

(** Lines 26-84. *)
Definition plot_with_one_axis (list_of_data : loc)
    (name_x name_y plot_title : pyval) (filename_to_save : string)
    (marker_size font_size offset_text_size legend_local legend_size
     x_ticks_limit x_ticks_numstyle line_width y_lim : pyval) : M unit :=
  enter "plot_with_one_axis" ;;
  lib_call (plt "figure" [] []) ;;
  entries <- read_list list_of_data ;;
  for_each entries (one_axis_entry marker_size line_width) ;;
  lib_call (plt "xlabel" [name_x] [("fontsize", font_size)]) ;;
  lib_call (plt "ylabel" [name_y] [("fontsize", font_size)]) ;;
  lib_call (plt "title" [plot_title] [("fontsize", font_size)]) ;;
  lib_call (plt "legend" [] [("loc", legend_local); ("fontsize", legend_size)]) ;;
  lib_call (plt "xticks" [] [("fontsize", font_size)]) ;;
  lib_call (plt "yticks" [] [("fontsize", font_size)]) ;;
  set_x_locator x_ticks_limit ;;
  apply_y_lim y_lim ;;
  lib_call (plt "ticklabel_format" []
              [("style", x_ticks_numstyle); ("axis", VStr "x");
               ("scilimits", VTuple [VInt 0; VInt 0])]) ;;
  set_offset_fontsize offset_text_size ;;
  save_unless "nosvg" filename_to_save [] ;;
  lib_call (plt "show" [] []) ;;
  ret tt.

(** One pass of the loops at lines 110-112 and 214-216, whose entries
    differ in length only: the entry is unpacked by the caller. *)
Definition plot_curve (data_x data_y label colorr line_style marker_type
    marker_size : pyval) : M unit :=
  lib_call (plt "plot" [data_x; data_y]
              [("label", label); ("marker", marker_type);
               ("linestyle", line_style); ("color", colorr);
               ("markersize", marker_size)]) ;;
  ret tt.

Definition vlines_entry (marker_size l : pyval) : M unit :=
  '(data_x, data_y, label, colorr, line_style, marker_type) <- unpack6 l ;;
  plot_curve data_x data_y label colorr line_style marker_type marker_size.

(** Lines 87-147. *)
Definition plot_with_one_axis_with_vertical_lines (list_of_data : loc)
    (name_x name_y plot_title : pyval) (filename_to_save : string)
    (marker_size font_size offset_text_size legend_local legend_size
     x_ticks_limit vlines y_lim : pyval) : M unit :=
  enter "plot_with_one_axis_with_vertical_lines" ;;
  lib_call (plt "figure" [] []) ;;
  entries <- read_list list_of_data ;;
  for_each entries (vlines_entry marker_size) ;;
  lib_call (plt "xlabel" [name_x] [("fontsize", font_size)]) ;;
  lib_call (plt "ylabel" [name_y] [("fontsize", font_size)]) ;;
  lib_call (plt "title" [plot_title] [("fontsize", font_size)]) ;;
  lib_call (plt "legend" [] [("loc", legend_local); ("fontsize", legend_size)]) ;;
  lib_call (plt "xticks" [] [("fontsize", font_size)]) ;;
  lib_call (plt "yticks" [] [("fontsize", font_size)]) ;;
  set_x_locator x_ticks_limit ;;
  lib_call (plt "ticklabel_format" []
              [("style", VStr "sci"); ("axis", VStr "x");
               ("scilimits", VTuple [VInt 0; VInt 0])]) ;;
  set_offset_fontsize offset_text_size ;;
  apply_y_lim y_lim ;;
  save_unless "nosvg" filename_to_save [] ;;
  draw_vlines Pyplot vlines ;;
  lib_call (plt "show" [] []) ;;
  ret tt.

(** One pass of the loop at lines 170-172. *)
Definition error_bars_entry (marker_type marker_size capsize_errorbars
    transparency d : pyval) : M unit :=
  '(data_x_1, data_y_1, data_y_1_error, label1, col1) <- unpack5 d ;;
  lib_call (plt "errorbar" [data_x_1; data_y_1]
              [("yerr", data_y_1_error); ("fmt", marker_type);
               ("label", label1); ("capsize", capsize_errorbars);
               ("color", col1); ("markersize", marker_size);
               ("linestyle", VStr "-"); ("alpha", transparency)]) ;;
  ret tt.

(** Lines 149-191. *)
Definition plot_with_one_axis_and_error_bars_BYLIST (ALLDATA : loc)
    (name_x name_y plot_title : pyval) (filename_to_save : string)
    (line_style marker_type marker_size capsize_errorbars transparency : pyval)
    : M unit :=
  enter "plot_with_one_axis_and_error_bars_BYLIST" ;;
  lib_call (plt "figure" [] []) ;;
  entries <- read_list ALLDATA ;;
  for_each entries
    (error_bars_entry marker_type marker_size capsize_errorbars transparency) ;;
  lib_call (plt "xlabel" [name_x] []) ;;
  lib_call (plt "ylabel" [name_y] []) ;;
  lib_call (plt "title" [plot_title] []) ;;
  save_unless "nosvg" filename_to_save [] ;;
  lib_call (plt "show" [] []) ;;
  ret tt.

(** One pass of the loop at lines 214-216. *)
Definition points_curve_entry (marker_type marker_size l : pyval) : M unit :=
  '(data_x, data_y, label, colorr, line_style) <- unpack5 l ;;
  plot_curve data_x data_y label colorr line_style marker_type marker_size.

(** One pass of the loop at lines 218-221. *)
Definition points_point_entry (p : pyval) : M unit :=
  '(x_val, y_val, labell, markerr, markersizee, colorr) <- unpack6 p ;;
  lib_call (plt "plot" [x_val; y_val]
              [("label", labell); ("marker", markerr);
               ("markersize", markersizee); ("color", colorr)]) ;;
  ret tt.

(** Lines 194-240. *)
Definition plot_with_one_axis_with_points (list_of_data list_of_points : loc)
    (name_x name_y plot_title : pyval) (filename_to_save : string)
    (marker_type marker_size : pyval) : M unit :=
  enter "plot_with_one_axis_with_points" ;;
  lib_call (plt "figure" [] []) ;;
  entries <- read_list list_of_data ;;
  for_each entries (points_curve_entry marker_type marker_size) ;;
  points <- read_list list_of_points ;;
  for_each points points_point_entry ;;
  lib_call (plt "xlabel" [name_x] []) ;;
  lib_call (plt "ylabel" [name_y] []) ;;
  lib_call (plt "title" [plot_title] []) ;;
  save_unless "nopdf" filename_to_save [] ;;
  lib_call (plt "show" [] []) ;;
  ret tt.

(** One pass of the loops at lines 279-281 and 291-293: unpack the
    descriptor, plot it on [ax] and append the lines to [acc]. *)
Definition plot_on_axis (ax : pyval) (acc : loc) (marker_size : pyval)
    (d : pyval) : M unit :=
  '(x, y, lab, col, lins, linsh) <- unpack6 d ;;
  ln <- lib_call (method ax "plot" [x; y]
                    [("color", col); ("label", lab); ("marker", linsh);
                     ("linestyle", lins); ("markersize", marker_size)]) ;;
  list_append acc ln.

(** Lines 242-316. *)
Definition plot_with_two_axes_with_N_curves_with_VERTICAL_lines
    (data_y_one data_y_two : loc)
    (name_x name_y1 name_y2 col_ax1 col_ax2 plot_title : pyval)
    (filename_to_save : string)
    (marker_size font_size legend_size legend_local vlines x_ticks : pyval)
    : M unit :=
  enter "plot_with_two_axes_with_N_curves_with_VERTICAL_lines" ;;
  r <- lib_call (plt "subplots" [] []) ;;
  '(fig, ax1) <- unpack2 r ;;
  xt <- truthy x_ticks ;;
  (if xt then
     lib_call (method ax1 "set_xlabel" [name_x] [("fontsize", font_size)]) ;;
     lib_call (method ax1 "tick_params" []
                 [("axis", VStr "x"); ("labelsize", font_size)]) ;;
     ret tt
   else
     no_labels <- alloc [] ;;
     lib_call (method ax1 "set_xticklabels" [VList no_labels] []) ;;
     lib_call (method ax1 "tick_params" []
                 [("axis", VStr "x"); ("labelsize", font_size);
                  ("length", VInt 0)]) ;;
     lib_call (method ax1 "set_xlabel" [name_x] [("fontsize", font_size)]) ;;
     ret tt) ;;
  lib_call (method ax1 "set_ylabel" [name_y1]
              [("color", col_ax1); ("fontsize", font_size)]) ;;
  plot_1 <- alloc [] ;;
  entries1 <- read_list data_y_one ;;
  for_enumerate 0 entries1 (fun i d1 => plot_on_axis ax1 plot_1 marker_size d1) ;;
  lib_call (method ax1 "tick_params" []
              [("axis", VStr "y"); ("labelsize", font_size)]) ;;
  ax2 <- lib_call (method ax1 "twinx" [] []) ;;
  lib_call (method ax2 "set_ylabel" [name_y2]
              [("color", col_ax2); ("fontsize", font_size)]) ;;
  plot_2 <- alloc [] ;;
  entries2 <- read_list data_y_two ;;
  for_enumerate 0 entries2 (fun i d2 => plot_on_axis ax2 plot_2 marker_size d2) ;;
  lib_call (method ax2 "tick_params" []
              [("axis", VStr "y"); ("labelsize", font_size)]) ;;
  lib_call (method fig "tight_layout" [] []) ;;
  sublists1 <- read_list plot_1 ;;
  lines1 <- flatten sublists1 ;;
  flat1 <- alloc lines1 ;;
  sublists2 <- read_list plot_2 ;;
  lines2 <- flatten sublists2 ;;
  flat2 <- alloc lines2 ;;
  left <- read_list flat1 ;;
  right <- read_list flat2 ;;
  lns <- alloc (left ++ right) ;;
  lns_items <- read_list lns ;;
  labels_items <- collect lns_items
                    (fun l => lib_call (method l "get_label" [] [])) ;;
  labels <- alloc labels_items ;;
  lib_call (plt "title" [plot_title] [("fontsize", font_size)]) ;;
  lib_call (plt "legend" [VList lns; VList labels]
              [("loc", legend_local); ("fontsize", legend_size)]) ;;
  draw_vlines (Method ax1) vlines ;;
  save_unless "nopdf" filename_to_save [] ;;
  lib_call (plt "show" [] []) ;;
  ret tt.

(** One pass of the loop at lines 337-339. *)
Definition fits_data_entry (marker_type marker_size capsize_errorbars
    alpha_data d : pyval) : M unit :=
  d0 <- subscript d 0 ;;
  d1 <- subscript d 1 ;;
  d2 <- subscript d 2 ;;
  d3 <- subscript d 3 ;;
  d4 <- subscript d 4 ;;
  d5 <- subscript d 5 ;;
  lib_call (plt "errorbar" [d0; d1]
              [("yerr", d2); ("fmt", marker_type); ("label", d3);
               ("capsize", capsize_errorbars); ("color", d4);
               ("linestyle", d5); ("markersize", marker_size);
               ("alpha", alpha_data)]) ;;
  ret tt.

(** One pass of the loop at lines 342-343. *)
Definition fits_fit_entry (f : pyval) : M unit :=
  f0 <- subscript f 0 ;;
  f1 <- subscript f 1 ;;
  f2 <- subscript f 2 ;;
  f3 <- subscript f 3 ;;
  lib_call (plt "plot" [f0; f1] [("label", f2); ("color", f3)]) ;;
  ret tt.

(** Lines 318-372. *)
Definition one_axis__N_Y_with_error_bars__with_N_fits
    (list_of_data list_of_fit : loc)
    (name_x name_y plot_title : pyval) (filename_to_save : string)
    (marker_type marker_size capsize_errorbars alpha_data font_size
     offset_text_size legend_size legend_local x_ticks_limit : pyval)
    : M unit :=
  enter "one_axis__N_Y_with_error_bars__with_N_fits" ;;
  lib_call (plt "figure" [] []) ;;
  entries <- read_list list_of_data ;;
  for_each entries
    (fits_data_entry marker_type marker_size capsize_errorbars alpha_data) ;;
  fits <- read_list list_of_fit ;;
  for_each fits fits_fit_entry ;;
  lib_call (plt "xlabel" [name_x] [("fontsize", font_size)]) ;;
  lib_call (plt "ylabel" [name_y] [("fontsize", font_size)]) ;;
  lib_call (plt "title" [plot_title] [("fontsize", font_size)]) ;;
  lib_call (plt "legend" [] [("loc", legend_local); ("fontsize", legend_size)]) ;;
  lib_call (plt "xticks" [] [("fontsize", font_size)]) ;;
  lib_call (plt "yticks" [] [("fontsize", font_size)]) ;;
  set_x_locator x_ticks_limit ;;
  lib_call (plt "ticklabel_format" []
              [("style", VStr "sci"); ("axis", VStr "x");
               ("scilimits", VTuple [VInt 0; VInt 0])]) ;;
  set_offset_fontsize offset_text_size ;;
  save_unless "nopdf" filename_to_save [] ;;
  lib_call (plt "show" [] []) ;;
  ret tt.

(** The body of the loop at lines 379-403, for the [i]-th descriptor. *)
Definition subplot_body (list_of_data : loc)
    (name_x name_y marker_size font_size offset_text_size legend_loc
     legend_size x_ticks_limit : pyval) (i : Z) (data : pyval) : M unit :=
  '(data_x, data_y, label, color, line_style, marker_type) <- unpack6 data ;;
  current <- read_list list_of_data ;;
  lib_call (plt "subplot"
              [VInt (Z.of_nat (length current)); VInt 1; VInt i] []) ;;
  lib_call (plt "plot" [data_x; data_y]
              [("label", label); ("marker", marker_type);
               ("linestyle", line_style); ("color", color);
               ("markersize", marker_size)]) ;;
  lib_call (plt "xlabel" [name_x] [("fontsize", font_size)]) ;;
  lib_call (plt "ylabel" [name_y] [("fontsize", font_size)]) ;;
  lib_call (plt "legend" [] [("loc", legend_loc); ("fontsize", legend_size)]) ;;
  set_x_locator x_ticks_limit ;;
  lib_call (plt "tick_params" []
              [("axis", VStr "both"); ("which", VStr "major");
               ("labelsize", offset_text_size)]) ;;
  lib_call (plt "ticklabel_format" []
              [("style", VStr "sci"); ("axis", VStr "x");
               ("scilimits", VTuple [VInt 0; VInt 0])]) ;;
  set_offset_fontsize offset_text_size ;;
  lib_call (plt "xticks" [] [("fontsize", font_size)]) ;;
  lib_call (plt "yticks" [] [("fontsize", font_size)]) ;;
  ret tt.

(** Lines 374-413. *)
Definition plot_dynamic_subplots (list_of_data : loc)
    (name_x name_y : pyval) (filename_to_save : string)
    (marker_size font_size offset_text_size legend_loc legend_size
     x_ticks_limit : pyval) : M unit :=
  enter "plot_dynamic_subplots" ;;
  current <- read_list list_of_data ;;
  lib_call (plt "figure" []
              [("figsize",
                VTuple [VInt 8; VInt (Z.of_nat (length current) * 4)])]) ;;
  entries <- read_list list_of_data ;;
  for_enumerate 1 entries
    (subplot_body list_of_data name_x name_y marker_size font_size
       offset_text_size legend_loc legend_size x_ticks_limit) ;;
  lib_call (plt "tight_layout" [] []) ;;
  save_unless "nosvg" filename_to_save [("format", VStr "pdf")] ;;
  lib_call (plt "show" [] []) ;;
  ret tt.

End Library.

(** ** A call of any plotting function

    One constructor per plotting function, with the arguments of its
    signature in order. *)
Inductive plot_call : Type :=
| OneAxis (list_of_data : loc)
    (name_x name_y plot_title : pyval) (filename_to_save : string)
    (marker_size font_size offset_text_size legend_local legend_size
     x_ticks_limit x_ticks_numstyle line_width y_lim : pyval)
| OneAxisVLines (list_of_data : loc)
    (name_x name_y plot_title : pyval) (filename_to_save : string)
    (marker_size font_size offset_text_size legend_local legend_size
     x_ticks_limit vlines y_lim : pyval)
| ErrorBarsByList (ALLDATA : loc)
    (name_x name_y plot_title : pyval) (filename_to_save : string)
    (line_style marker_type marker_size capsize_errorbars transparency : pyval)
| OneAxisPoints (list_of_data list_of_points : loc)
    (name_x name_y plot_title : pyval) (filename_to_save : string)
    (marker_type marker_size : pyval)
| TwoAxesVLines (data_y_one data_y_two : loc)
    (name_x name_y1 name_y2 col_ax1 col_ax2 plot_title : pyval)
    (filename_to_save : string)
    (marker_size font_size legend_size legend_local vlines x_ticks : pyval)
| ErrorBarsFits (list_of_data list_of_fit : loc)
    (name_x name_y plot_title : pyval) (filename_to_save : string)
    (marker_type marker_size capsize_errorbars alpha_data font_size
     offset_text_size legend_size legend_local x_ticks_limit : pyval)
| DynamicSubplots (list_of_data : loc)
    (name_x name_y : pyval) (filename_to_save : string)
    (marker_size font_size offset_text_size legend_loc legend_size
     x_ticks_limit : pyval).

Definition exec (lib : list event -> call -> outcome) (c : plot_call)
    : M unit :=
  match c with
  | OneAxis l nx ny t f ms fs ots ll ls xl xn lw yl =>
      plot_with_one_axis lib l nx ny t f ms fs ots ll ls xl xn lw yl
  | OneAxisVLines l nx ny t f ms fs ots ll ls xl vl yl =>
      plot_with_one_axis_with_vertical_lines lib l nx ny t f ms fs ots ll ls
        xl vl yl
  | ErrorBarsByList l nx ny t f lst mt ms ce tr =>
      plot_with_one_axis_and_error_bars_BYLIST lib l nx ny t f lst mt ms ce tr
  | OneAxisPoints l p nx ny t f mt ms =>
      plot_with_one_axis_with_points lib l p nx ny t f mt ms
  | TwoAxesVLines d1 d2 nx n1 n2 c1 c2 t f ms fs ls ll vl xt =>
      plot_with_two_axes_with_N_curves_with_VERTICAL_lines lib d1 d2 nx n1 n2
        c1 c2 t f ms fs ls ll vl xt
  | ErrorBarsFits l fit nx ny t f mt ms ce al fs ots ls ll xl =>
      one_axis__N_Y_with_error_bars__with_N_fits lib l fit nx ny t f mt ms ce
        al fs ots ls ll xl
  | DynamicSubplots l nx ny f ms fs ots ll ls xl =>
      plot_dynamic_subplots lib l nx ny f ms fs ots ll ls xl
  end.

Definition function_name (c : plot_call) : string :=
  match c with
  | OneAxis _ _ _ _ _ _ _ _ _ _ _ _ _ _ => "plot_with_one_axis"
  | OneAxisVLines _ _ _ _ _ _ _ _ _ _ _ _ _ =>
      "plot_with_one_axis_with_vertical_lines"
  | ErrorBarsByList _ _ _ _ _ _ _ _ _ _ =>
      "plot_with_one_axis_and_error_bars_BYLIST"
  | OneAxisPoints _ _ _ _ _ _ _ _ => "plot_with_one_axis_with_points"
  | TwoAxesVLines _ _ _ _ _ _ _ _ _ _ _ _ _ _ _ =>
      "plot_with_two_axes_with_N_curves_with_VERTICAL_lines"
  | ErrorBarsFits _ _ _ _ _ _ _ _ _ _ _ _ _ _ _ =>
      "one_axis__N_Y_with_error_bars__with_N_fits"
  | DynamicSubplots _ _ _ _ _ _ _ _ _ _ => "plot_dynamic_subplots"
  end.

(** The [filename_to_save] argument of a call. *)
Definition filename_of (c : plot_call) : string :=
  match c with
  | OneAxis _ _ _ _ f _ _ _ _ _ _ _ _ _ => f
  | OneAxisVLines _ _ _ _ f _ _ _ _ _ _ _ _ => f
  | ErrorBarsByList _ _ _ _ f _ _ _ _ _ => f
  | OneAxisPoints _ _ _ _ _ f _ _ => f
  | TwoAxesVLines _ _ _ _ _ _ _ _ f _ _ _ _ _ _ => f
  | ErrorBarsFits _ _ _ _ _ f _ _ _ _ _ _ _ _ _ => f
  | DynamicSubplots _ _ _ f _ _ _ _ _ _ => f
  end.

(** The default of [filename_to_save] in each signature (lines 26, 87,
    149, 194, 242, 318, 374). *)
Definition default_filename (c : plot_call) : string :=
  match c with
  | OneAxis _ _ _ _ _ _ _ _ _ _ _ _ _ _ => "nosvg"
  | OneAxisVLines _ _ _ _ _ _ _ _ _ _ _ _ _ => "nosvg"
  | ErrorBarsByList _ _ _ _ _ _ _ _ _ _ => "nosvg"
  | OneAxisPoints _ _ _ _ _ _ _ _ => "nopdf"
  | TwoAxesVLines _ _ _ _ _ _ _ _ _ _ _ _ _ _ _ => "nopdf"
  | ErrorBarsFits _ _ _ _ _ _ _ _ _ _ _ _ _ _ _ => "nopdf"
  | DynamicSubplots _ _ _ _ _ _ _ _ _ _ => "nosvg"
  end.

(** The first call into the library of each function (lines 47, 106, 167,
    210, 264, 333, 377), from a heap [h]. *)
Definition opening_call (c : plot_call) (h : list (list pyval)) : call :=
  match c with
  | TwoAxesVLines _ _ _ _ _ _ _ _ _ _ _ _ _ _ _ => plt "subplots" [] []
  | DynamicSubplots l _ _ _ _ _ _ _ _ _ =>
      plt "figure" []
        [("figsize", VTuple [VInt 8; VInt (Z.of_nat (length (read h l)) * 4)])]
  | _ => plt "figure" [] []
  end.

(** Calls with the defaults of the signatures, the filename apart. *)
Definition one_axis_call (list_of_data : loc) (filename : string)
    : plot_call :=
  OneAxis list_of_data (VStr "x") (VStr "y") (VStr "") filename (VStr "5")
    (VInt 16) (VInt 16) (VStr "best") (VInt 16) (VInt 5) (VStr "sci")
    (VFloat (3 # 2)) VNone.

Definition vlines_call (list_of_data : loc) (filename : string)
    (vlines : pyval) : plot_call :=
  OneAxisVLines list_of_data (VStr "x") (VStr "y") (VStr "title") filename
    (VStr "5") (VInt 16) (VInt 16) (VStr "best") (VInt 16) (VInt 5) vlines
    VNone.

Definition error_bars_call (ALLDATA : loc) (name_x name_y : pyval)
    (filename : string) (line_style : pyval) : plot_call :=
  ErrorBarsByList ALLDATA name_x name_y (VStr "title") filename line_style
    (VStr "o") (VStr "5") (VInt 5) (VFloat 1).

Definition points_call (list_of_data list_of_points : loc)
    (filename : string) : plot_call :=
  OneAxisPoints list_of_data list_of_points (VStr "x") (VStr "y")
    (VStr "title") filename (VStr "o") (VStr "5").

Definition two_axes_call (data_y_one data_y_two : loc) (filename : string)
    (vlines : pyval) : plot_call :=
  TwoAxesVLines data_y_one data_y_two (VStr "name_x") (VStr "name_y1")
    (VStr "name_y2") (VStr "red") (VStr "blue") (VStr "title") filename
    (VStr "5") (VInt 18) (VInt 18) (VStr "best") vlines (VBool true).

Definition fits_call (list_of_data list_of_fit : loc) (filename : string)
    : plot_call :=
  ErrorBarsFits list_of_data list_of_fit (VStr "name_x") (VStr "name_y")
    (VStr "title") filename (VStr "o") (VStr "5") (VInt 5) (VFloat (1 # 2))
    (VInt 16) (VInt 16) (VInt 16) (VStr "best") (VInt 5).

Definition subplots_call (list_of_data : loc) (filename : string)
    : plot_call :=
  DynamicSubplots list_of_data (VStr "x") (VStr "y") filename (VInt 5)
    (VInt 16) (VInt 16) (VStr "best") (VInt 16) (VInt 5).

(** ** Reading the trace *)

Definition is_enter (e : event) : bool :=
  match e with EEnter _ => true | ECall _ => false end.

Definition calls (name : string) (e : event) : bool :=
  match e with
  | EEnter _ => false
  | ECall c => String.eqb (fn c) name
  end.

(** A curve is drawn by [plt.plot] or by the [plot] method of an axes. *)
Definition is_curve : event -> bool := calls "plot".
Definition is_save : event -> bool := calls "savefig".
Definition is_axvline : event -> bool := calls "axvline".
Definition is_errorbar : event -> bool := calls "errorbar".
Definition is_subplot : event -> bool := calls "subplot".

(** The keyword argument [name] of a call. *)
Fixpoint assoc (name : string) (kw : list (string * pyval)) : option pyval :=
  match kw with
  | [] => None
  | (k, v) :: rest => if String.eqb k name then Some v else assoc name rest
  end.

Definition kwarg (name : string) (c : call) : option pyval :=
  assoc name (kwargs c).

(** The calls that make a new figure.  [plt.figure(num, ...)] makes the
    figure [num] current when it exists, and makes a new figure only when
    [num] is not given: so [plt.figure] with no positional argument and no
    keyword [num], and [plt.subplots], which takes [num] by keyword only,
    with no keyword [num]. *)
Definition creates_figure (c : call) : bool :=
  match recv c, kwarg "num" c with
  | Pyplot, None =>
      (String.eqb (fn c) "figure" && Nat.eqb (length (args c)) 0)
      || String.eqb (fn c) "subplots"
  | _, _ => false
  end.

(** A call of [plt.figure] or [plt.subplots], whatever its arguments: the
    calls that make a figure or select one. *)
Definition is_figure_call (e : event) : bool :=
  calls "figure" e || calls "subplots" e.

(** The document a call is asked to write. *)
Definition savefig_of (c : plot_call) (kw : list (string * pyval)) : event :=
  ECall (plt "savefig" [VStr (String.append (filename_of c) ".pdf")] kw).

(** [blocks R i items t]: the trace [t] is made of one block of events per
    item, in order, the block of the item at position [i + k] being related
    to it by [R (i + k)]. *)
Fixpoint blocks (R : Z -> pyval -> list event -> Prop) (i : Z)
    (items : list pyval) (t : list event) : Prop :=
  match items with
  | [] => t = []
  | d :: rest =>
      exists es t', t = es ++ t' /\ R i d es /\ blocks R (i + 1) rest t'
  end.

(** The call [c] draws the six-field series descriptor [d]: its data are
    the descriptor's x and y values and its label, colour, line style and
    marker are the descriptor's. *)
Definition draws_series (h : list (list pyval)) (c : call) (d : pyval)
    : Prop :=
  exists x y label color line_style marker,
    items_of h d = Some [x; y; label; color; line_style; marker] /\
    args c = [x; y] /\
    kwarg "label" c = Some label /\
    kwarg "color" c = Some color /\
    kwarg "linestyle" c = Some line_style /\
    kwarg "marker" c = Some marker.

(** One curve per descriptor, drawn on [target]. *)
Definition one_curve (h : list (list pyval)) (target : receiver)
    (i : Z) (d : pyval) (es : list event) : Prop :=
  exists c, es = [ECall c] /\ recv c = target /\ draws_series h c d.

(** The call [c] draws the five-field descriptor [d] of
    [plot_with_one_axis_with_points] with the marker [marker]. *)
Definition draws_unmarked_series (h : list (list pyval)) (marker : pyval)
    (i : Z) (d : pyval) (es : list event) : Prop :=
  exists c x y label color line_style,
    es = [ECall c] /\ recv c = Pyplot /\
    items_of h d = Some [x; y; label; color; line_style] /\
    args c = [x; y] /\
    kwarg "label" c = Some label /\
    kwarg "color" c = Some color /\
    kwarg "linestyle" c = Some line_style /\
    kwarg "marker" c = Some marker.

(** The call [c] draws the point descriptor [p]. *)
Definition draws_point (h : list (list pyval))
    (i : Z) (p : pyval) (es : list event) : Prop :=
  exists c x y label marker size color,
    es = [ECall c] /\ recv c = Pyplot /\
    items_of h p = Some [x; y; label; marker; size; color] /\
    args c = [x; y] /\
    kwarg "label" c = Some label /\
    kwarg "marker" c = Some marker /\
    kwarg "markersize" c = Some size /\
    kwarg "color" c = Some color.

(** A value that is a list object refers to an object of the heap. *)
Definition allocated (h : list (list pyval)) (v : pyval) : Prop :=
  match v with VList a => a < length h | _ => True end.

(** The events of the layout of [plot_dynamic_subplots]. *)
Definition is_layout (e : event) : bool :=
  calls "figure" e || is_subplot e || is_curve e.

(** The [i]-th row of a grid of [n] rows and one column holds the curve of
    the descriptor [d] and nothing else. *)
Definition subplot_row (h : list (list pyval)) (n : nat)
    (i : Z) (d : pyval) (es : list event) : Prop :=
  exists c,
    es = [ECall (plt "subplot" [VInt (Z.of_nat n); VInt 1; VInt i] []);
          ECall c] /\
    recv c = Pyplot /\ draws_series h c d.

(** The error-bar call of an entry [d] of
    [plot_with_one_axis_and_error_bars_BYLIST]: five fields, and the line
    style ["-"]. *)
Definition draws_error_series (h : list (list pyval)) (marker : pyval)
    (i : Z) (d : pyval) (es : list event) : Prop :=
  exists c x y yerr label color,
    es = [ECall c] /\ recv c = Pyplot /\
    items_of h d = Some [x; y; yerr; label; color] /\
    args c = [x; y] /\
    kwarg "yerr" c = Some yerr /\
    kwarg "label" c = Some label /\
    kwarg "color" c = Some color /\
    kwarg "linestyle" c = Some (VStr "-") /\
    kwarg "fmt" c = Some marker.

(** The error-bar call of an entry [d] of
    [one_axis__N_Y_with_error_bars__with_N_fits]: the first six items of
    the entry. *)
Definition draws_styled_error_series (h : list (list pyval)) (marker : pyval)
    (i : Z) (d : pyval) (es : list event) : Prop :=
  exists c x y yerr label color line_style more,
    es = [ECall c] /\ recv c = Pyplot /\
    items_of h d
    = Some (x :: y :: yerr :: label :: color :: line_style :: more) /\
    args c = [x; y] /\
    kwarg "yerr" c = Some yerr /\
    kwarg "label" c = Some label /\
    kwarg "color" c = Some color /\
    kwarg "linestyle" c = Some line_style /\
    kwarg "fmt" c = Some marker.

Definition not_curve (e : event) : Prop := is_curve e = false.

(** The items of the list a palette function returns. *)
Definition returned_items (p : pystate * result pyval)
    : option (list pyval) :=
  match p with
  | (s', Ok v) => items_of (heap s') v
  | (_, Err _) => None
  end.

(** The saving and the drawing of vertical lines, in the order they
    happen. *)
Definition save_or_vline (e : event) : bool := is_save e || is_axvline e.

(** The shapes of the entries. *)
Definition six_fields (h : list (list pyval)) (d : pyval) : Prop :=
  exists a b c e f g, items_of h d = Some [a; b; c; e; f; g].

Definition five_fields (h : list (list pyval)) (d : pyval) : Prop :=
  exists a b c e f, items_of h d = Some [a; b; c; e; f].

Definition three_fields (h : list (list pyval)) (d : pyval) : Prop :=
  exists a b c, items_of h d = Some [a; b; c].

Definition six_or_more (h : list (list pyval)) (d : pyval) : Prop :=
  exists a b c e f g more,
    items_of h d = Some (a :: b :: c :: e :: f :: g :: more).

Definition four_or_more (h : list (list pyval)) (d : pyval) : Prop :=
  exists a b c e more, items_of h d = Some (a :: b :: c :: e :: more).

(** An optional argument that is used only when it is true ([y_lim],
    [vlines]): when true, it can be iterated and its items satisfy [P]. *)
Definition usable (h : list (list pyval)) (P : pyval -> Prop) (v : pyval)
    : Prop :=
  truth h v = true ->
  exists items, items_of h v = Some items /\ Forall P items.

(** A library that accepts every call. *)
Definition never_raises (lib : list event -> call -> outcome) : Prop :=
  forall history c, exists v, lib history c = Returns v.

(** ** Relations between the state before and after a run *)

(** The trace grew by events that all satisfy [P]. *)
Definition extends_with (P : event -> Prop) (s s' : pystate)
    (r : option exn) : Prop :=
  exists t, trace s' = trace s ++ t /\ Forall P t.

(** Heap and module variables are the same. *)
Definition same_store (s s' : pystate) (r : option exn) : Prop :=
  heap s' = heap s /\ module_vars s' = module_vars s.

(** The first [n] objects of the heap and the module variables are the
    same. *)
Definition frame (n : nat) (s s' : pystate) (r : option exn) : Prop :=
  n <= length (heap s) ->
  n <= length (heap s') /\ take n (heap s') = take n (heap s) /\
  module_vars s' = module_vars s.

(** [replay lib history t r]: the events [t], issued after [history],
    are answered by the library without raising, except possibly the last
    one; if the last one raises [x] the run ends there with exactly [x];
    and a run ends with an exception of the library in no other way. *)
Fixpoint replay (lib : list event -> call -> outcome)
    (history t : list event) (r : option exn) : Prop :=
  match t with
  | [] => match r with Some (LibraryError _) => False | _ => True end
  | EEnter f :: t' => replay lib (history ++ [EEnter f]) t' r
  | ECall c :: t' =>
      match lib history c with
      | Returns _ => replay lib (history ++ [ECall c]) t' r
      | Raises x => t' = [] /\ r = Some (LibraryError x)
      end
  end.

Definition faithful (lib : list event -> call -> outcome)
    (s s' : pystate) (r : option exn) : Prop :=
  exists t, trace s' = trace s ++ t /\ replay lib (trace s) t r.

(** A relation that holds of every step composes along a run when it is
    reflexive on normal steps, transitive through normal steps, and holds
    where the interpreter raises. *)
Record law (Q : pystate -> pystate -> option exn -> Prop) : Prop := {
  law_refl : forall s, Q s s None;
  law_trans : forall s s1 s2 r, Q s s1 None -> Q s1 s2 r -> Q s s2 r;
  law_raise : forall s e, interpreter_error e -> Q s s (Some e)
}.

Definition both (Q1 Q2 : pystate -> pystate -> option exn -> Prop)
    (s s' : pystate) (r : option exn) : Prop :=
  Q1 s s' r /\ Q2 s s' r.

(** Every run of [m] relates the states before and after by [Q]. *)
Definition obeys {A} (Q : pystate -> pystate -> option exn -> Prop)
    (m : M A) : Prop :=
  forall s, Q s (m s).1 (error_of (m s).2).

(** [m] leaves the state alone and fails, if at all, with an exception of
    the interpreter. *)
Definition silent {A} (m : M A) : Prop :=
  forall s, (m s).1 = s /\
            match (m s).2 with Ok _ => True | Err e => interpreter_error e end.

(** From a state whose heap is [h0], [m] returns normally a value that
    satisfies [Q], in a state whose heap is [h0]. *)
Definition goes (h0 : list (list pyval)) {A} (m : M A) (Q : A -> Prop)
    : Prop :=
  forall s, heap s = h0 ->
    exists x, (m s).2 = Ok x /\ Q x /\ heap (m s).1 = h0.

(** From a state whose heap satisfies [P], [m] returns normally a value
    [x] in a state whose heap satisfies [Q x]. *)
Definition hoare (P : list (list pyval) -> Prop) {A} (m : M A)
    (Q : A -> list (list pyval) -> Prop) : Prop :=
  forall s, P (heap s) ->
    exists x, (m s).2 = Ok x /\ Q x (heap (m s).1).

(** The heap [h] holds the objects of [h0] unchanged, and maybe more. *)
Definition kept (h0 h : list (list pyval)) : Prop :=
  take (length h0) h = h0.

Definition is_seq (v : pyval) : Prop := exists items, v = VTuple items.

(** The list at [a] was made after [h0] and holds sequences only. *)
Definition own_list (h0 : list (list pyval)) (a : loc)
    (h : list (list pyval)) : Prop :=
  length h0 <= a /\ a < length h /\ Forall is_seq (read h a).

(** What the two-axes function needs of the library: [plt.subplots]
    returns a figure and an axes, and [plot] a sequence of lines. *)
Definition returns_axes (lib : list event -> call -> outcome) : Prop :=
  (forall history, exists fig ax,
     lib history (plt "subplots" [] []) = Returns (VTuple [fig; ax])) /\
  (forall history c, fn c = "plot" ->
     exists lines, lib history c = Returns (VTuple lines)).

(** A property of the heap that survives a new object and an appended
    sequence. *)
Definition stable (P : list (list pyval) -> Prop) : Prop :=
  (forall h items, P h -> P (h ++ [items])) /\
  (forall h a v, is_seq v -> P h -> P (alter (fun l => l ++ [v]) a h)).

(** An entry the caller made: it has [n] fields and is an object of the
    caller's heap. *)
Definition given (F : list (list pyval) -> pyval -> Prop)
    (h0 : list (list pyval)) (d : pyval) : Prop :=
  F h0 d /\ allocated h0 d.


(** ** A library for examples, and sample data *)

(** A library that never raises: [subplots] returns a figure and an axes,
    [plot] a list of one line, every other call a new object. *)
Definition quiet_lib (history : list event) (c : call) : outcome :=
  if String.eqb (fn c) "subplots" then Returns (VTuple [VObj 0; VObj 1])
  else if String.eqb (fn c) "plot"
       then Returns (VTuple [VObj (length history)])
  else if String.eqb (fn c) "get_label" then Returns (VStr "line")
  else Returns (VObj (length history)).


Definition xs : pyval := VTuple [VInt 0; VInt 1; VInt 2].
Definition ys : pyval := VTuple [VInt 0; VInt 1; VInt 4].
Definition errs : pyval := VTuple [VInt 1; VInt 1; VInt 1].

Definition series_a : pyval :=
  VTuple [xs; ys; VStr "a"; VStr "#ffb400"; VStr "-"; VStr "o"].
Definition series_b : pyval :=
  VTuple [xs; xs; VStr "b"; VStr "#d2980d"; VStr "--"; VStr "s"].
Definition unmarked_a : pyval :=
  VTuple [xs; ys; VStr "a"; VStr "#ffb400"; VStr "-"].
Definition point_p : pyval :=
  VTuple [VInt 1; VInt 1; VStr "p"; VStr "x"; VInt 9; VStr "red"].
Definition error_series_a : pyval :=
  VTuple [xs; ys; errs; VStr "a"; VStr "#ffb400"].
Definition error_series_styled : pyval :=
  VTuple [xs; ys; errs; VStr "a"; VStr "#ffb400"; VStr "--"].
Definition fit_a : pyval := VTuple [xs; ys; VStr "fit"; VStr "black"].
(** A series descriptor with a y-error sequence added: seven fields. *)
Definition series_with_errors : pyval :=
  VTuple [xs; ys; VStr "a"; VStr "#ffb400"; VStr "-"; VStr "o"; errs].
Definition short_entry : pyval := VTuple [xs; ys; VStr "a"].
Definition vline_1 : pyval := VTuple [VInt 1; VStr "red"; VStr "--"].

(** A heap with one list object per kind of descriptor list:
    0: two series, 1: one five-field series, 2: one point,
    3: one five-field error series, 4: one six-field error series,
    5: one fit, 6: a seven-field entry, 7: a three-field entry,
    8: one series, 9: no entry. *)
Definition sample_heap : list (list pyval) :=
  [[series_a; series_b]; [unmarked_a]; [point_p]; [error_series_a];
   [error_series_styled]; [fit_a]; [series_with_errors]; [short_entry];
   [series_b]; []].

Definition sample_state : pystate := PyState sample_heap [] [].

(** ** Further readings of the trace *)

Definition is_show : event -> bool := calls "show".
Definition is_legend : event -> bool := calls "legend".
Definition is_ylim : event -> bool := calls "ylim".

(** The calls that put data on the chart. *)
Definition is_drawing (e : event) : bool :=
  is_curve e || is_errorbar e || is_subplot e.

(** A palette function followed by an [append] to the list it returned,
    and by a second call of the same function. *)
Definition palette_twice (palette : M pyval) (v : pyval)
    : M (pyval * pyval) :=
  first <- palette ;;
  match first with
  | VList a => list_append a v
  | _ => ret tt
  end ;;
  second <- palette ;;
  ret (first, second).

(** The error bars and the curves. *)
Definition is_data (e : event) : bool := is_errorbar e || is_curve e.

(** The call that draws the fit [f] of
    [one_axis__N_Y_with_error_bars__with_N_fits]: its first four items are
    the x values, the y values, the label and the colour, and the call has
    no other keyword. *)
Definition draws_fit (h : list (list pyval))
    (i : Z) (f : pyval) (es : list event) : Prop :=
  exists x y label color more,
    items_of h f = Some (x :: y :: label :: color :: more) /\
    es = [ECall (plt "plot" [x; y] [("label", label); ("color", color)])].

(** The call that draws the vertical line [d] on [target]. *)
Definition one_vline (h : list (list pyval)) (target : receiver)
    (i : Z) (d : pyval) (es : list event) : Prop :=
  exists x color linestyle,
    items_of h d = Some [x; color; linestyle] /\
    es = [ECall (Call target "axvline" []
                   [("x", x); ("color", color); ("linestyle", linestyle)])].

(** The [axvline] calls that [vlines] asks for: none when [vlines] is
    false, one per item otherwise. *)
Definition vlines_drawn (h : list (list pyval)) (target : receiver)
    (vlines : pyval) (t : list event) : Prop :=
  if truth h vlines then
    exists items, items_of h vlines = Some items /\
                  blocks (one_vline h target) 0 items t
  else t = [].

(** The [ylim] calls that [y_lim] asks for: none when [y_lim] is false,
    one call with the items of [y_lim] as arguments otherwise. *)
Definition limits_set (h : list (list pyval)) (y_lim : pyval)
    (t : list event) : Prop :=
  if truth h y_lim then
    exists items, items_of h y_lim = Some items /\
                  t = [ECall (plt "ylim" items [])]
  else t = [].

(** The value [r] that [plt.subplots()] returns to the two-axes function
    of a call from state [s], and its two items. *)
Definition subplots_returns (lib : list event -> call -> outcome)
    (s : pystate) (r fig ax : pyval) : Prop :=
  lib (trace s ++
         [EEnter "plot_with_two_axes_with_N_curves_with_VERTICAL_lines"])
      (plt "subplots" [] []) = Returns r /\
  items_of (heap s) r = Some [fig; ax].

(** ** The legend of the two-axes function *)

Definition is_get_label : event -> bool := calls "get_label".

(** The call [l.get_label()]. *)
Definition asks_label (l : pyval) : event :=
  ECall (method l "get_label" [] []).

(** The values that the library returned to the calls of [t] that [sel]
    selects, in order; [t] was issued after [history]. *)
Fixpoint returned (lib : list event -> call -> outcome) (sel : event -> bool)
    (history t : list event) : list pyval :=
  match t with
  | [] => []
  | e :: rest =>
      match e with
      | ECall c =>
          if sel e then
            match lib history c with Returns v => [v] | Raises _ => [] end
          else []
      | EEnter _ => []
      end ++ returned lib sel (history ++ [e]) rest
  end.

(** What [plot] returns is a value of the library or of the caller: if it
    is a list object, it is one of the heap [h], not one that the call
    will make. *)
Definition lines_known (lib : list event -> call -> outcome)
    (h : list (list pyval)) : Prop :=
  forall history c v,
    is_curve (ECall c) = true -> lib history c = Returns v -> allocated h v.

(** Neither a curve, nor the legend, nor a label request. *)
Definition not_legend (e : event) : Prop :=
  is_curve e || is_legend e || is_get_label e = false.

(** A run of [m] that ends with an exception of the interpreter has
    only issued events that satisfy [P]. *)
Definition fails_within (P : event -> Prop) {A} (m : M A) : Prop :=
  forall s e, (m s).2 = Err e -> interpreter_error e ->
    exists t, trace (m s).1 = trace s ++ t /\ Forall P t.

(** * Proofs *)

(** ** Runs that return normally *)

Lemma bind_Ok_inv {A B} (m : M A) (k : A -> M B) s s' y :
  bind m k s = (s', Ok y) ->
  exists s1 x, m s = (s1, Ok x) /\ k x s1 = (s', Ok y).
Proof.
  unfold bind. destruct (m s) as [s1 [x | e]]; intros H.
  - exists s1, x. split; [reflexivity | exact H].
  - discriminate H.
Qed.

Lemma obeys_run {A} Q (m : M A) s s1 r :
  obeys Q m -> m s = (s1, r) -> Q s s1 (error_of r).
Proof. intros H E. specialize (H s). rewrite E in H. exact H. Qed.

Lemma silent_run {A} (m : M A) s s1 r :
  silent m -> m s = (s1, r) -> s1 = s.
Proof. intros H E. destruct (H s) as [H1 _]. rewrite E in H1. exact H1. Qed.

(** ** The laws *)

Lemma law_extends P : law (extends_with P).
Proof.
  split.
  - intros s. exists []. split; [symmetry; apply app_nil_r | constructor].
  - intros s s1 s2 r (t1 & E1 & F1) (t2 & E2 & F2).
    exists (t1 ++ t2). split.
    + rewrite E2, E1. symmetry. apply app_assoc.
    + apply Forall_app. split; assumption.
  - intros s e _. exists []. split; [symmetry; apply app_nil_r | constructor].
Qed.

Lemma law_same_store : law same_store.
Proof.
  split.
  - intros s. split; reflexivity.
  - intros s s1 s2 r [H1 V1] [H2 V2]. split; congruence.
  - intros s e _. split; reflexivity.
Qed.

Lemma law_frame n : law (frame n).
Proof.
  split.
  - intros s Hn. auto.
  - intros s s1 s2 r H1 H2 Hn.
    destruct (H1 Hn) as (L1 & T1 & V1).
    destruct (H2 L1) as (L2 & T2 & V2).
    repeat split; congruence.
  - intros s e _ Hn. auto.
Qed.

Lemma replay_app lib t1 : forall history t2 r,
  replay lib history t1 None ->
  replay lib (history ++ t1) t2 r ->
  replay lib history (t1 ++ t2) r.
Proof.
  induction t1 as [| e t1 IH]; intros history t2 r H1 H2.
  - rewrite app_nil_r in H2. exact H2.
  - rewrite (cons_middle e history t1), app_assoc in H2.
    destruct e as [f | c]; simpl in *.
    + apply IH; assumption.
    + destruct (lib history c) as [v | x].
      * apply IH; assumption.
      * destruct H1 as [_ H1]. discriminate H1.
Qed.

Lemma law_faithful lib : law (faithful lib).
Proof.
  split.
  - intros s. exists []. split; [symmetry; apply app_nil_r | exact I].
  - intros s s1 s2 r (t1 & E1 & R1) (t2 & E2 & R2).
    exists (t1 ++ t2). split.
    + rewrite E2, E1. symmetry. apply app_assoc.
    + apply replay_app; [exact R1 | rewrite <- E1; exact R2].
  - intros s e He. exists []. split; [symmetry; apply app_nil_r |].
    destruct e; simpl in *; tauto.
Qed.

Lemma law_both Q1 Q2 : law Q1 -> law Q2 -> law (both Q1 Q2).
Proof.
  intros L1 L2. split.
  - intros s. split; apply law_refl; assumption.
  - intros s s1 s2 r [A1 A2] [B1 B2].
    split; eapply law_trans; eassumption.
  - intros s e He. split; apply law_raise; assumption.
Qed.

(** ** Composition *)

Lemma obeys_ret {A} Q (a : A) : law Q -> obeys Q (ret a).
Proof. intros L s. apply (law_refl _ L). Qed.

Lemma obeys_bind {A B} Q (m : M A) (k : A -> M B) :
  law Q -> obeys Q m -> (forall x, obeys Q (k x)) -> obeys Q (bind m k).
Proof.
  intros L Hm Hk s. unfold bind. specialize (Hm s).
  destruct (m s) as [s1 [x | e]]; simpl in *.
  - eapply (law_trans _ L); [exact Hm | apply Hk].
  - exact Hm.
Qed.

Lemma obeys_both {A} Q1 Q2 (m : M A) :
  obeys Q1 m -> obeys Q2 m -> obeys (both Q1 Q2) m.
Proof. intros H1 H2 s. split; [apply H1 | apply H2]. Qed.

Lemma obeys_silent {A} Q (m : M A) : law Q -> silent m -> obeys Q m.
Proof.
  intros L H s. destruct (H s) as [E He].
  destruct (m s) as [s1 [x | e]]; simpl in *; subst s1.
  - apply (law_refl _ L).
  - apply (law_raise _ L). exact He.
Qed.

Lemma obeys_for_enumerate Q body items :
  law Q -> (forall i x, obeys Q (body i x)) ->
  forall i, obeys Q (for_enumerate i items body).
Proof.
  intros L Hb. induction items as [| x rest IH]; intros i; simpl.
  - apply obeys_ret, L.
  - apply obeys_bind; auto.
Qed.

Lemma obeys_for_each Q body items :
  law Q -> (forall x, obeys Q (body x)) -> obeys Q (for_each items body).
Proof.
  intros L Hb. induction items as [| x rest IH]; simpl.
  - apply obeys_ret, L.
  - apply obeys_bind; auto.
Qed.

Lemma obeys_collect Q f items :
  law Q -> (forall x, obeys Q (f x)) -> obeys Q (collect items f).
Proof.
  intros L Hf. induction items as [| x rest IH]; simpl.
  - apply obeys_ret, L.
  - apply obeys_bind; [exact L | apply Hf |]. intros y.
    apply obeys_bind; [exact L | exact IH |]. intros ys. apply obeys_ret, L.
Qed.

(** ** Silent operations *)

Lemma silent_ret {A} (a : A) : silent (ret a).
Proof. intros s. split; [reflexivity | exact I]. Qed.

Lemma silent_raise {A} e : interpreter_error e -> silent (@raise A e).
Proof. intros He s. split; [reflexivity | exact He]. Qed.

Lemma silent_get_heap : silent get_heap.
Proof. intros s. split; [reflexivity | exact I]. Qed.

Lemma silent_bind {A B} (m : M A) (k : A -> M B) :
  silent m -> (forall x, silent (k x)) -> silent (bind m k).
Proof.
  intros Hm Hk s. unfold bind. destruct (Hm s) as [E He].
  destruct (m s) as [s1 [x | e]]; simpl in *; subst s1.
  - apply Hk.
  - split; [reflexivity | exact He].
Qed.

Lemma interpreter_arity_error want got : interpreter_error (arity_error want got).
Proof. unfold arity_error. destruct (Nat.ltb got want); exact I. Qed.

Ltac silence :=
  repeat first
    [ apply silent_ret
    | apply silent_get_heap
    | apply silent_raise; first [exact I | apply interpreter_arity_error]
    | apply silent_bind; [| intros ?]
    | match goal with
      | |- silent (match ?x with _ => _ end) => destruct x
      end ].

Lemma silent_read_list a : silent (read_list a).
Proof. unfold read_list. silence. Qed.

Lemma silent_iter v : silent (iter v).
Proof. unfold iter. silence. Qed.

Lemma silent_truthy v : silent (truthy v).
Proof. unfold truthy. silence. Qed.

Lemma silent_subscript v i : silent (subscript v i).
Proof. unfold subscript. silence. Qed.

Lemma silent_unpack2 v : silent (unpack2 v).
Proof. unfold unpack2. apply silent_bind; [apply silent_iter |]. intros. silence. Qed.

Lemma silent_unpack3 v : silent (unpack3 v).
Proof. unfold unpack3. apply silent_bind; [apply silent_iter |]. intros. silence. Qed.

Lemma silent_unpack5 v : silent (unpack5 v).
Proof. unfold unpack5. apply silent_bind; [apply silent_iter |]. intros. silence. Qed.

Lemma silent_unpack6 v : silent (unpack6 v).
Proof. unfold unpack6. apply silent_bind; [apply silent_iter |]. intros. silence. Qed.

Lemma silent_flatten items : silent (flatten items).
Proof.
  induction items as [| x rest IH]; simpl.
  - apply silent_ret.
  - apply silent_bind; [apply silent_iter |]. intros xs_.
    apply silent_bind; [exact IH |]. intros. apply silent_ret.
Qed.

Create HintDb silent.
#[local] Hint Resolve silent_ret silent_read_list silent_iter silent_truthy
  silent_subscript silent_unpack2 silent_unpack3 silent_unpack5
  silent_unpack6 silent_flatten silent_get_heap : silent.

(** ** The primitive steps, relation by relation *)

Section Steps.

Variable lib : list event -> call -> outcome.

Lemma extends_enter P f : P (EEnter f) -> obeys (extends_with P) (enter f).
Proof.
  intros HP s. exists [EEnter f]. split; [reflexivity |].
  constructor; [exact HP | constructor].
Qed.

Lemma extends_lib_call P c :
  P (ECall c) -> obeys (extends_with P) (lib_call lib c).
Proof.
  intros HP s. exists [ECall c]. unfold lib_call.
  destruct (lib (trace s) c); (split; [reflexivity |]);
    (constructor; [exact HP | constructor]).
Qed.

Lemma extends_alloc P items : obeys (extends_with P) (alloc items).
Proof.
  intros s. exists []. split; [symmetry; apply app_nil_r | constructor].
Qed.

Lemma extends_list_append P a v : obeys (extends_with P) (list_append a v).
Proof.
  intros s. exists []. split; [symmetry; apply app_nil_r | constructor].
Qed.

Lemma same_store_enter f : obeys same_store (enter f).
Proof. intros s. split; reflexivity. Qed.

Lemma same_store_lib_call c : obeys same_store (lib_call lib c).
Proof.
  intros s. unfold lib_call. destruct (lib (trace s) c); split; reflexivity.
Qed.

Lemma frame_enter n f : obeys (frame n) (enter f).
Proof. intros s Hn. auto. Qed.

Lemma frame_lib_call n c : obeys (frame n) (lib_call lib c).
Proof.
  intros s Hn. unfold lib_call. destruct (lib (trace s) c); simpl; auto.
Qed.

Lemma frame_alloc_step n items s :
  n <= length (heap s) -> frame n s (alloc items s).1 None.
Proof.
  intros Hn _. simpl. rewrite length_app. simpl.
  split; [lia |]. split; [| reflexivity].
  apply take_app_le. exact Hn.
Qed.

Lemma frame_alloc n items : obeys (frame n) (alloc items).
Proof. intros s Hn. apply frame_alloc_step; exact Hn. Qed.

(** The object a list display creates is new: the code that follows it
    may append to it. *)
Lemma frame_bind_alloc {B} n items (k : loc -> M B) :
  (forall a, n <= a -> obeys (frame n) (k a)) ->
  obeys (frame n) (bind (alloc items) k).
Proof.
  intros Hk s Hn. unfold bind, alloc. cbv beta iota.
  refine (law_trans _ (law_frame n) s _ _ _
            (frame_alloc_step n items s Hn) _ Hn).
  apply Hk. exact Hn.
Qed.

Lemma frame_list_append n a v : n <= a -> obeys (frame n) (list_append a v).
Proof.
  intros Ha s Hn. simpl. rewrite length_alter.
  split; [exact Hn |]. split; [| reflexivity].
  rewrite take_alter. destruct (decide (a < n)); [lia | reflexivity].
Qed.

Lemma replay_one_call history c r :
  match lib history c with
  | Returns _ => r = None
  | Raises x => r = Some (LibraryError x)
  end ->
  replay lib history [ECall c] r.
Proof.
  intros H. simpl. destruct (lib history c).
  - subst r. exact I.
  - split; [reflexivity | exact H].
Qed.

Lemma faithful_enter f : obeys (faithful lib) (enter f).
Proof. intros s. exists [EEnter f]. split; [reflexivity | exact I]. Qed.

Lemma faithful_lib_call c : obeys (faithful lib) (lib_call lib c).
Proof.
  intros s. exists [ECall c]. unfold lib_call.
  split; [destruct (lib (trace s) c); reflexivity |].
  apply replay_one_call. destruct (lib (trace s) c); reflexivity.
Qed.

Lemma faithful_alloc items : obeys (faithful lib) (alloc items).
Proof. intros s. exists []. split; [symmetry; apply app_nil_r | exact I]. Qed.

Lemma faithful_list_append a v : obeys (faithful lib) (list_append a v).
Proof. intros s. exists []. split; [symmetry; apply app_nil_r | exact I]. Qed.

(** The saving block issues [savefig] only when the filename is not the
    sentinel. *)
Lemma extends_save_unless (P : event -> Prop) sentinel filename kw :
  (filename <> sentinel ->
   P (ECall (plt "savefig" [VStr (String.append filename ".pdf")] kw))) ->
  obeys (extends_with P) (save_unless lib sentinel filename kw).
Proof.
  intros HP. unfold save_unless.
  destruct (String.eqb_spec filename sentinel) as [E | N]; simpl.
  - apply obeys_ret, law_extends.
  - apply obeys_bind; [apply law_extends | | intros; apply obeys_ret, law_extends].
    apply extends_lib_call. apply HP. exact N.
Qed.

Lemma save_unless_Ok sentinel filename kw s s1 x :
  filename <> sentinel ->
  save_unless lib sentinel filename kw s = (s1, Ok x) ->
  trace s1
  = trace s ++ [ECall (plt "savefig" [VStr (String.append filename ".pdf")] kw)].
Proof.
  intros N. unfold save_unless.
  destruct (String.eqb_spec filename sentinel) as [E | _]; [contradiction |].
  simpl. unfold bind, lib_call, ret.
  destruct (lib (trace s) _); intros H; inversion H. reflexivity.
Qed.

End Steps.

Ltac solve_law :=
  first [ apply law_extends | apply law_same_store | apply law_frame
        | apply law_faithful | apply law_both; solve_law ].

Ltac head_of t := lazymatch t with ?f _ => head_of f | _ => t end.

(** [obey side] proves [obeys Q m] along the structure of [m]; [side]
    proves what [Q] asks of an event. *)
Ltac obey side :=
  lazymatch goal with
  | |- obeys (both _ _) _ => apply obeys_both; obey side
  | |- obeys (frame _) (bind (alloc _) _) =>
      apply frame_bind_alloc; intros ? ?; obey side
  | |- obeys _ (bind _ _) =>
      apply obeys_bind; [solve_law | obey side | intros ?; obey side]
  | |- obeys _ (ret _) => apply obeys_ret; solve_law
  | |- obeys _ (match ?x with _ => _ end) => destruct x; obey side
  | |- obeys _ (for_each _ _) =>
      apply obeys_for_each; [solve_law | intros ?; obey side]
  | |- obeys _ (for_enumerate _ _ _) =>
      apply obeys_for_enumerate; [solve_law | intros ? ?; obey side]
  | |- obeys _ (collect _ _) =>
      apply obeys_collect; [solve_law | intros ?; obey side]
  | |- obeys (extends_with _) (enter _) => apply extends_enter; side
  | |- obeys (extends_with _) (lib_call _ _) => apply extends_lib_call; side
  | |- obeys (extends_with _) (alloc _) => apply extends_alloc
  | |- obeys (extends_with _) (list_append _ _) => apply extends_list_append
  | |- obeys same_store (enter _) => apply same_store_enter
  | |- obeys same_store (lib_call _ _) => apply same_store_lib_call
  | |- obeys (frame _) (enter _) => apply frame_enter
  | |- obeys (frame _) (lib_call _ _) => apply frame_lib_call
  | |- obeys (frame _) (alloc _) => apply frame_alloc
  | |- obeys (frame _) (list_append _ _) => apply frame_list_append; assumption
  | |- obeys (faithful _) (enter _) => apply faithful_enter
  | |- obeys (faithful _) (lib_call _ _) => apply faithful_lib_call
  | |- obeys (faithful _) (alloc _) => apply faithful_alloc
  | |- obeys (faithful _) (list_append _ _) => apply faithful_list_append
  | |- obeys (extends_with _) (save_unless _ _ _ _) =>
      apply extends_save_unless; side
  | |- obeys _ ?m =>
      first [ apply obeys_silent; [solve_law | solve [auto with silent]]
            | let h := head_of m in unfold h; obey side ]
  end.

(** ** Events of a run *)

Lemma events_since_app s s' t :
  trace s' = trace s ++ t -> events_since s s' = t.
Proof. intros E. unfold events_since. rewrite E. apply drop_app_length. Qed.

Lemma extends_events P s s' r :
  extends_with P s s' r -> Forall P (events_since s s').
Proof. intros (t & E & F). rewrite (events_since_app _ _ _ E). exact F. Qed.

Lemma read_new_object (h : list (list pyval)) items :
  read (h ++ [items]) (length h) = items.
Proof. unfold read. rewrite list_lookup_middle; reflexivity. Qed.

(** ** Every plotting function obeys the relations *)

Lemma plot_calls_frame lib c n : obeys (frame n) (exec lib c).
Proof. destruct c; unfold exec; obey idtac. Qed.


(** ** The store *)

(** C4: a plotting function leaves every object of the caller as it was
    (the heap before the call is an initial segment of the heap after it:
    the call only adds objects of its own) and leaves the variables of the
    module as they were, whatever the arguments and whatever the library
    does. *)
Theorem inputs_unchanged lib (c : plot_call) (s : pystate) :
  heap s `prefix_of` heap (exec lib c s).1 /\
  module_vars (exec lib c s).1 = module_vars s.
Proof.
  destruct (plot_calls_frame lib c (length (heap s)) s (Nat.le_refl _))
    as (L & T & V).
  split; [| exact V].
  rewrite (take_ge (heap s)) in T by reflexivity.
  exists (drop (length (heap s)) (heap (exec lib c s).1)).
  rewrite <- T at 1. symmetry. apply take_drop.
Qed.

(** ** Failures *)




(** ** Figures *)

Lemma begins_with lib P f c (k : pyval -> M unit) s :
  (forall v, obeys (extends_with P) (k v)) ->
  exists t,
    events_since s (bind (enter f) (fun _ => bind (lib_call lib c) k) s).1
    = EEnter f :: ECall c :: t /\
    Forall P t.
Proof.
  intros Hk. unfold bind, enter, lib_call. simpl.
  destruct (lib (trace s ++ [EEnter f]) c) as [v | x].
  - match goal with
    | |- context [k v ?s2] => destruct (Hk v s2) as (t & E & F)
    end.
    exists t. split; [| exact F].
    apply events_since_app. rewrite E. simpl.
    rewrite <- !app_assoc. reflexivity.
  - exists []. split; [| constructor].
    apply events_since_app. simpl. rewrite <- !app_assoc. reflexivity.
Qed.

(** The same when the length of a list object is taken first, as in
    [plt.figure(figsize=(8, len(list_of_data) * 4))]. *)
Lemma begins_with_len lib P f a (c : list pyval -> call)
    (k : list pyval -> pyval -> M unit) s :
  (forall items v, obeys (extends_with P) (k items v)) ->
  exists t,
    events_since s
      (bind (enter f) (fun _ =>
         bind (read_list a) (fun current =>
           bind (lib_call lib (c current)) (k current))) s).1
    = EEnter f :: ECall (c (read (heap s) a)) :: t /\
    Forall P t.
Proof.
  intros Hk.
  exact (begins_with lib P f (c (read (heap s) a)) (k (read (heap s) a)) s
           (Hk _)).
Qed.

Lemma plot_calls_start lib (c : plot_call) (s : pystate) :
  exists t,
    events_since s (exec lib c s).1
    = EEnter (function_name c) :: ECall (opening_call c (heap s)) :: t /\
    Forall (fun e => is_enter e || is_figure_call e = false) t.
Proof.
  destruct c; simpl function_name; simpl opening_call; unfold exec;
    [ unfold plot_with_one_axis
    | unfold plot_with_one_axis_with_vertical_lines
    | unfold plot_with_one_axis_and_error_bars_BYLIST
    | unfold plot_with_one_axis_with_points
    | unfold plot_with_two_axes_with_N_curves_with_VERTICAL_lines
    | unfold one_axis__N_Y_with_error_bars__with_N_fits
    | unfold plot_dynamic_subplots;
      apply (begins_with_len lib
               (fun e => is_enter e || is_figure_call e = false) _ _
               (fun current => plt "figure" []
                  [("figsize",
                    VTuple [VInt 8; VInt (Z.of_nat (length current) * 4)])]));
      intros items v; obey ltac:(reflexivity) ];
    (apply begins_with; intros v; obey ltac:(reflexivity)).
Qed.

(** C7: whatever the arguments and the library, a call of a plotting
    function enters that function and then, before any other call into the
    library, makes a new figure: its first call is [plt.figure()] (for
    [plot_dynamic_subplots], [plt.figure(figsize=(8, 4 * n))] with [n] the
    number of series) or [plt.subplots()], a call that names no existing
    figure.  No later call of the run is a [figure] or [subplots] call, so
    none selects another figure; the call enters no other function of the
    module, and it leaves the variables of the module as they were. *)
Theorem each_call_starts_a_figure lib (c : plot_call) (s : pystate) :
  exists t,
    events_since s (exec lib c s).1
    = EEnter (function_name c) :: ECall (opening_call c (heap s)) :: t /\
    creates_figure (opening_call c (heap s)) = true /\
    Forall (fun e => is_figure_call e = false) t /\
    Forall (fun e => is_enter e = false) t /\
    module_vars (exec lib c s).1 = module_vars s.
Proof.
  destruct (plot_calls_frame lib c 0 s (Nat.le_0_l _)) as (_ & _ & V).
  destruct (plot_calls_start lib c s) as (t & E & F).
  exists t. split; [exact E |].
  split; [destruct c; reflexivity |].
  split; [| split; [| exact V]];
    (eapply Forall_impl; [exact F |]);
    intros e He; apply orb_false_elim in He; tauto.
Qed.

(** ** Walking along a run that returns normally *)

Lemma filter_none {A} (p : A -> bool) (l : list A) :
  Forall (fun x => p x = false) l -> List.filter p l = [].
Proof.
  induction 1 as [| x l Hx _ IH]; simpl; [reflexivity |].
  rewrite Hx. exact IH.
Qed.

Ltac split_tuple x :=
  try match type of x with
      | prod _ _ =>
          let a := fresh "v" in let b := fresh "v" in
          destruct x as [a b]; split_tuple a
      end.

(** [walk_to stop side H Hacc]: [H] says that a sequence of steps run from
    a state returns normally and [Hacc] that a relation [Q] holds up to that
    state; take the steps one by one, up to the first step on which [stop]
    succeeds, keeping [Q] up to date. *)
Ltac walk_to stop side H Hacc :=
  lazymatch type of H with
  | bind ?m ?k ?s = (_, Ok _) =>
      tryif stop m then idtac else
        (let s1 := fresh "s" in
         let x := fresh "x" in
         let Hm := fresh "Hm" in
         let Hq := fresh "Hq" in
         apply bind_Ok_inv in H; destruct H as (s1 & x & Hm & H);
         lazymatch type of Hacc with
         | ?Q ?s0 _ _ =>
             assert (Hq : Q s s1 None)
               by (apply (obeys_run Q m s s1 (Ok x));
                   [obey side | exact Hm]);
             apply (law_trans Q ltac:(solve_law) _ _ _ _ Hacc) in Hq;
             clear Hacc; rename Hq into Hacc
         end;
         split_tuple x; cbv beta iota in H;
         walk_to stop side H Hacc)
  end.

(** ** The saved document *)



Ltac at_save m :=
  lazymatch m with save_unless _ _ _ _ => idtac end.

Ltac no_save_side :=
  first [ reflexivity | intros; reflexivity ].


(** ** Loops that return normally *)

Lemma for_enumerate_blocks (sel : event -> bool)
    (R : Z -> pyval -> list event -> Prop) (D : pyval -> Prop)
    (I : pystate -> Prop) (body : Z -> pyval -> M unit) :
  (forall i d s1 s2, D d -> I s1 -> body i d s1 = (s2, Ok tt) ->
     I s2 /\ exists t, trace s2 = trace s1 ++ t /\ R i d (List.filter sel t)) ->
  forall items i s s',
    Forall D items -> I s -> for_enumerate i items body s = (s', Ok tt) ->
    I s' /\
    exists t, trace s' = trace s ++ t /\ blocks R i items (List.filter sel t).
Proof.
  intros Hbody. induction items as [| d rest IH]; intros i s s' HD HI H.
  - simpl in H. injection H as <-. split; [exact HI |].
    exists []. split; [symmetry; apply app_nil_r | reflexivity].
  - simpl in H. apply bind_Ok_inv in H. destruct H as (s1 & [] & Hd & H).
    inversion HD as [| ? ? Hd0 Hrest]; subst.
    destruct (Hbody _ _ _ _ Hd0 HI Hd) as (HI1 & t1 & E1 & R1).
    destruct (IH _ _ _ Hrest HI1 H) as (HI2 & t2 & E2 & B2).
    split; [exact HI2 |]. exists (t1 ++ t2). split.
    + rewrite E2, E1. symmetry. apply app_assoc.
    + rewrite List.filter_app. simpl. eauto.
Qed.

Lemma for_each_enumerate (body : pyval -> M unit) items : forall i s,
  for_each items body s = for_enumerate i items (fun _ => body) s.
Proof.
  induction items as [| d rest IH]; intros i s; simpl; [reflexivity |].
  unfold bind. destruct (body d s) as [s1 [[] | e]]; [apply IH | reflexivity].
Qed.

Lemma for_each_blocks (sel : event -> bool)
    (R : Z -> pyval -> list event -> Prop) (D : pyval -> Prop)
    (I : pystate -> Prop) (body : pyval -> M unit) :
  (forall d s1 s2, D d -> I s1 -> body d s1 = (s2, Ok tt) ->
     I s2 /\
     exists t, trace s2 = trace s1 ++ t /\
               forall i, R i d (List.filter sel t)) ->
  forall items s s',
    Forall D items -> I s -> for_each items body s = (s', Ok tt) ->
    I s' /\
    exists t, trace s' = trace s ++ t /\ blocks R 0 items (List.filter sel t).
Proof.
  intros Hbody items s s' HD HI H.
  rewrite (for_each_enumerate body items 0%Z s) in H.
  refine (for_enumerate_blocks sel R D I (fun _ => body) _ items 0%Z s s' HD HI H).
  intros i d s1 s2 Hd HI1 Hb.
  destruct (Hbody d s1 s2 Hd HI1 Hb) as (HI2 & t & E & HR).
  split; [exact HI2 |]. exists t. auto.
Qed.

(** ** Steps that return normally *)

Lemma ret_Ok {A} (a b : A) s s' : ret a s = (s', Ok b) -> s' = s /\ b = a.
Proof. unfold ret. intros H. inversion H. auto. Qed.

Lemma read_list_Ok a s s' items :
  read_list a s = (s', Ok items) -> s' = s /\ items = read (heap s) a.
Proof. unfold read_list, bind, get_heap, ret. intros H. inversion H. auto. Qed.

Lemma iter_Ok v s s' items :
  iter v s = (s', Ok items) -> s' = s /\ items_of (heap s) v = Some items.
Proof.
  unfold iter, bind, get_heap, ret, raise.
  destruct (items_of (heap s) v); intros H; inversion H. auto.
Qed.

Lemma truthy_Ok v s s' b :
  truthy v s = (s', Ok b) -> s' = s /\ b = truth (heap s) v.
Proof. unfold truthy, bind, get_heap, ret. intros H. inversion H. auto. Qed.

Lemma unpack2_Ok v s s' a b :
  unpack2 v s = (s', Ok (a, b)) ->
  s' = s /\ items_of (heap s) v = Some [a; b].
Proof.
  unfold unpack2, bind. destruct (iter v s) as [s1 [l | e]] eqn:E;
    [| discriminate].
  apply iter_Ok in E. destruct E as [-> E]. rewrite E. intros H.
  do 2 (destruct l as [| ? l]; simpl in H; [discriminate H |]).
  destruct l; simpl in H; [| discriminate H]. inversion H. auto.
Qed.

Lemma unpack3_Ok v s s' a b c :
  unpack3 v s = (s', Ok (a, b, c)) ->
  s' = s /\ items_of (heap s) v = Some [a; b; c].
Proof.
  unfold unpack3, bind. destruct (iter v s) as [s1 [l | e]] eqn:E;
    [| discriminate].
  apply iter_Ok in E. destruct E as [-> E]. rewrite E. intros H.
  do 3 (destruct l as [| ? l]; simpl in H; [discriminate H |]).
  destruct l; simpl in H; [| discriminate H]. inversion H. auto.
Qed.

Lemma unpack5_Ok v s s' a b c d e :
  unpack5 v s = (s', Ok (a, b, c, d, e)) ->
  s' = s /\ items_of (heap s) v = Some [a; b; c; d; e].
Proof.
  unfold unpack5, bind. destruct (iter v s) as [s1 [l | x]] eqn:E;
    [| discriminate].
  apply iter_Ok in E. destruct E as [-> E]. rewrite E. intros H.
  do 5 (destruct l as [| ? l]; simpl in H; [discriminate H |]).
  destruct l; simpl in H; [| discriminate H]. inversion H. auto.
Qed.

Lemma unpack6_Ok v s s' a b c d e f :
  unpack6 v s = (s', Ok (a, b, c, d, e, f)) ->
  s' = s /\ items_of (heap s) v = Some [a; b; c; d; e; f].
Proof.
  unfold unpack6, bind. destruct (iter v s) as [s1 [l | x]] eqn:E;
    [| discriminate].
  apply iter_Ok in E. destruct E as [-> E]. rewrite E. intros H.
  do 6 (destruct l as [| ? l]; simpl in H; [discriminate H |]).
  destruct l; simpl in H; [| discriminate H]. inversion H. auto.
Qed.

Lemma subscript_Ok v i s s' x :
  subscript v i s = (s', Ok x) ->
  s' = s /\ exists items, items_of (heap s) v = Some items /\
                          items !! i = Some x.
Proof.
  unfold subscript, bind, get_heap, ret, raise.
  destruct (items_of (heap s) v) as [items |]; [| discriminate].
  destruct (items !! i) eqn:E; intros H; inversion H. subst. eauto.
Qed.

Lemma enter_Ok f s s' x :
  enter f s = (s', Ok x) ->
  s' = PyState (heap s) (module_vars s) (trace s ++ [EEnter f]).
Proof. unfold enter. intros H. inversion H. reflexivity. Qed.

Lemma alloc_Ok items s s' a :
  alloc items s = (s', Ok a) ->
  s' = PyState (heap s ++ [items]) (module_vars s) (trace s) /\
  a = length (heap s).
Proof. unfold alloc. intros H. inversion H. auto. Qed.

Lemma list_append_Ok a v s s' x :
  list_append a v s = (s', Ok x) ->
  s' = PyState (alter (fun l => l ++ [v]) a (heap s)) (module_vars s) (trace s).
Proof. unfold list_append. intros H. inversion H. reflexivity. Qed.

Lemma lib_call_Ok lib c s s' v :
  lib_call lib c s = (s', Ok v) ->
  s' = PyState (heap s) (module_vars s) (trace s ++ [ECall c]) /\
  lib (trace s) c = Returns v.
Proof.
  unfold lib_call. destruct (lib (trace s) c); intros H; inversion H. auto.
Qed.

(** Taking a small body apart: [H] says that it returns normally. *)
Ltac open_step Hm :=
  (first
    [ apply unpack6_Ok in Hm; destruct Hm as [-> Hm]
    | apply unpack5_Ok in Hm; destruct Hm as [-> Hm]
    | apply unpack3_Ok in Hm; destruct Hm as [-> Hm]
    | apply unpack2_Ok in Hm; destruct Hm as [-> Hm]
    | apply subscript_Ok in Hm; destruct Hm as (-> & ? & ? & Hm)
    | apply read_list_Ok in Hm; destruct Hm as [-> ->]
    | apply lib_call_Ok in Hm; destruct Hm as [-> Hm]
    | apply list_append_Ok in Hm; subst
    | apply enter_Ok in Hm; subst
    | apply ret_Ok in Hm; destruct Hm as [-> _] ]);
  cbn [heap module_vars trace] in *.

Ltac open_body H :=
  lazymatch type of H with
  | bind _ _ _ = (_, Ok _) =>
      let Hm := fresh "Hm" in
      let x := fresh "x" in
      let sx := fresh "s" in
      apply bind_Ok_inv in H; destruct H as (sx & x & Hm & H);
      split_tuple x; cbv beta iota in H; open_body Hm; open_body H
  | _ => open_step H
  end.

Section Bodies.

Variable lib : list event -> call -> outcome.

Lemma one_axis_entry_Ok marker_size line_width d s1 s2 :
  one_axis_entry lib marker_size line_width d s1 = (s2, Ok tt) ->
  heap s2 = heap s1 /\
  exists t, trace s2 = trace s1 ++ t /\
            forall i, one_curve (heap s1) Pyplot i d (List.filter is_curve t).
Proof.
  unfold one_axis_entry. intros H. open_body H.
  split; [reflexivity |].
  eexists. split; [reflexivity |]. intros i. simpl.
  eexists. split; [reflexivity |]. split; [reflexivity |].
  unfold draws_series. do 6 eexists. split; [eassumption |].
  repeat split.
Qed.

Lemma vlines_entry_Ok marker_size d s1 s2 :
  vlines_entry lib marker_size d s1 = (s2, Ok tt) ->
  heap s2 = heap s1 /\
  exists t, trace s2 = trace s1 ++ t /\
            forall i, one_curve (heap s1) Pyplot i d (List.filter is_curve t).
Proof.
  unfold vlines_entry, plot_curve. intros H. open_body H.
  split; [reflexivity |].
  eexists. split; [reflexivity |]. intros i. simpl.
  eexists. split; [reflexivity |]. split; [reflexivity |].
  unfold draws_series. do 6 eexists. split; [eassumption |].
  repeat split.
Qed.

Lemma points_curve_entry_Ok marker_type marker_size d s1 s2 :
  points_curve_entry lib marker_type marker_size d s1 = (s2, Ok tt) ->
  heap s2 = heap s1 /\
  exists t, trace s2 = trace s1 ++ t /\
            forall i, draws_unmarked_series (heap s1) marker_type i d
                        (List.filter is_curve t).
Proof.
  unfold points_curve_entry, plot_curve. intros H. open_body H.
  split; [reflexivity |].
  eexists. split; [reflexivity |]. intros i. simpl.
  unfold draws_unmarked_series. do 6 eexists.
  split; [reflexivity |]. split; [reflexivity |]. split; [eassumption |].
  repeat split.
Qed.

Lemma points_point_entry_Ok p s1 s2 :
  points_point_entry lib p s1 = (s2, Ok tt) ->
  heap s2 = heap s1 /\
  exists t, trace s2 = trace s1 ++ t /\
            forall i, draws_point (heap s1) i p (List.filter is_curve t).
Proof.
  unfold points_point_entry. intros H. open_body H.
  split; [reflexivity |].
  eexists. split; [reflexivity |]. intros i. simpl.
  unfold draws_point. do 7 eexists.
  split; [reflexivity |]. split; [reflexivity |]. split; [eassumption |].
  repeat split.
Qed.

Lemma error_bars_entry_Ok mt ms ce tr d s1 s2 :
  error_bars_entry lib mt ms ce tr d s1 = (s2, Ok tt) ->
  heap s2 = heap s1 /\
  exists t, trace s2 = trace s1 ++ t /\
            forall i, draws_error_series (heap s1) mt i d
                        (List.filter is_errorbar t).
Proof.
  unfold error_bars_entry. intros H. open_body H.
  split; [reflexivity |].
  eexists. split; [reflexivity |]. intros i. simpl.
  unfold draws_error_series. do 6 eexists.
  split; [reflexivity |]. split; [reflexivity |]. split; [eassumption |].
  repeat split.
Qed.

Lemma fits_data_entry_Ok mt ms ce al d s1 s2 :
  fits_data_entry lib mt ms ce al d s1 = (s2, Ok tt) ->
  heap s2 = heap s1 /\
  exists t, trace s2 = trace s1 ++ t /\
            forall i, draws_styled_error_series (heap s1) mt i d
                        (List.filter is_errorbar t).
Proof.
  unfold fits_data_entry. intros H. open_body H.
  repeat match goal with
         | E1 : items_of ?h ?v = Some ?a, E2 : items_of ?h ?v = Some ?b |- _ =>
             rewrite E1 in E2; injection E2 as <-
         end.
  match goal with
  | E : items_of _ _ = Some ?items |- _ =>
      do 6 (destruct items as [| ? items]; [simpl in *; discriminate |])
  end.
  simpl in *.
  repeat match goal with
         | E : Some _ = Some _ |- _ => injection E as ->
         end.
  split; [reflexivity |].
  eexists. split; [reflexivity |]. intros i. simpl.
  unfold draws_styled_error_series. do 8 eexists.
  split; [reflexivity |]. split; [reflexivity |]. split; [eassumption |].
  repeat split.
Qed.

Lemma subplot_body_Ok l nx ny ms fs ots ll ls xl i d s1 s2 :
  subplot_body lib l nx ny ms fs ots ll ls xl i d s1 = (s2, Ok tt) ->
  heap s2 = heap s1 /\
  exists t, trace s2 = trace s1 ++ t /\
            one_curve (heap s1) Pyplot i d (List.filter is_curve t) /\
            subplot_row (heap s1) (length (read (heap s1) l)) i d
              (List.filter is_layout t).
Proof.
  unfold subplot_body, set_x_locator, set_offset_fontsize.
  intros H. open_body H.
  split; [reflexivity |].
  eexists. split; [simpl; rewrite <- !app_assoc; reflexivity |].
  match goal with
  | E : items_of _ d = Some [?x; ?y; ?lab; ?col; ?lst; ?mk] |- _ =>
      assert (Hd : forall c, args c = [x; y] ->
                 kwarg "label" c = Some lab -> kwarg "color" c = Some col ->
                 kwarg "linestyle" c = Some lst -> kwarg "marker" c = Some mk ->
                 draws_series (heap s1) c d)
        by (intros c ? ? ? ? ?; unfold draws_series; do 6 eexists;
            split; [exact E | auto])
  end.
  split.
  - eexists. split; [reflexivity |]. split; [reflexivity |].
    apply Hd; reflexivity.
  - eexists. split; [reflexivity |]. split; [reflexivity |].
    apply Hd; reflexivity.
Qed.

Lemma plot_on_axis_Ok ax acc ms d s1 s2 :
  plot_on_axis lib ax acc ms d s1 = (s2, Ok tt) ->
  (exists ln, heap s2 = alter (fun l => l ++ [ln]) acc (heap s1)) /\
  exists t, trace s2 = trace s1 ++ t /\
            forall i, one_curve (heap s1) (Method ax) i d
                        (List.filter is_curve t).
Proof.
  unfold plot_on_axis. intros H. open_body H.
  split; [eexists; reflexivity |].
  eexists. split; [reflexivity |]. intros i. simpl.
  eexists. split; [reflexivity |]. split; [reflexivity |].
  unfold draws_series. do 6 eexists. split; [eassumption |].
  repeat split.
Qed.

End Bodies.

(** An object of the caller reads the same in a heap that extends the
    caller's. *)
Lemma read_frame (h0 h : list (list pyval)) a :
  take (length h0) h = h0 -> a < length h0 -> read h a = read h0 a.
Proof.
  intros T Ha. unfold read.
  rewrite <- (lookup_take_lt h (length h0) a Ha), T. reflexivity.
Qed.

Lemma items_of_frame (h0 h : list (list pyval)) v :
  take (length h0) h = h0 -> allocated h0 v -> items_of h v = items_of h0 v.
Proof.
  intros T Hv. destruct v; simpl in *; try reflexivity.
  f_equal. apply read_frame; assumption.
Qed.

Lemma draws_series_frame (h0 h : list (list pyval)) c d :
  take (length h0) h = h0 -> allocated h0 d ->
  draws_series h c d -> draws_series h0 c d.
Proof.
  intros T Hd (x & y & la & co & li & ma & E & Hrest).
  rewrite (items_of_frame h0 h d T Hd) in E.
  exists x, y, la, co, li, ma. auto.
Qed.

(** ** Curves *)

Ltac at_loop m :=
  lazymatch m with
  | for_each _ _ => idtac
  | for_enumerate _ _ _ => idtac
  end.

Ltac the_rest P H Hrest :=
  match type of H with
  | ?m ?sx = (?sy, _) =>
      assert (Hrest : extends_with P sx sy None)
        by (apply (obeys_run _ m sx sy (Ok tt));
            [obey ltac:(reflexivity) | exact H])
  end.

(** A function with one loop that issues the selected calls: walk to the
    loop, take the loop apart with the lemma of its body, and see that
    nothing after it is selected. *)
Ltac single_loop sel R body_Ok H :=
  match type of H with
  | _ ?s = (?s', _) =>
      let Hacc := fresh "Hacc" in
      assert (Hacc : both (extends_with (fun e => sel e = false)) same_store
                       s s None)
        by (apply law_refl; solve_law);
      walk_to at_loop ltac:(reflexivity) H Hacc;
      match goal with
      | Hr : read_list _ _ = _ |- _ =>
          apply read_list_Ok in Hr; destruct Hr as [-> ->]
      end;
      let t0 := fresh "t" in let E0 := fresh "E" in let F0 := fresh "F" in
      let Hh := fresh "Hh" in
      destruct Hacc as [(t0 & E0 & F0) [Hh _]];
      let sa := fresh "s" in let Hloop := fresh "Hloop" in
      apply bind_Ok_inv in H; destruct H as (sa & [] & Hloop & H);
      apply (for_each_blocks sel R (fun _ => True)
               (fun st => heap st = heap s)) in Hloop;
      [ | let HI := fresh "HI" in let Hb := fresh "Hb" in
          intros ? ? ? _ HI Hb; apply body_Ok in Hb; rewrite HI in Hb;
          destruct Hb as (? & ?); auto
        | apply Forall_true; auto
        | exact Hh ];
      let t1 := fresh "t" in let E1 := fresh "E" in let B1 := fresh "B" in
      destruct Hloop as (_ & t1 & E1 & B1);
      let Hrest := fresh "Hrest" in
      the_rest (fun e => sel e = false) H Hrest;
      let t2 := fresh "t" in let E2 := fresh "E" in let F2 := fresh "F" in
      destruct Hrest as (t2 & E2 & F2);
      rewrite (events_since_app s s' (t0 ++ t1 ++ t2))
        by (rewrite E2, E1, E0, <- !app_assoc; reflexivity);
      rewrite !List.filter_app, (filter_none _ _ F0), (filter_none _ _ F2);
      rewrite app_nil_r; simpl; rewrite Hh in B1; exact B1
  end.

Lemma one_axis_curves lib l nx ny ti f ms fs ots ll ls xl xn lw yl s s' :
  plot_with_one_axis lib l nx ny ti f ms fs ots ll ls xl xn lw yl s
  = (s', Ok tt) ->
  blocks (one_curve (heap s) Pyplot) 0 (read (heap s) l)
    (List.filter is_curve (events_since s s')).
Proof.
  intros H. unfold plot_with_one_axis in H.
  single_loop is_curve (one_curve (heap s) Pyplot) one_axis_entry_Ok H.
Qed.

Lemma vlines_curves lib l nx ny ti f ms fs ots ll ls xl vl yl s s' :
  plot_with_one_axis_with_vertical_lines lib l nx ny ti f ms fs ots ll ls xl
    vl yl s = (s', Ok tt) ->
  blocks (one_curve (heap s) Pyplot) 0 (read (heap s) l)
    (List.filter is_curve (events_since s s')).
Proof.
  intros H. unfold plot_with_one_axis_with_vertical_lines in H.
  single_loop is_curve (one_curve (heap s) Pyplot) vlines_entry_Ok H.
Qed.

Lemma error_bars_calls lib l nx ny ti f lst mt ms ce tr s s' :
  plot_with_one_axis_and_error_bars_BYLIST lib l nx ny ti f lst mt ms ce tr s
  = (s', Ok tt) ->
  blocks (draws_error_series (heap s) mt) 0 (read (heap s) l)
    (List.filter is_errorbar (events_since s s')).
Proof.
  intros H. unfold plot_with_one_axis_and_error_bars_BYLIST in H.
  single_loop is_errorbar (draws_error_series (heap s) mt)
    error_bars_entry_Ok H.
Qed.

Lemma fits_calls lib l fit nx ny ti f mt ms ce al fs ots ls ll xl s s' :
  one_axis__N_Y_with_error_bars__with_N_fits lib l fit nx ny ti f mt ms ce al
    fs ots ls ll xl s = (s', Ok tt) ->
  blocks (draws_styled_error_series (heap s) mt) 0 (read (heap s) l)
    (List.filter is_errorbar (events_since s s')).
Proof.
  intros H. unfold one_axis__N_Y_with_error_bars__with_N_fits in H.
  single_loop is_errorbar (draws_styled_error_series (heap s) mt)
    fits_data_entry_Ok H.
Qed.

Ltac open_read_list :=
  match goal with
  | Hr : read_list _ _ = _ |- _ =>
      apply read_list_Ok in Hr; destruct Hr as [-> ->]
  end.

Lemma points_curves lib l pts nx ny ti f mt ms s s' :
  plot_with_one_axis_with_points lib l pts nx ny ti f mt ms s = (s', Ok tt) ->
  exists t1 t2,
    List.filter is_curve (events_since s s') = t1 ++ t2 /\
    blocks (draws_unmarked_series (heap s) mt) 0 (read (heap s) l) t1 /\
    blocks (draws_point (heap s)) 0 (read (heap s) pts) t2.
Proof.
  intros H. unfold plot_with_one_axis_with_points in H.
  assert (Hacc : both (extends_with not_curve) same_store s s None)
    by (apply law_refl; solve_law).
  walk_to at_loop ltac:(reflexivity) H Hacc. open_read_list.
  destruct Hacc as [(t0 & E0 & F0) [Hh0 _]].
  apply bind_Ok_inv in H. destruct H as (sa & [] & Hloop1 & H).
  apply (for_each_blocks is_curve (draws_unmarked_series (heap s) mt)
           (fun _ => True) (fun st => heap st = heap s)) in Hloop1;
    [ | intros ? ? ? _ HI Hb; apply points_curve_entry_Ok in Hb;
        rewrite HI in Hb; destruct Hb as (? & ?); auto
      | apply Forall_true; auto
      | exact Hh0 ].
  destruct Hloop1 as (Hha & t1 & E1 & B1).
  cbv beta in H.
  assert (Hacc : both (extends_with not_curve) same_store sa sa None)
    by (apply law_refl; solve_law).
  walk_to at_loop ltac:(reflexivity) H Hacc. open_read_list.
  destruct Hacc as [(t2 & E2 & F2) [Hh2 _]].
  apply bind_Ok_inv in H. destruct H as (sb & [] & Hloop2 & H).
  apply (for_each_blocks is_curve (draws_point (heap s))
           (fun _ => True) (fun st => heap st = heap s)) in Hloop2;
    [ | intros ? ? ? _ HI Hb; apply points_point_entry_Ok in Hb;
        rewrite HI in Hb; destruct Hb as (? & ?); auto
      | apply Forall_true; auto
      | congruence ].
  destruct Hloop2 as (_ & t3 & E3 & B3).
  the_rest not_curve H Hrest. destruct Hrest as (t4 & E4 & F4).
  exists (List.filter is_curve t1), (List.filter is_curve t3).
  rewrite (events_since_app s s' (t0 ++ t1 ++ t2 ++ t3 ++ t4))
    by (rewrite E4, E3, E2, E1, E0, <- !app_assoc; reflexivity).
  rewrite !List.filter_app, (filter_none _ _ F0), (filter_none _ _ F2),
    (filter_none _ _ F4), app_nil_r.
  rewrite Hh0 in B1. rewrite ?Hh2, ?Hha in B3. auto.
Qed.

Lemma subplots_curves lib l nx ny f ms fs ots ll ls xl s s' :
  plot_dynamic_subplots lib l nx ny f ms fs ots ll ls xl s = (s', Ok tt) ->
  blocks (one_curve (heap s) Pyplot) 1 (read (heap s) l)
    (List.filter is_curve (events_since s s')).
Proof.
  intros H. unfold plot_dynamic_subplots in H.
  assert (Hacc : both (extends_with not_curve) same_store s s None)
    by (apply law_refl; solve_law).
  walk_to at_loop ltac:(reflexivity) H Hacc. repeat open_read_list.
  destruct Hacc as [(t0 & E0 & F0) [Hh0 _]].
  apply bind_Ok_inv in H. destruct H as (sa & [] & Hloop & H).
  apply (for_enumerate_blocks is_curve (one_curve (heap s) Pyplot)
           (fun _ => True) (fun st => heap st = heap s)) in Hloop;
    [ | intros ? ? ? ? _ HI Hb; apply subplot_body_Ok in Hb;
        rewrite HI in Hb; destruct Hb as (? & ? & ? & ? & ?); eauto
      | apply Forall_true; auto
      | exact Hh0 ].
  destruct Hloop as (_ & t1 & E1 & B1).
  the_rest not_curve H Hrest. destruct Hrest as (t2 & E2 & F2).
  rewrite (events_since_app s s' (t0 ++ t1 ++ t2))
    by (rewrite E2, E1, E0, <- !app_assoc; reflexivity).
  rewrite !List.filter_app, (filter_none _ _ F0), (filter_none _ _ F2).
  rewrite app_nil_r. simpl. rewrite Hh0 in B1. exact B1.
Qed.

Lemma subplots_layout lib l nx ny f ms fs ots ll ls xl s s' :
  plot_dynamic_subplots lib l nx ny f ms fs ots ll ls xl s = (s', Ok tt) ->
  let entries := read (heap s) l in
  exists t,
    List.filter is_layout (events_since s s')
    = ECall (plt "figure" []
               [("figsize",
                 VTuple [VInt 8; VInt (Z.of_nat (length entries) * 4)])])
      :: t /\
    blocks (subplot_row (heap s) (length entries)) 1 entries t.
Proof.
  intros H entries. unfold plot_dynamic_subplots in H.
  apply bind_Ok_inv in H. destruct H as (s1 & [] & He & H).
  apply enter_Ok in He. cbv beta in H.
  apply bind_Ok_inv in H. destruct H as (s2 & current & Hr & H).
  apply read_list_Ok in Hr. destruct Hr as [-> ->]. cbv beta in H.
  apply bind_Ok_inv in H. destruct H as (s3 & v & Hf & H).
  apply lib_call_Ok in Hf. destruct Hf as [Hf _]. cbv beta in H.
  assert (Hacc : both (extends_with (fun e => is_layout e = false))
                   same_store s3 s3 None)
    by (apply law_refl; solve_law).
  walk_to at_loop ltac:(reflexivity) H Hacc. open_read_list.
  destruct Hacc as [(t0 & E0 & F0) [Hh0 _]].
  assert (Hh3 : heap s3 = heap s) by (subst s3 s1; reflexivity).
  apply bind_Ok_inv in H. destruct H as (sa & [] & Hloop & H).
  apply (for_enumerate_blocks is_layout
           (subplot_row (heap s) (length entries))
           (fun _ => True) (fun st => heap st = heap s)) in Hloop;
    [ | intros ? ? ? ? _ HI Hb; apply subplot_body_Ok in Hb;
        rewrite HI in Hb; destruct Hb as (? & ? & ? & ? & ?); eauto
      | apply Forall_true; auto
      | congruence ].
  destruct Hloop as (_ & t1 & E1 & B1).
  the_rest (fun e => is_layout e = false) H Hrest.
  destruct Hrest as (t2 & E2 & F2).
  exists (List.filter is_layout t1).
  rewrite (events_since_app s s' ([EEnter "plot_dynamic_subplots";
             ECall (plt "figure" []
               [("figsize",
                 VTuple [VInt 8; VInt (Z.of_nat (length entries) * 4)])])]
             ++ t0 ++ t1 ++ t2)).
  - rewrite !List.filter_app, (filter_none _ _ F0), (filter_none _ _ F2).
    rewrite app_nil_r. simpl. split; [reflexivity |].
    rewrite ?Hh0, ?Hh3 in B1. exact B1.
  - rewrite E2, E1, E0. subst s3 s1. simpl. subst entries.
    rewrite <- !app_assoc. reflexivity.
Qed.

(** The loops of the two-axes function append to a list of their own;
    the objects of the caller stay as they are. *)
Lemma two_axes_loop lib ax acc ms h0 entries : forall i s s',
  length h0 <= acc ->
  Forall (allocated h0) entries ->
  length h0 <= length (heap s) /\ take (length h0) (heap s) = h0 ->
  for_enumerate i entries (fun _ d => plot_on_axis lib ax acc ms d) s
  = (s', Ok tt) ->
  (length h0 <= length (heap s') /\ take (length h0) (heap s') = h0) /\
  exists t, trace s' = trace s ++ t /\
            blocks (one_curve h0 (Method ax)) i entries
              (List.filter is_curve t).
Proof.
  intros i s s' Hacc HD HI H.
  refine (for_enumerate_blocks is_curve (one_curve h0 (Method ax))
            (allocated h0)
            (fun st => length h0 <= length (heap st) /\
                       take (length h0) (heap st) = h0)
            _ _ entries i s s' HD HI H).
  intros j d s1 s2 Hd [HL HT] Hb.
  apply plot_on_axis_Ok in Hb. destruct Hb as ([ln Hh] & t & E & Hc).
  split.
  - rewrite Hh, length_alter, take_alter.
    destruct (decide (acc < length h0)); [lia | auto].
  - exists t. split; [exact E |].
    destruct (Hc j) as (c & Ec & Hr & Hs).
    exists c. split; [exact Ec |]. split; [exact Hr |].
    exact (draws_series_frame h0 (heap s1) c d HT Hd Hs).
Qed.

Ltac at_loop_or_alloc m :=
  lazymatch m with
  | for_each _ _ => idtac
  | for_enumerate _ _ _ => idtac
  | alloc _ => idtac
  end.

Ltac at_twinx m :=
  lazymatch m with lib_call _ (method _ "twinx" _ _) => idtac end.

(** The curves of the two-axes function and the axes they are drawn on:
    those of [data_y_one], before [twinx] is called, on the axes that
    [plt.subplots()] returned; those of [data_y_two], after it, on the axes
    that [twinx] returned. *)
Lemma two_axes_curves lib d1 d2 nx n1 n2 c1 c2 ti f ms fs ls ll vl xt s s' :
  d1 < length (heap s) -> d2 < length (heap s) ->
  Forall (allocated (heap s)) (read (heap s) d1) ->
  Forall (allocated (heap s)) (read (heap s) d2) ->
  plot_with_two_axes_with_N_curves_with_VERTICAL_lines lib d1 d2 nx n1 n2 c1
    c2 ti f ms fs ls ll vl xt s = (s', Ok tt) ->
  exists r fig ax1 ax2 ta tb,
    subplots_returns lib s r fig ax1 /\
    events_since s s' = ta ++ ECall (method ax1 "twinx" [] []) :: tb /\
    lib (trace s ++ ta) (method ax1 "twinx" [] []) = Returns ax2 /\
    blocks (one_curve (heap s) (Method ax1)) 0 (read (heap s) d1)
      (List.filter is_curve ta) /\
    blocks (one_curve (heap s) (Method ax2)) 0 (read (heap s) d2)
      (List.filter is_curve tb).
Proof.
  intros Hd1 Hd2 HA1 HA2 H.
  unfold plot_with_two_axes_with_N_curves_with_VERTICAL_lines in H.
  (* the axes *)
  apply bind_Ok_inv in H. destruct H as (se & [] & He & H).
  apply enter_Ok in He. cbv beta in H.
  apply bind_Ok_inv in H. destruct H as (sl & r & Hl & H).
  apply lib_call_Ok in Hl. destruct Hl as [Esl Hr]. cbv beta in H.
  apply bind_Ok_inv in H. destruct H as (su & [fig ax1] & Hu & H).
  apply unpack2_Ok in Hu. destruct Hu as [-> Hu]. cbv beta iota in H.
  assert (Hh : heap sl = heap s) by (subst sl se; reflexivity).
  assert (Ht : trace sl = trace s ++
                [EEnter "plot_with_two_axes_with_N_curves_with_VERTICAL_lines";
                 ECall (plt "subplots" [] [])])
    by (subst sl se; simpl; rewrite <- app_assoc; reflexivity).
  exists r, fig, ax1.
  assert (Hsub : subplots_returns lib s r fig ax1)
    by (split; [subst se; exact Hr | rewrite <- Hh; exact Hu]).
  clear Esl He Hr Hu.
  set (n := length (heap s)) in *.
  assert (Hn : n <= length (heap sl)) by (rewrite Hh; reflexivity).
  assert (Hacc : both (extends_with not_curve) (frame n) sl sl None)
    by (apply law_refl; solve_law).
  (* up to the first loop *)
  walk_to at_loop_or_alloc ltac:(reflexivity) H Hacc.
  destruct Hacc as [(t0 & E0 & F0) Hf0].
  destruct (Hf0 Hn) as (L0 & T0 & _).
  apply bind_Ok_inv in H. destruct H as (sp & plot_1 & Hal & H).
  apply alloc_Ok in Hal. destruct Hal as [Esp Hp1]. cbv beta in H.
  apply bind_Ok_inv in H. destruct H as (sq & entries1 & Hr & H).
  apply read_list_Ok in Hr. destruct Hr as [-> ->]. cbv beta in H.
  apply bind_Ok_inv in H. destruct H as (sa & [] & Hloop1 & H).
  rewrite Hh, (take_ge (heap s)) in T0 by reflexivity.
  assert (HIp : n <= length (heap sp) /\ take n (heap sp) = heap s).
  { subst sp. simpl. rewrite length_app, take_app_le by exact L0.
    split; [lia | exact T0]. }
  rewrite (read_frame (heap s) (heap sp) d1 (proj2 HIp) Hd1) in Hloop1.
  apply (two_axes_loop lib _ plot_1 ms (heap s)) in Hloop1;
    [ | fold n; lia | exact HA1 | exact HIp ].
  destruct Hloop1 as (HIa & t1 & E1 & B1).
  (* the twin axes *)
  cbv beta in H.
  assert (Hacc : both (extends_with not_curve) (frame n) sa sa None)
    by (apply law_refl; solve_law).
  walk_to at_twinx ltac:(reflexivity) H Hacc.
  destruct Hacc as [(t2 & E2 & F2) Hf2].
  destruct (Hf2 (proj1 HIa)) as (L2 & T2 & _).
  apply bind_Ok_inv in H. destruct H as (sw & ax2 & Hw & H).
  apply lib_call_Ok in Hw. destruct Hw as [Esw Hax2]. cbv beta in H.
  assert (HIw : n <= length (heap sw) /\ take n (heap sw) = heap s).
  { subst sw. simpl. split; [exact L2 | rewrite T2; exact (proj2 HIa)]. }
  (* up to the second loop *)
  assert (Hacc : both (extends_with not_curve) (frame n) sw sw None)
    by (apply law_refl; solve_law).
  walk_to at_loop_or_alloc ltac:(reflexivity) H Hacc.
  destruct Hacc as [(t3 & E3 & F3) Hf3].
  destruct (Hf3 (proj1 HIw)) as (L3 & T3 & _).
  apply bind_Ok_inv in H. destruct H as (sr & plot_2 & Hal & H).
  apply alloc_Ok in Hal. destruct Hal as [Esr Hp2]. cbv beta in H.
  apply bind_Ok_inv in H. destruct H as (sq & entries2 & Hr & H).
  apply read_list_Ok in Hr. destruct Hr as [-> ->]. cbv beta in H.
  apply bind_Ok_inv in H. destruct H as (sb & [] & Hloop2 & H).
  assert (HIr : n <= length (heap sr) /\ take n (heap sr) = heap s).
  { subst sr. simpl. rewrite length_app, take_app_le by exact L3.
    split; [lia | rewrite T3; exact (proj2 HIw)]. }
  rewrite (read_frame (heap s) (heap sr) d2 (proj2 HIr) Hd2) in Hloop2.
  apply (two_axes_loop lib _ plot_2 ms (heap s)) in Hloop2;
    [ | fold n; lia | exact HA2 | exact HIr ].
  destruct Hloop2 as (_ & t4 & E4 & B4).
  (* the rest *)
  the_rest not_curve H Hrest. destruct Hrest as (t5 & E5 & F5).
  exists ax2,
    ([EEnter "plot_with_two_axes_with_N_curves_with_VERTICAL_lines";
      ECall (plt "subplots" [] [])] ++ t0 ++ t1 ++ t2),
    (t3 ++ t4 ++ t5).
  split; [exact Hsub |].
  match type of E2 with
  | trace ?sx = _ =>
      assert (Eta : trace sx = trace s ++
                ([EEnter "plot_with_two_axes_with_N_curves_with_VERTICAL_lines";
                  ECall (plt "subplots" [] [])] ++ t0 ++ t1 ++ t2))
        by (rewrite E2, E1; subst sp; simpl; rewrite E0, Ht, <- !app_assoc;
            reflexivity)
  end.
  split.
  { apply events_since_app. rewrite E5, E4. subst sr. simpl. rewrite E3.
    subst sw. simpl. rewrite Eta, <- !app_assoc. reflexivity. }
  split; [rewrite <- Eta; exact Hax2 |].
  split.
  - rewrite !List.filter_app, (filter_none _ _ F0), (filter_none _ _ F2).
    simpl. rewrite app_nil_r. exact B1.
  - rewrite !List.filter_app, (filter_none _ _ F3), (filter_none _ _ F5),
      app_nil_r.
    exact B4.
Qed.

(** ** Calls that return *)

Section Progress.

Variable lib : list event -> call -> outcome.
Hypothesis lib_accepts : never_raises lib.
Variable h0 : list (list pyval).

Lemma goes_ret {A} (a : A) (Q : A -> Prop) : Q a -> goes h0 (ret a) Q.
Proof. intros HQ s Hs. exists a. auto. Qed.

Lemma goes_bind {A B} (m : M A) (k : A -> M B) Q R :
  goes h0 m Q -> (forall x, Q x -> goes h0 (k x) R) -> goes h0 (bind m k) R.
Proof.
  intros Hm Hk s Hs. unfold bind.
  destruct (Hm s Hs) as (x & Ex & Qx & Hx).
  destruct (m s) as [s1 r]. simpl in *. subst r.
  apply (Hk x Qx s1 Hx).
Qed.

Lemma goes_weaken {A} (m : M A) (Q Q' : A -> Prop) :
  goes h0 m Q -> (forall x, Q x -> Q' x) -> goes h0 m Q'.
Proof.
  intros Hm HQ s Hs. destruct (Hm s Hs) as (x & Ex & Qx & Hx). eauto.
Qed.

Lemma goes_enter f : goes h0 (enter f) (fun _ => True).
Proof. intros s Hs. exists tt. auto. Qed.

Lemma goes_lib_call c : goes h0 (lib_call lib c) (fun _ => True).
Proof.
  intros s Hs. unfold lib_call.
  destruct (lib_accepts (trace s) c) as [v ->]. exists v. auto.
Qed.

Lemma goes_read_list a :
  goes h0 (read_list a) (fun items => items = read h0 a).
Proof. intros s Hs. eexists. simpl. rewrite Hs. auto. Qed.

Lemma goes_truthy v : goes h0 (truthy v) (fun b => b = truth h0 v).
Proof. intros s Hs. eexists. simpl. rewrite Hs. auto. Qed.

Lemma goes_iter v items :
  items_of h0 v = Some items -> goes h0 (iter v) (fun x => x = items).
Proof.
  intros E s Hs. unfold iter, bind, get_heap. cbn beta iota.
  rewrite Hs, E. exists items. auto.
Qed.

Lemma goes_unpack3 d : three_fields h0 d -> goes h0 (unpack3 d) (fun _ => True).
Proof.
  intros (a & b & c & E). unfold unpack3.
  eapply goes_bind; [apply (goes_iter _ _ E) |].
  intros x ->. apply goes_ret. exact I.
Qed.

Lemma goes_unpack5 d : five_fields h0 d -> goes h0 (unpack5 d) (fun _ => True).
Proof.
  intros (a & b & c & e & f & E). unfold unpack5.
  eapply goes_bind; [apply (goes_iter _ _ E) |].
  intros x ->. apply goes_ret. exact I.
Qed.

Lemma goes_unpack6 d : six_fields h0 d -> goes h0 (unpack6 d) (fun _ => True).
Proof.
  intros (a & b & c & e & f & g & E). unfold unpack6.
  eapply goes_bind; [apply (goes_iter _ _ E) |].
  intros x ->. apply goes_ret. exact I.
Qed.

Lemma goes_for_enumerate (body : Z -> pyval -> M unit) items :
  Forall (fun d => forall i, goes h0 (body i d) (fun _ => True)) items ->
  forall i, goes h0 (for_enumerate i items body) (fun _ => True).
Proof.
  induction 1 as [| d rest Hd _ IH]; intros i; simpl.
  - apply goes_ret. exact I.
  - eapply goes_bind; [apply Hd |]. intros _ _. apply IH.
Qed.

Lemma goes_for_each (body : pyval -> M unit) items :
  Forall (fun d => goes h0 (body d) (fun _ => True)) items ->
  goes h0 (for_each items body) (fun _ => True).
Proof.
  induction 1 as [| d rest Hd _ IH]; simpl.
  - apply goes_ret. exact I.
  - eapply goes_bind; [apply Hd |]. intros _ _. apply IH.
Qed.

Create HintDb goes.

Ltac pass_on := let Hq := fresh "Hq" in intros ? Hq; exact Hq.

(** [go] follows a sequence of library calls. *)
Ltac go :=
  lazymatch goal with
  | |- goes _ (bind _ _) _ => eapply goes_bind; [go | intros ? ?; go]
  | |- goes _ (ret _) _ => apply goes_ret; exact I
  | |- goes _ (match ?x with _ => _ end) _ => destruct x; go
  | |- goes _ (for_each _ _) _ =>
      cbv beta in *; subst; eapply goes_weaken;
      [ apply goes_for_each; eapply Forall_impl;
        [ eassumption | intros ? ?; cbv beta; solve [eauto with goes] ]
      | pass_on ]
  | |- goes _ (for_enumerate _ _ _) _ =>
      cbv beta in *; subst; eapply goes_weaken;
      [ apply goes_for_enumerate; eapply Forall_impl;
        [ eassumption | intros ? ? ?; cbv beta; solve [eauto with goes] ]
      | pass_on ]
  | |- goes _ (lib_call _ _) _ =>
      eapply goes_weaken; [apply goes_lib_call | pass_on]
  | |- goes _ (enter _) _ =>
      eapply goes_weaken; [apply goes_enter | pass_on]
  | |- goes _ (read_list _) _ =>
      eapply goes_weaken; [apply goes_read_list | pass_on]
  | |- goes _ ?m _ =>
      first [ eapply goes_weaken; [eassumption | pass_on]
            | eapply goes_weaken;
              [solve [eauto with goes] | pass_on]
            | let h := head_of m in unfold h; go ]
  end.

Lemma goes_save_unless sentinel f kw :
  goes h0 (save_unless lib sentinel f kw) (fun _ => True).
Proof. go. Qed.

Lemma goes_set_x_locator n :
  goes h0 (set_x_locator lib n) (fun _ => True).
Proof. go. Qed.

Lemma goes_set_offset_fontsize n :
  goes h0 (set_offset_fontsize lib n) (fun _ => True).
Proof. go. Qed.

Lemma goes_plot_curve x y la co li ma ms :
  goes h0 (plot_curve lib x y la co li ma ms) (fun _ => True).
Proof. go. Qed.

#[local] Hint Resolve goes_save_unless goes_set_x_locator
  goes_set_offset_fontsize goes_plot_curve : goes.

Lemma goes_apply_y_lim y_lim :
  usable h0 (fun _ => True) y_lim ->
  goes h0 (apply_y_lim lib y_lim) (fun _ => True).
Proof.
  intros Hy. unfold apply_y_lim.
  eapply goes_bind; [apply goes_truthy |]. intros b ->.
  destruct (truth h0 y_lim) eqn:E; [| apply goes_ret; exact I].
  destruct (Hy E) as (items & Ei & _).
  eapply goes_bind; [apply (goes_iter _ _ Ei) |]. intros x ->. go.
Qed.

Lemma goes_draw_vlines target vlines :
  usable h0 (three_fields h0) vlines ->
  goes h0 (draw_vlines lib target vlines) (fun _ => True).
Proof.
  intros Hv. unfold draw_vlines.
  eapply goes_bind; [apply goes_truthy |]. intros b ->.
  destruct (truth h0 vlines) eqn:E; [| apply goes_ret; exact I].
  destruct (Hv E) as (items & Ei & Hi).
  eapply goes_bind; [apply (goes_iter _ _ Ei) |]. intros x ->.
  apply goes_for_each. eapply Forall_impl; [exact Hi |].
  intros d Hd. cbv beta.
  eapply goes_bind; [apply (goes_unpack3 _ Hd) |]. intros [[? ?] ?] _. go.
Qed.

Lemma goes_one_axis_entry ms lw d :
  six_fields h0 d -> goes h0 (one_axis_entry lib ms lw d) (fun _ => True).
Proof.
  intros Hd. unfold one_axis_entry.
  eapply goes_bind; [apply (goes_unpack6 _ Hd) |]. intros x _. go.
Qed.

Lemma goes_vlines_entry ms d :
  six_fields h0 d -> goes h0 (vlines_entry lib ms d) (fun _ => True).
Proof.
  intros Hd. unfold vlines_entry.
  eapply goes_bind; [apply (goes_unpack6 _ Hd) |]. intros x _. go.
Qed.

Lemma goes_points_curve_entry mt ms d :
  five_fields h0 d -> goes h0 (points_curve_entry lib mt ms d) (fun _ => True).
Proof.
  intros Hd. unfold points_curve_entry.
  eapply goes_bind; [apply (goes_unpack5 _ Hd) |]. intros x _. go.
Qed.

Lemma goes_points_point_entry d :
  six_fields h0 d -> goes h0 (points_point_entry lib d) (fun _ => True).
Proof.
  intros Hd. unfold points_point_entry.
  eapply goes_bind; [apply (goes_unpack6 _ Hd) |]. intros x _. go.
Qed.

Lemma goes_subplot_body l nx ny ms fs ots ll ls xl i d :
  six_fields h0 d ->
  goes h0 (subplot_body lib l nx ny ms fs ots ll ls xl i d) (fun _ => True).
Proof.
  intros Hd. unfold subplot_body.
  eapply goes_bind; [apply (goes_unpack6 _ Hd) |]. intros x _. go.
Qed.

Lemma goes_subscript d i items x :
  items_of h0 d = Some items -> items !! i = Some x ->
  goes h0 (subscript d i) (fun _ => True).
Proof.
  intros E Ei s Hs. unfold subscript, bind, get_heap. cbn beta iota.
  rewrite Hs, E, Ei. exists x. auto.
Qed.

Lemma goes_error_bars_entry mt ms ce tr d :
  five_fields h0 d ->
  goes h0 (error_bars_entry lib mt ms ce tr d) (fun _ => True).
Proof.
  intros Hd. unfold error_bars_entry.
  eapply goes_bind; [apply (goes_unpack5 _ Hd) |]. intros x _. go.
Qed.

Lemma goes_fits_data_entry mt ms ce al d :
  six_or_more h0 d ->
  goes h0 (fits_data_entry lib mt ms ce al d) (fun _ => True).
Proof.
  intros (a & b & c & e & f & g & more & E). unfold fits_data_entry.
  do 6 (eapply goes_bind;
        [eapply (goes_subscript _ _ _ _ E); reflexivity | intros ? _]).
  go.
Qed.

Lemma goes_fits_fit_entry d :
  four_or_more h0 d -> goes h0 (fits_fit_entry lib d) (fun _ => True).
Proof.
  intros (a & b & c & e & more & E). unfold fits_fit_entry.
  do 4 (eapply goes_bind;
        [eapply (goes_subscript _ _ _ _ E); reflexivity | intros ? _]).
  go.
Qed.

#[local] Hint Resolve goes_apply_y_lim goes_draw_vlines goes_one_axis_entry
  goes_vlines_entry goes_points_curve_entry goes_points_point_entry
  goes_subplot_body goes_error_bars_entry goes_fits_data_entry
  goes_fits_fit_entry : goes.

Lemma goes_plot_with_one_axis l nx ny ti f ms fs ots ll ls xl xn lw yl :
  Forall (six_fields h0) (read h0 l) ->
  usable h0 (fun _ => True) yl ->
  goes h0 (plot_with_one_axis lib l nx ny ti f ms fs ots ll ls xl xn lw yl)
    (fun _ => True).
Proof. intros He Hy. unfold plot_with_one_axis. go. Qed.

Lemma goes_plot_with_vertical_lines l nx ny ti f ms fs ots ll ls xl vl yl :
  Forall (six_fields h0) (read h0 l) ->
  usable h0 (three_fields h0) vl ->
  usable h0 (fun _ => True) yl ->
  goes h0 (plot_with_one_axis_with_vertical_lines lib l nx ny ti f ms fs ots
             ll ls xl vl yl)
    (fun _ => True).
Proof.
  intros He Hv Hy. unfold plot_with_one_axis_with_vertical_lines. go.
Qed.

Lemma goes_error_bars l nx ny ti f lst mt ms ce tr :
  Forall (five_fields h0) (read h0 l) ->
  goes h0 (plot_with_one_axis_and_error_bars_BYLIST lib l nx ny ti f lst mt
             ms ce tr)
    (fun _ => True).
Proof.
  intros He. unfold plot_with_one_axis_and_error_bars_BYLIST. go.
Qed.

Lemma goes_points l pts nx ny ti f mt ms :
  Forall (five_fields h0) (read h0 l) ->
  Forall (six_fields h0) (read h0 pts) ->
  goes h0 (plot_with_one_axis_with_points lib l pts nx ny ti f mt ms)
    (fun _ => True).
Proof. intros He Hp. unfold plot_with_one_axis_with_points. go. Qed.

Lemma goes_fits l fit nx ny ti f mt ms ce al fs ots ls ll xl :
  Forall (six_or_more h0) (read h0 l) ->
  Forall (four_or_more h0) (read h0 fit) ->
  goes h0 (one_axis__N_Y_with_error_bars__with_N_fits lib l fit nx ny ti f
             mt ms ce al fs ots ls ll xl)
    (fun _ => True).
Proof.
  intros He Hf. unfold one_axis__N_Y_with_error_bars__with_N_fits. go.
Qed.

Lemma goes_subplots l nx ny f ms fs ots ll ls xl :
  Forall (six_fields h0) (read h0 l) ->
  goes h0 (plot_dynamic_subplots lib l nx ny f ms fs ots ll ls xl)
    (fun _ => True).
Proof. intros He. unfold plot_dynamic_subplots. go. Qed.

End Progress.

Lemma goes_returns h0 (m : M unit) Q s :
  goes h0 m Q -> heap s = h0 -> (m s).2 = Ok tt.
Proof. intros Hm Hs. destruct (Hm s Hs) as ([] & E & _). exact E. Qed.

Lemma ok_run (p : pystate * result unit) : p.2 = Ok tt -> p = (p.1, Ok tt).
Proof. destruct p as [s1 r]. simpl. intros ->. reflexivity. Qed.

(** ** The two-axes function returns *)

Lemma kept_length h0 h : kept h0 h -> length h0 <= length h.
Proof.
  unfold kept. intros E.
  destruct (Nat.le_gt_cases (length h0) (length h)) as [L | L]; [exact L |].
  rewrite take_ge in E by lia. subst. lia.
Qed.

Lemma kept_refl h0 : kept h0 h0.
Proof. unfold kept. apply take_ge. reflexivity. Qed.

Lemma kept_alloc h0 h items : kept h0 h -> kept h0 (h ++ [items]).
Proof.
  intros E. unfold kept. rewrite take_app_le by (apply kept_length, E).
  exact E.
Qed.

Lemma kept_append h0 h a v :
  length h0 <= a -> kept h0 h ->
  kept h0 (alter (fun l => l ++ [v]) a h).
Proof.
  intros La E. unfold kept. rewrite take_alter.
  destruct (decide (a < length h0)); [lia | exact E].
Qed.

Lemma read_alloc_old (h : list (list pyval)) items a :
  a < length h -> read (h ++ [items]) a = read h a.
Proof. intros La. unfold read. rewrite lookup_app_l by exact La. reflexivity. Qed.

Lemma read_append (h : list (list pyval)) a b v :
  read (alter (fun l => l ++ [v]) a h) b
  = if decide (a = b) then
      (if decide (b < length h) then read h b ++ [v] else [])
    else read h b.
Proof.
  unfold read. destruct (decide (a = b)) as [-> | N].
  - destruct (decide (b < length h)) as [L | L].
    + destruct (lookup_lt_is_Some_2 h b L) as [l El].
      rewrite list_lookup_alter_eq, El. reflexivity.
    + rewrite list_lookup_alter_eq, (lookup_ge_None_2 h b) by lia. reflexivity.
  - rewrite list_lookup_alter_ne by exact N. reflexivity.
Qed.

Lemma own_list_alloc h0 a h items :
  own_list h0 a h -> own_list h0 a (h ++ [items]).
Proof.
  intros (L1 & L2 & F). unfold own_list.
  rewrite length_app, read_alloc_old by exact L2. simpl.
  split; [exact L1 |]. split; [lia | exact F].
Qed.

Lemma own_list_new h0 h : kept h0 h -> own_list h0 (length h) (h ++ [[]]).
Proof.
  intros E. unfold own_list. rewrite length_app, read_new_object. simpl.
  split; [apply kept_length, E |]. split; [lia | constructor].
Qed.

Lemma own_list_append h0 a b h v :
  is_seq v -> own_list h0 b h ->
  own_list h0 b (alter (fun l => l ++ [v]) a h).
Proof.
  intros Hv (L1 & L2 & F). unfold own_list.
  rewrite length_alter, read_append.
  split; [exact L1 |]. split; [exact L2 |].
  destruct (decide (a = b)); [| exact F].
  destruct (decide (b < length h)); [| constructor].
  apply Forall_app. split; [exact F |]. constructor; [exact Hv | constructor].
Qed.

Lemma truth_frame h0 h v :
  kept h0 h -> allocated h0 v -> truth h v = truth h0 v.
Proof.
  intros E Hv. destruct v; simpl in *; try reflexivity.
  rewrite (read_frame h0 h a E Hv). reflexivity.
Qed.

Section Hoare.

Variable lib : list event -> call -> outcome.
Hypothesis lib_accepts : never_raises lib.

Lemma hoare_ret {A} P (a : A) : hoare P (ret a) (fun _ => P).
Proof. intros s Hs. exists a. auto. Qed.

Lemma hoare_bind {A B} P (m : M A) (k : A -> M B) Q R :
  hoare P m Q -> (forall x, hoare (Q x) (k x) R) -> hoare P (bind m k) R.
Proof.
  intros Hm Hk s Hs. unfold bind.
  destruct (Hm s Hs) as (x & Ex & Qx).
  destruct (m s) as [s1 r]. simpl in *. subst r.
  apply (Hk x s1 Qx).
Qed.

Lemma hoare_conseq {A} (P P' : list (list pyval) -> Prop) (m : M A)
    (Q Q' : A -> list (list pyval) -> Prop) :
  hoare P m Q -> (forall h, P' h -> P h) -> (forall x h, Q x h -> Q' x h) ->
  hoare P' m Q'.
Proof.
  intros Hm HP HQ s Hs. destruct (Hm s (HP _ Hs)) as (x & Ex & Qx). eauto.
Qed.

Lemma hoare_enter P f : hoare P (enter f) (fun _ => P).
Proof. intros s Hs. exists tt. auto. Qed.

Lemma hoare_lib_call P c : hoare P (lib_call lib c) (fun _ => P).
Proof.
  intros s Hs. unfold lib_call.
  destruct (lib_accepts (trace s) c) as [v ->]. exists v. auto.
Qed.

Lemma hoare_lib_call_with P c (V : pyval -> Prop) :
  (forall history, exists v, lib history c = Returns v /\ V v) ->
  hoare P (lib_call lib c) (fun v h => P h /\ V v).
Proof.
  intros HV s Hs. unfold lib_call.
  destruct (HV (trace s)) as (v & E & Hv). rewrite E. exists v. auto.
Qed.

Lemma hoare_truthy P v : hoare P (truthy v) (fun b h => P h /\ b = truth h v).
Proof. intros s Hs. eexists. simpl. auto. Qed.

Lemma hoare_read_list P a :
  hoare P (read_list a) (fun items h => P h /\ items = read h a).
Proof. intros s Hs. eexists. simpl. auto. Qed.

Lemma hoare_iter P v items :
  (forall h, P h -> items_of h v = Some items) ->
  hoare P (iter v) (fun x h => P h /\ x = items).
Proof.
  intros E s Hs. unfold iter, bind, get_heap. cbn beta iota.
  rewrite (E _ Hs). exists items. auto.
Qed.

Lemma hoare_iter_seq P items : hoare P (iter (VTuple items)) (fun _ => P).
Proof. intros s Hs. exists items. auto. Qed.

Lemma hoare_unpack2_seq P a b :
  hoare P (unpack2 (VTuple [a; b])) (fun x h => P h /\ x = (a, b)).
Proof. intros s Hs. exists (a, b). auto. Qed.

Lemma hoare_unpack3 P d :
  (forall h, P h -> three_fields h d) -> hoare P (unpack3 d) (fun _ => P).
Proof.
  intros Hd s Hs. destruct (Hd _ Hs) as (a & b & c & E).
  unfold unpack3, iter, bind, get_heap. cbn beta iota. rewrite E.
  eexists. simpl. auto.
Qed.

Lemma hoare_unpack6 P d :
  (forall h, P h -> six_fields h d) -> hoare P (unpack6 d) (fun _ => P).
Proof.
  intros Hd s Hs. destruct (Hd _ Hs) as (a & b & c & e & f & g & E).
  unfold unpack6, iter, bind, get_heap. cbn beta iota. rewrite E.
  eexists. simpl. auto.
Qed.

Lemma hoare_alloc (P : list (list pyval) -> Prop) items :
  hoare P (alloc items)
    (fun a h => exists h1, P h1 /\ h = h1 ++ [items] /\ a = length h1).
Proof. intros s Hs. eexists. simpl. eauto. Qed.

Lemma hoare_list_append (P : list (list pyval) -> Prop) a v :
  hoare P (list_append a v)
    (fun _ h => exists h1, P h1 /\ h = alter (fun l => l ++ [v]) a h1).
Proof. intros s Hs. exists tt. simpl. eauto. Qed.

Lemma hoare_for_enumerate P (body : Z -> pyval -> M unit) items :
  Forall (fun d => forall i, hoare P (body i d) (fun _ => P)) items ->
  forall i, hoare P (for_enumerate i items body) (fun _ => P).
Proof.
  induction 1 as [| d rest Hd _ IH]; intros i; simpl.
  - apply hoare_ret.
  - eapply hoare_bind; [apply Hd |]. intros ?. apply IH.
Qed.

Lemma hoare_for_each P (body : pyval -> M unit) items :
  Forall (fun d => hoare P (body d) (fun _ => P)) items ->
  hoare P (for_each items body) (fun _ => P).
Proof.
  induction 1 as [| d rest Hd _ IH]; simpl.
  - apply hoare_ret.
  - eapply hoare_bind; [apply Hd |]. intros ?. apply IH.
Qed.

Lemma hoare_flatten P items :
  Forall is_seq items -> hoare P (flatten items) (fun _ => P).
Proof.
  induction 1 as [| d rest [l ->] _ IH]; simpl.
  - apply hoare_ret.
  - eapply hoare_bind; [apply hoare_iter_seq |]. intros xs_.
    eapply hoare_bind; [apply IH |]. intros ys_. apply hoare_ret.
Qed.

Lemma hoare_collect P (f : pyval -> M pyval) items :
  (forall x, hoare P (f x) (fun _ => P)) ->
  hoare P (collect items f) (fun _ => P).
Proof.
  intros Hf. induction items as [| x rest IH]; simpl.
  - apply hoare_ret.
  - eapply hoare_bind; [apply Hf |]. intros y.
    eapply hoare_bind; [apply IH |]. intros ys_. apply hoare_ret.
Qed.

Lemma hoare_save_unless P sentinel f kw :
  hoare P (save_unless lib sentinel f kw) (fun _ => P).
Proof.
  unfold save_unless. destruct (negb _); [| apply hoare_ret].
  eapply hoare_bind; [apply hoare_lib_call |]. intros ?. apply hoare_ret.
Qed.

Variable h0 : list (list pyval).

Lemma hoare_pure {A} (P : list (list pyval) -> Prop) (F : Prop) (m : M A) Q :
  (F -> hoare P m Q) -> hoare (fun h => P h /\ F) m Q.
Proof. intros Hm s [Hs HF]. apply (Hm HF s Hs). Qed.

Lemma hoare_truthy_any P v : hoare P (truthy v) (fun _ => P).
Proof. intros s Hs. eexists. simpl. auto. Qed.

Lemma hoare_read_list_any P a : hoare P (read_list a) (fun _ => P).
Proof. intros s Hs. eexists. simpl. auto. Qed.

Lemma stable_true : stable (fun _ => True).
Proof. split; auto. Qed.

Lemma stable_own_list a : stable (own_list h0 a).
Proof.
  split.
  - intros h items. apply own_list_alloc.
  - intros h b v. apply own_list_append.
Qed.

Lemma stable_and P Q : stable P -> stable Q -> stable (fun h => P h /\ Q h).
Proof.
  intros [P1 P2] [Q1 Q2]. split.
  - intros h items [HP HQ]. auto.
  - intros h a v Hv [HP HQ]. auto.
Qed.

(** A new list object, among the objects the function already owns. *)
Lemma hoare_alloc_keep P items :
  stable P ->
  hoare (fun h => kept h0 h /\ P h) (alloc items)
    (fun _ h => kept h0 h /\ P h).
Proof.
  intros [SP _]. eapply hoare_conseq; [apply hoare_alloc | intros ? Hpre; exact Hpre |].
  intros a h (h1 & [K HP] & -> & _). split; [apply kept_alloc, K | auto].
Qed.

Lemma hoare_alloc_own P :
  stable P ->
  hoare (fun h => kept h0 h /\ P h) (alloc [])
    (fun a h => kept h0 h /\ P h /\ own_list h0 a h).
Proof.
  intros [SP _]. eapply hoare_conseq; [apply hoare_alloc | intros ? Hpre; exact Hpre |].
  intros a h (h1 & [K HP] & -> & ->).
  split; [apply kept_alloc, K |]. split; [auto | apply own_list_new, K].
Qed.

(** A list of the caller read while the function owns objects. *)
Lemma hoare_read_list_given P a :
  a < length h0 ->
  hoare (fun h => kept h0 h /\ P h) (read_list a)
    (fun items h => (kept h0 h /\ P h) /\ items = read h0 a).
Proof.
  intros La. eapply hoare_conseq; [apply hoare_read_list | intros ? Hpre; exact Hpre |].
  intros items h ([K HP] & ->). split; [auto |].
  apply read_frame; assumption.
Qed.

Lemma hoare_plot_on_axis P ax acc ms d :
  returns_axes lib -> stable P -> given six_fields h0 d ->
  hoare (fun h => kept h0 h /\ P h /\ own_list h0 acc h)
    (plot_on_axis lib ax acc ms d)
    (fun _ h => kept h0 h /\ P h /\ own_list h0 acc h).
Proof.
  intros [_ Hplot] [_ SP] [Hd Ha]. unfold plot_on_axis.
  eapply hoare_bind.
  { apply hoare_unpack6. intros h (K & _).
    destruct Hd as (a & b & c & e & f & g & E).
    exists a, b, c, e, f, g. rewrite (items_of_frame h0 h d K Ha). exact E. }
  intros [[[[[x y] lab] col] lins] linsh]. cbv beta iota.
  eapply hoare_bind.
  { apply (hoare_lib_call_with _ _ is_seq). intros history.
    match goal with
    | |- exists v, lib _ ?c = _ /\ _ =>
        destruct (Hplot history c eq_refl) as (lines & E)
    end.
    eexists. split; [exact E | eexists; reflexivity]. }
  intros ln. cbv beta. apply hoare_pure. intros Hln.
  eapply hoare_conseq; [apply hoare_list_append | intros ? Hpre; exact Hpre |].
  intros _ h (h1 & (K & HP & (L1 & L2 & F)) & ->).
  split; [apply kept_append; assumption |].
  split; [auto |]. apply own_list_append; [exact Hln | repeat split; auto].
Qed.

Lemma hoare_draw_vlines P target vl :
  allocated h0 vl -> usable h0 (given three_fields h0) vl ->
  hoare (fun h => kept h0 h /\ P h) (draw_vlines lib target vl)
    (fun _ h => kept h0 h /\ P h).
Proof.
  intros Ha Hu. unfold draw_vlines.
  eapply hoare_bind; [apply hoare_truthy |]. intros b. cbv beta.
  eapply (hoare_conseq (fun h => (kept h0 h /\ P h) /\ b = truth h0 vl));
    [ | intros h ([K HP] & ->); split; [auto | apply truth_frame; auto]
      | intros x h H; exact H ].
  apply hoare_pure. intros ->.
  destruct (truth h0 vl) eqn:E; [| apply hoare_ret].
  destruct (Hu E) as (items & Ei & Fi).
  eapply hoare_bind.
  { apply (hoare_iter _ _ items). intros h [K _].
    rewrite (items_of_frame h0 h vl K Ha). exact Ei. }
  intros x. cbv beta. apply hoare_pure. intros ->.
  apply hoare_for_each. eapply Forall_impl; [exact Fi |].
  intros d [(a & b & c & Ed) Had]. cbv beta.
  eapply hoare_bind.
  { apply hoare_unpack3. intros h [K _]. exists a, b, c.
    rewrite (items_of_frame h0 h d K Had). exact Ed. }
  intros [[x_val color] linestyle]. cbv beta iota.
  eapply hoare_bind; [apply hoare_lib_call |]. intros ?. apply hoare_ret.
Qed.

Lemma hoare_read_list_own P a :
  (forall h, P h -> own_list h0 a h) ->
  hoare (fun h => kept h0 h /\ P h) (read_list a)
    (fun items h => (kept h0 h /\ P h) /\ Forall is_seq items).
Proof.
  intros HP. eapply hoare_conseq;
    [apply hoare_read_list | intros ? Hpre; exact Hpre |].
  intros items h ([K Hh] & ->). split; [auto |].
  destruct (HP h Hh) as (_ & _ & F). exact F.
Qed.

Ltac hs rule := eapply hoare_bind; [apply rule | intros ?; cbv beta].

Lemma hoare_two_axes d1 d2 nx n1 n2 c1 c2 ti f ms fs ls ll vl xt :
  returns_axes lib ->
  d1 < length h0 -> d2 < length h0 ->
  Forall (given six_fields h0) (read h0 d1) ->
  Forall (given six_fields h0) (read h0 d2) ->
  allocated h0 vl -> usable h0 (given three_fields h0) vl ->
  hoare (fun h => h = h0)
    (plot_with_two_axes_with_N_curves_with_VERTICAL_lines lib d1 d2 nx n1 n2
       c1 c2 ti f ms fs ls ll vl xt)
    (fun _ h => kept h0 h).
Proof.
  intros Hlib Hd1 Hd2 HA1 HA2 Hvl Hu.
  pose proof Hlib as [Hsub _].
  unfold plot_with_two_axes_with_N_curves_with_VERTICAL_lines.
  eapply hoare_conseq with (P := fun h => kept h0 h /\ True)
                           (Q := fun _ h => kept h0 h /\ True);
    [ | intros h ->; split; [apply kept_refl | exact I]
      | intros x h [K _]; exact K ].
  hs hoare_enter.
  eapply hoare_bind.
  { apply (hoare_lib_call_with _ _
             (fun v => exists fig ax, v = VTuple [fig; ax])).
    intros history. destruct (Hsub history) as (fig & ax & E). eauto. }
  intros r. cbv beta. apply hoare_pure. intros (fig & ax1 & ->).
  eapply hoare_bind; [apply hoare_unpack2_seq |].
  intros pair. cbv beta. apply hoare_pure. intros ->. cbv beta iota.
  eapply hoare_bind; [apply hoare_truthy_any |]. intros b. cbv beta.
  eapply hoare_bind.
  { destruct b.
    - hs hoare_lib_call. hs hoare_lib_call. apply hoare_ret.
    - eapply hoare_bind; [apply hoare_alloc_keep, stable_true |].
      intros no_labels. cbv beta.
      hs hoare_lib_call. hs hoare_lib_call. hs hoare_lib_call.
      apply hoare_ret. }
  intros ?. cbv beta.
  hs hoare_lib_call.
  eapply hoare_bind; [apply hoare_alloc_own, stable_true |].
  intros plot_1. cbv beta.
  eapply hoare_bind; [apply (hoare_read_list_given _ d1 Hd1) |].
  intros entries1. cbv beta. apply hoare_pure. intros ->.
  eapply hoare_bind.
  { apply hoare_for_enumerate. eapply Forall_impl; [exact HA1 |].
    intros d Hd i. cbv beta.
    apply hoare_plot_on_axis; [exact Hlib | apply stable_true | exact Hd]. }
  intros ?. cbv beta.
  hs hoare_lib_call.
  eapply hoare_bind; [apply hoare_lib_call |]. intros ax2. cbv beta.
  hs hoare_lib_call.
  eapply hoare_bind.
  { apply hoare_alloc_own.
    apply (stable_and _ _ stable_true (stable_own_list plot_1)). }
  intros plot_2. cbv beta.
  eapply hoare_bind; [apply (hoare_read_list_given _ d2 Hd2) |].
  intros entries2. cbv beta. apply hoare_pure. intros ->.
  eapply hoare_bind.
  { apply hoare_for_enumerate. eapply Forall_impl; [exact HA2 |].
    intros d Hd i. cbv beta.
    apply (hoare_plot_on_axis (fun h => True /\ own_list h0 plot_1 h));
      [ exact Hlib
      | apply (stable_and _ _ stable_true (stable_own_list plot_1))
      | exact Hd ]. }
  intros ?. cbv beta.
  hs hoare_lib_call. hs hoare_lib_call.
  assert (SP : stable (fun h => (True /\ own_list h0 plot_1 h) /\
                                own_list h0 plot_2 h))
    by (apply stable_and;
        [ apply (stable_and _ _ stable_true (stable_own_list plot_1))
        | apply stable_own_list ]).
  eapply hoare_bind.
  { apply (hoare_read_list_own
             (fun h => (True /\ own_list h0 plot_1 h) /\
                       own_list h0 plot_2 h) plot_1).
    intros h [[_ H1] _]. exact H1. }
  intros sublists1. cbv beta. apply hoare_pure. intros Hs1.
  hs (hoare_flatten (fun h => kept h0 h /\
                      (True /\ own_list h0 plot_1 h) /\
                      own_list h0 plot_2 h) sublists1 Hs1).
  eapply hoare_bind; [apply (hoare_alloc_keep _ _ SP) |].
  intros flat1. cbv beta.
  eapply hoare_bind.
  { apply (hoare_read_list_own
             (fun h => (True /\ own_list h0 plot_1 h) /\
                       own_list h0 plot_2 h) plot_2).
    intros h [_ H2]. exact H2. }
  intros sublists2. cbv beta. apply hoare_pure. intros Hs2.
  hs (hoare_flatten (fun h => kept h0 h /\
                      (True /\ own_list h0 plot_1 h) /\
                      own_list h0 plot_2 h) sublists2 Hs2).
  eapply hoare_bind; [apply (hoare_alloc_keep _ _ SP) |].
  intros flat2. cbv beta.
  hs hoare_read_list_any. hs hoare_read_list_any.
  eapply hoare_bind; [apply (hoare_alloc_keep _ _ SP) |].
  intros lns. cbv beta.
  hs hoare_read_list_any.
  eapply hoare_bind.
  { apply hoare_collect. intros l. apply hoare_lib_call. }
  intros labels_items. cbv beta.
  eapply hoare_bind; [apply (hoare_alloc_keep _ _ SP) |].
  intros labels. cbv beta.
  hs hoare_lib_call. hs hoare_lib_call.
  eapply hoare_bind; [apply (hoare_draw_vlines _ _ _ Hvl Hu) |].
  intros ?. cbv beta.
  hs hoare_save_unless.
  hs hoare_lib_call.
  eapply hoare_conseq;
    [apply hoare_ret | intros ? Hpre; exact Hpre | ].
  intros u h [K _]. split; [exact K | exact I].
Qed.

End Hoare.

Lemma hoare_returns h0 (m : M unit) Q s :
  hoare (fun h => h = h0) m Q -> heap s = h0 -> (m s).2 = Ok tt.
Proof. intros Hm Hs. destruct (Hm s Hs) as ([] & E & _). exact E. Qed.

(** ** The saved document *)



(** ** The claims about curves, error bars and subplots *)

(** C3, as amended: a call that returns normally of [plot_with_one_axis],
    [plot_with_one_axis_with_vertical_lines], [plot_dynamic_subplots] or
    [plot_with_two_axes_with_N_curves_with_VERTICAL_lines] has issued
    exactly one curve-drawing call per six-field descriptor, in the order
    of the list, each with that descriptor's x and y values, label, colour,
    line style and marker.  For the two-axes function the curves of
    [data_y_one] are drawn on the axes that [plt.subplots()] returned,
    before [twinx] is called on these axes, and those of [data_y_two] on
    the axes that this [twinx] call returned, after it.
    [plot_with_one_axis_with_points] takes five-field descriptors instead,
    draws each with its [marker_type] argument, and then draws one point
    per point descriptor.  And the call does return normally when the
    library accepts every call, every descriptor has that many fields,
    [y_lim] and [vlines], when true, can be unpacked (the entries of
    [vlines] into three fields) and, for the two-axes function,
    [plt.subplots()] returns a pair and [plot] a sequence, and the
    arguments that are list objects exist before the call. *)
Theorem curves_follow_descriptors lib (s : pystate) :
  (forall l nx ny ti f ms fs ots ll ls xl xn lw yl,
     let run :=
       plot_with_one_axis lib l nx ny ti f ms fs ots ll ls xl xn lw yl s in
     (never_raises lib ->
      Forall (six_fields (heap s)) (read (heap s) l) ->
      usable (heap s) (fun _ => True) yl ->
      run.2 = Ok tt) /\
     (run.2 = Ok tt ->
      blocks (one_curve (heap s) Pyplot) 0 (read (heap s) l)
        (List.filter is_curve (events_since s run.1)))) /\
  (forall l nx ny ti f ms fs ots ll ls xl vl yl,
     let run :=
       plot_with_one_axis_with_vertical_lines lib l nx ny ti f ms fs ots ll
         ls xl vl yl s in
     (never_raises lib ->
      Forall (six_fields (heap s)) (read (heap s) l) ->
      usable (heap s) (three_fields (heap s)) vl ->
      usable (heap s) (fun _ => True) yl ->
      run.2 = Ok tt) /\
     (run.2 = Ok tt ->
      blocks (one_curve (heap s) Pyplot) 0 (read (heap s) l)
        (List.filter is_curve (events_since s run.1)))) /\
  (forall l nx ny f ms fs ots ll ls xl,
     let run := plot_dynamic_subplots lib l nx ny f ms fs ots ll ls xl s in
     (never_raises lib ->
      Forall (six_fields (heap s)) (read (heap s) l) ->
      run.2 = Ok tt) /\
     (run.2 = Ok tt ->
      blocks (one_curve (heap s) Pyplot) 1 (read (heap s) l)
        (List.filter is_curve (events_since s run.1)))) /\
  (forall d1 d2 nx n1 n2 c1 c2 ti f ms fs ls ll vl xt,
     let run :=
       plot_with_two_axes_with_N_curves_with_VERTICAL_lines lib d1 d2 nx n1
         n2 c1 c2 ti f ms fs ls ll vl xt s in
     d1 < length (heap s) -> d2 < length (heap s) ->
     (never_raises lib -> returns_axes lib ->
      Forall (given six_fields (heap s)) (read (heap s) d1) ->
      Forall (given six_fields (heap s)) (read (heap s) d2) ->
      allocated (heap s) vl ->
      usable (heap s) (given three_fields (heap s)) vl ->
      run.2 = Ok tt) /\
     (Forall (allocated (heap s)) (read (heap s) d1) ->
      Forall (allocated (heap s)) (read (heap s) d2) ->
      run.2 = Ok tt ->
      exists r fig ax1 ax2 ta tb t1 t2,
        subplots_returns lib s r fig ax1 /\
        events_since s run.1 = ta ++ ECall (method ax1 "twinx" [] []) :: tb /\
        lib (trace s ++ ta) (method ax1 "twinx" [] []) = Returns ax2 /\
        List.filter is_curve ta = t1 /\ List.filter is_curve tb = t2 /\
        List.filter is_curve (events_since s run.1) = t1 ++ t2 /\
        blocks (one_curve (heap s) (Method ax1)) 0 (read (heap s) d1) t1 /\
        blocks (one_curve (heap s) (Method ax2)) 0 (read (heap s) d2) t2)) /\
  (forall l pts nx ny ti f mt ms,
     let run := plot_with_one_axis_with_points lib l pts nx ny ti f mt ms s in
     (never_raises lib ->
      Forall (five_fields (heap s)) (read (heap s) l) ->
      Forall (six_fields (heap s)) (read (heap s) pts) ->
      run.2 = Ok tt) /\
     (run.2 = Ok tt ->
      exists t1 t2,
        List.filter is_curve (events_since s run.1) = t1 ++ t2 /\
        blocks (draws_unmarked_series (heap s) mt) 0 (read (heap s) l) t1 /\
        blocks (draws_point (heap s)) 0 (read (heap s) pts) t2)).
Proof.
  repeat apply conj; intros; subst run.
  - split; [intros | intros R%ok_run].
    + eapply goes_returns;
        [apply goes_plot_with_one_axis; eassumption | reflexivity].
    + eapply one_axis_curves; exact R.
  - split; [intros | intros R%ok_run].
    + eapply goes_returns;
        [apply goes_plot_with_vertical_lines; eassumption | reflexivity].
    + eapply vlines_curves; exact R.
  - split; [intros | intros R%ok_run].
    + eapply goes_returns; [apply goes_subplots; eassumption | reflexivity].
    + eapply subplots_curves; exact R.
  - split; [intros | intros ? ? R%ok_run].
    + eapply hoare_returns;
        [apply hoare_two_axes; eassumption | reflexivity].
    + match goal with
      | Hd1 : _ < _, Hd2 : _ < _, HA1 : Forall _ _, HA2 : Forall _ _ |- _ =>
          destruct (two_axes_curves _ _ _ _ _ _ _ _ _ _ _ _ _ _ _ _ _ _
                      Hd1 Hd2 HA1 HA2 R)
            as (r & fig & ax1 & ax2 & ta & tb & Hsub & E & Hax & B1 & B2)
      end.
      exists r, fig, ax1, ax2, ta, tb.
      exists (List.filter is_curve ta), (List.filter is_curve tb).
      repeat (split; [first [assumption | reflexivity] |]).
      split; [| split; assumption].
      rewrite E, List.filter_app. reflexivity.
  - split; [intros | intros R%ok_run].
    + eapply goes_returns; [apply goes_points; eassumption | reflexivity].
    + eapply points_curves; exact R.
Qed.

(** C5, as amended: an entry of [plot_with_one_axis_and_error_bars_BYLIST]
    has exactly five fields (x values, y values, y errors, label, colour)
    and an entry of [one_axis__N_Y_with_error_bars__with_N_fits] at least
    six items, the first six being x values, y values, y errors, label,
    colour and line style; neither carries a marker, which is the
    [marker_type] argument of the function.  On entries of that shape the
    call returns normally if the library accepts every call, and a call
    that returns normally has read every entry in that shape and issued
    one error-bar call for it with those fields. *)
Theorem error_entries_shape lib (s : pystate) :
  (forall l nx ny ti f lst mt ms ce tr,
     let run :=
       plot_with_one_axis_and_error_bars_BYLIST lib l nx ny ti f lst mt ms
         ce tr s in
     (never_raises lib ->
      Forall (five_fields (heap s)) (read (heap s) l) ->
      run.2 = Ok tt) /\
     (run.2 = Ok tt ->
      blocks (draws_error_series (heap s) mt) 0 (read (heap s) l)
        (List.filter is_errorbar (events_since s run.1)))) /\
  (forall l fit nx ny ti f mt ms ce al fs ots ls ll xl,
     let run :=
       one_axis__N_Y_with_error_bars__with_N_fits lib l fit nx ny ti f mt ms
         ce al fs ots ls ll xl s in
     (never_raises lib ->
      Forall (six_or_more (heap s)) (read (heap s) l) ->
      Forall (four_or_more (heap s)) (read (heap s) fit) ->
      run.2 = Ok tt) /\
     (run.2 = Ok tt ->
      blocks (draws_styled_error_series (heap s) mt) 0 (read (heap s) l)
        (List.filter is_errorbar (events_since s run.1)))).
Proof.
  repeat apply conj; intros; subst run.
  - split; [intros | intros R%ok_run].
    + eapply goes_returns; [apply goes_error_bars; eassumption | reflexivity].
    + eapply error_bars_calls; exact R.
  - split; [intros | intros R%ok_run].
    + eapply goes_returns; [apply goes_fits; eassumption | reflexivity].
    + eapply fits_calls; exact R.
Qed.

(** C9: a call of [plot_dynamic_subplots] on a list of [n] six-field
    descriptors returns normally when the library accepts every call, and
    a call that returns normally has made one figure, of size
    [(8, 4 * n)], and then, for [i] from 1 to [n] in order, has selected
    the subplot [i] of a grid of [n] rows and one column and drawn in it
    one curve and no more, the one of the [i]-th descriptor, with that
    descriptor's data, label, colour, line style and marker. *)
Theorem subplots_stack_the_series lib l nx ny f ms fs ots ll ls xl
    (s : pystate) :
  let run := plot_dynamic_subplots lib l nx ny f ms fs ots ll ls xl s in
  let entries := read (heap s) l in
  (never_raises lib -> Forall (six_fields (heap s)) entries ->
   run.2 = Ok tt) /\
  (run.2 = Ok tt ->
   exists t,
     List.filter is_layout (events_since s run.1)
     = ECall (plt "figure" []
                [("figsize",
                  VTuple [VInt 8; VInt (Z.of_nat (length entries) * 4)])])
       :: t /\
     blocks (subplot_row (heap s) (length entries)) 1 entries t).
Proof.
  intros run entries. split.
  - intros Hlib He. subst run.
    eapply goes_returns; [apply goes_subplots; eassumption | reflexivity].
  - intros R%ok_run. exact (subplots_layout _ _ _ _ _ _ _ _ _ _ _ _ _ R).
Qed.

(** ** The palettes *)

(** C8: whatever the state, and so whatever was called before, each
    palette function returns a list of the same colours in the same order
    (9, 10 and 22 of them), each colour a [#] followed by six hexadecimal
    digits; the functions take no argument. *)
Theorem palettes_are_constant (s : pystate) :
  returned_items (c_scheme s) = Some palette_01 /\
  returned_items (c_scheme_02 s) = Some palette_02 /\
  returned_items (c_scheme_03 s) = Some palette_03 /\
  (length palette_01, length palette_02, length palette_03) = (9, 10, 22) /\
  forallb is_hex_color (palette_01 ++ palette_02 ++ palette_03) = true.
Proof.
  unfold returned_items, c_scheme, c_scheme_02, c_scheme_03, bind, enter,
    alloc, ret. simpl.
  rewrite !read_new_object. repeat split.
Qed.

(** ** The line style of the error bars *)

(** C10: two calls of [plot_with_one_axis_and_error_bars_BYLIST] that
    differ in [line_style] only end in the same state (the same calls into
    the library with the same arguments, the same document) with the same
    result, and every error-bar call is given the line style ["-"]. *)
Theorem line_style_is_ignored lib ALLDATA nx ny ti f ls1 ls2 mt ms ce tr
    (s : pystate) :
  plot_with_one_axis_and_error_bars_BYLIST lib ALLDATA nx ny ti f ls1 mt ms
    ce tr s
  = plot_with_one_axis_and_error_bars_BYLIST lib ALLDATA nx ny ti f ls2 mt ms
      ce tr s /\
  Forall (fun e => is_errorbar e = true ->
                   exists c, e = ECall c /\
                             kwarg "linestyle" c = Some (VStr "-"))
    (events_since s
       (plot_with_one_axis_and_error_bars_BYLIST lib ALLDATA nx ny ti f ls1
          mt ms ce tr s).1).
Proof.
  split; [reflexivity |].
  assert (Ho : obeys (extends_with (fun e => is_errorbar e = true ->
                        exists c, e = ECall c /\
                                  kwarg "linestyle" c = Some (VStr "-")))
                 (plot_with_one_axis_and_error_bars_BYLIST lib ALLDATA nx ny
                    ti f ls1 mt ms ce tr)).
  { unfold plot_with_one_axis_and_error_bars_BYLIST.
    obey ltac:(first [ intros Hs; vm_compute in Hs; discriminate Hs
                     | intros _ Hs; vm_compute in Hs; discriminate Hs
                     | intros _; eexists; split; reflexivity ]). }
  exact (extends_events _ s _ _ (Ho s)).
Qed.

(** ** Vertical lines and the saved document *)

(** C1, at an input where the code departs from it: with a filename and
    one vertical line, [plot_with_one_axis_with_vertical_lines] saves the
    figure and only then draws the line, so the document lacks the line;
    on the same input the two-axes function draws the line and then
    saves. *)
Theorem vertical_line_drawn_after_saving :
  let line := ECall (plt "axvline" []
                       [("x", VInt 1); ("color", VStr "red");
                        ("linestyle", VStr "--")]) in
  let line_on_axes := ECall (method (VObj 1) "axvline" []
                       [("x", VInt 1); ("color", VStr "red");
                        ("linestyle", VStr "--")]) in
  let save := ECall (plt "savefig" [VStr "out.pdf"] []) in
  let vlines := VTuple [vline_1] in
  exec quiet_lib (vlines_call 0 "out" vlines) sample_state
  = ((exec quiet_lib (vlines_call 0 "out" vlines) sample_state).1, Ok tt) /\
  List.filter save_or_vline
    (events_since sample_state
       (exec quiet_lib (vlines_call 0 "out" vlines) sample_state).1)
  = [save; line] /\
  List.filter save_or_vline
    (events_since sample_state
       (exec quiet_lib (two_axes_call 0 8 "out" vlines) sample_state).1)
  = [line_on_axes; save].
Proof. vm_compute. repeat split. Qed.

(** ** The claims at concrete inputs *)

(** The library of the examples never raises. *)
Lemma quiet_lib_returns history c : exists v, quiet_lib history c = Returns v.
Proof.
  unfold quiet_lib. repeat destruct (String.eqb _ _); eexists; reflexivity.
Qed.

Lemma quiet_lib_returns_axes : returns_axes quiet_lib.
Proof.
  split.
  - intros history. exists (VObj 0), (VObj 1). reflexivity.
  - intros history c Hc. unfold quiet_lib. rewrite Hc. simpl.
    eexists. reflexivity.
Qed.

(** The two-axes function on two lists of series and one vertical line:
    it returns, with three curves. *)
Example two_axes_sample_run :
  let run := exec quiet_lib (two_axes_call 0 8 "out" (VTuple [vline_1]))
               sample_state in
  run.2 = Ok tt /\
  length (List.filter is_curve (events_since sample_state run.1)) = 3.
Proof. vm_compute. split; reflexivity. Qed.



(** C3 as stated fails: [plot_with_one_axis_with_points] given the list of
    two six-field series descriptors stops at the first one, which it
    cannot unpack into five names, and draws no curve. *)
Lemma six_field_series_rejected_by_points :
  let run := exec quiet_lib (points_call 0 9 "nopdf") sample_state in
  read sample_heap 0 = [series_a; series_b] /\
  run.2 = Err (ValueError "too many values to unpack") /\
  List.filter is_curve (events_since sample_state run.1) = [] /\
  ~ blocks (one_curve sample_heap Pyplot) 0 (read sample_heap 0)
      (List.filter is_curve (events_since sample_state run.1)).
Proof.
  vm_compute. repeat split.
  intros (es & t' & E & (c & Ec & _) & _). subst es. discriminate E.
Qed.

(** C3, as amended, at [plot_with_one_axis] with two series, and at the
    two-axes function with two series on the first axes and one on the
    second. *)
Lemma curves_follow_descriptors_witness :
  let run :=
    plot_with_one_axis quiet_lib 0 (VStr "x") (VStr "y") (VStr "") "out"
      (VStr "5") (VInt 16) (VInt 16) (VStr "best") (VInt 16) (VInt 5)
      (VStr "sci") (VFloat (3 # 2)) VNone sample_state in
  let run2 :=
    plot_with_two_axes_with_N_curves_with_VERTICAL_lines quiet_lib 0 8
      (VStr "name_x") (VStr "name_y1") (VStr "name_y2") (VStr "red")
      (VStr "blue") (VStr "title") "nopdf" (VStr "5") (VInt 18) (VInt 18)
      (VStr "best") VNone (VBool true) sample_state in
  (never_raises quiet_lib /\
   Forall (six_fields (heap sample_state)) (read (heap sample_state) 0) /\
   usable (heap sample_state) (fun _ => True) VNone /\
   run.2 = Ok tt /\
   blocks (one_curve (heap sample_state) Pyplot) 0
     (read (heap sample_state) 0)
     (List.filter is_curve (events_since sample_state run.1))) /\
  (0 < length (heap sample_state) /\ 8 < length (heap sample_state) /\
   returns_axes quiet_lib /\
   Forall (given six_fields (heap sample_state))
     (read (heap sample_state) 0) /\
   Forall (given six_fields (heap sample_state))
     (read (heap sample_state) 8) /\
   allocated (heap sample_state) VNone /\
   usable (heap sample_state) (given three_fields (heap sample_state)) VNone /\
   run2.2 = Ok tt /\
   exists r fig ax1 ax2 ta tb t1 t2,
     subplots_returns quiet_lib sample_state r fig ax1 /\
     events_since sample_state run2.1
     = ta ++ ECall (method ax1 "twinx" [] []) :: tb /\
     quiet_lib (trace sample_state ++ ta) (method ax1 "twinx" [] [])
     = Returns ax2 /\
     List.filter is_curve ta = t1 /\ List.filter is_curve tb = t2 /\
     List.filter is_curve (events_since sample_state run2.1) = t1 ++ t2 /\
     blocks (one_curve (heap sample_state) (Method ax1)) 0
       (read (heap sample_state) 0) t1 /\
     blocks (one_curve (heap sample_state) (Method ax2)) 0
       (read (heap sample_state) 8) t2).
Proof.
  intros run run2.
  assert (N : never_raises quiet_lib) by exact quiet_lib_returns.
  split.
  - pose proof (proj1 (curves_follow_descriptors quiet_lib sample_state)
                  0 (VStr "x") (VStr "y") (VStr "") "out" (VStr "5") (VInt 16)
                  (VInt 16) (VStr "best") (VInt 16) (VInt 5) (VStr "sci")
                  (VFloat (3 # 2)) VNone) as [Hret Hcurves].
    assert (F : Forall (six_fields (heap sample_state))
                  (read (heap sample_state) 0))
      by (repeat constructor; do 6 eexists; reflexivity).
    assert (U : usable (heap sample_state) (fun _ => True) VNone)
      by (intros E; discriminate E).
    pose proof (Hret N F U) as R.
    split; [exact N |]. split; [exact F |]. split; [exact U |].
    split; [exact R | exact (Hcurves R)].
  - assert (L0 : 0 < length (heap sample_state)) by (simpl; lia).
    assert (L8 : 8 < length (heap sample_state)) by (simpl; lia).
    pose proof (proj1 (proj2 (proj2 (proj2
                  (curves_follow_descriptors quiet_lib sample_state))))
                  0 8 (VStr "name_x") (VStr "name_y1") (VStr "name_y2")
                  (VStr "red") (VStr "blue") (VStr "title") "nopdf" (VStr "5")
                  (VInt 18) (VInt 18) (VStr "best") VNone (VBool true) L0 L8)
      as [Hret Hcurves].
    assert (A : returns_axes quiet_lib) by exact quiet_lib_returns_axes.
    assert (F0 : Forall (given six_fields (heap sample_state))
                   (read (heap sample_state) 0))
      by (repeat constructor; do 6 eexists; reflexivity).
    assert (F8 : Forall (given six_fields (heap sample_state))
                   (read (heap sample_state) 8))
      by (repeat constructor; do 6 eexists; reflexivity).
    assert (Av : allocated (heap sample_state) VNone) by exact I.
    assert (U : usable (heap sample_state)
                  (given three_fields (heap sample_state)) VNone)
      by (intros E; discriminate E).
    pose proof (Hret N A F0 F8 Av U) as R.
    assert (A0 : Forall (allocated (heap sample_state))
                   (read (heap sample_state) 0))
      by (repeat constructor).
    assert (A8 : Forall (allocated (heap sample_state))
                   (read (heap sample_state) 8))
      by (repeat constructor).
    split; [exact L0 |]. split; [exact L8 |]. split; [exact A |].
    split; [exact F0 |]. split; [exact F8 |]. split; [exact Av |].
    split; [exact U |]. split; [exact R | exact (Hcurves A0 A8 R)].
Defined.

(** C5 as stated fails: an entry that is a series descriptor with the
    y errors added has seven fields;
    [plot_with_one_axis_and_error_bars_BYLIST] cannot unpack it into its
    five names, and [one_axis__N_Y_with_error_bars__with_N_fits] reads
    its label as the y errors. *)
Lemma seven_field_entry_rejected :
  read sample_heap 6
  = [VTuple [xs; ys; VStr "a"; VStr "#ffb400"; VStr "-"; VStr "o"; errs]] /\
  (exec quiet_lib
     (error_bars_call 6 (VStr "x") (VStr "y") "nosvg" (VStr ""))
     sample_state).2
  = Err (ValueError "too many values to unpack") /\
  List.filter is_errorbar
    (events_since sample_state
       (exec quiet_lib (fits_call 6 9 "nopdf") sample_state).1)
  = [ECall (plt "errorbar" [xs; ys]
              [("yerr", VStr "a"); ("fmt", VStr "o");
               ("label", VStr "#ffb400"); ("capsize", VInt 5);
               ("color", VStr "-"); ("linestyle", VStr "o");
               ("markersize", VStr "5"); ("alpha", VFloat (1 # 2))])].
Proof. vm_compute. repeat split. Qed.

(** C5, as amended, at a list of one five-field entry. *)
Lemma error_entries_shape_witness :
  let run :=
    plot_with_one_axis_and_error_bars_BYLIST quiet_lib 3 (VStr "x")
      (VStr "y") (VStr "title") "nosvg" (VStr "") (VStr "o") (VStr "5")
      (VInt 5) (VFloat 1) sample_state in
  never_raises quiet_lib /\
  Forall (five_fields (heap sample_state)) (read (heap sample_state) 3) /\
  run.2 = Ok tt /\
  blocks (draws_error_series (heap sample_state) (VStr "o")) 0
    (read (heap sample_state) 3)
    (List.filter is_errorbar (events_since sample_state run.1)).
Proof.
  intros run.
  pose proof (proj1 (error_entries_shape quiet_lib sample_state)
                3 (VStr "x") (VStr "y") (VStr "title") "nosvg" (VStr "")
                (VStr "o") (VStr "5") (VInt 5) (VFloat 1)) as [Hret Hcalls].
  assert (N : never_raises quiet_lib) by exact quiet_lib_returns.
  assert (F : Forall (five_fields (heap sample_state))
                (read (heap sample_state) 3))
    by (repeat constructor; do 5 eexists; reflexivity).
  pose proof (Hret N F) as R.
  split; [exact N |]. split; [exact F |].
  split; [exact R | exact (Hcalls R)].
Defined.



(** C9 at a list of two series. *)
Lemma subplots_stack_the_series_witness :
  let run :=
    plot_dynamic_subplots quiet_lib 0 (VStr "x") (VStr "y") "out" (VInt 5)
      (VInt 16) (VInt 16) (VStr "best") (VInt 16) (VInt 5) sample_state in
  let entries := read (heap sample_state) 0 in
  never_raises quiet_lib /\
  Forall (six_fields (heap sample_state)) entries /\
  run.2 = Ok tt /\
  exists t,
    List.filter is_layout (events_since sample_state run.1)
    = ECall (plt "figure" []
               [("figsize",
                 VTuple [VInt 8; VInt (Z.of_nat (length entries) * 4)])])
      :: t /\
    blocks (subplot_row (heap sample_state) (length entries)) 1 entries t.
Proof.
  intros run entries.
  pose proof (subplots_stack_the_series quiet_lib 0 (VStr "x") (VStr "y")
                "out" (VInt 5) (VInt 16) (VInt 16) (VStr "best") (VInt 16)
                (VInt 5) sample_state) as [Hret Hlayout].
  assert (N : never_raises quiet_lib) by exact quiet_lib_returns.
  assert (F : Forall (six_fields (heap sample_state)) entries)
    by (repeat constructor; do 6 eexists; reflexivity).
  pose proof (Hret N F) as R.
  split; [exact N |]. split; [exact F |].
  split; [exact R | exact (Hlayout R)].
Defined.

(** * Further properties of the module *)

(** ** The end of a call *)

Ltac at_show m :=
  lazymatch m with lib_call _ (plt "show" _ _) => idtac end.

(** A call of a plotting function that returns normally has called
    [plt.show()] once, as its last call into the library: whatever was
    saved was saved before the figure is shown. *)
Theorem show_ends_the_call lib (c : plot_call) (s s' : pystate) :
  exec lib c s = (s', Ok tt) ->
  exists t,
    events_since s s' = t ++ [ECall (plt "show" [] [])] /\
    Forall (fun e => is_show e = false) t.
Proof.
  intros H.
  pose proof (law_refl _ (law_extends (fun e => is_show e = false)) s) as Hacc.
  destruct c; unfold exec in H;
    [ unfold plot_with_one_axis in H
    | unfold plot_with_one_axis_with_vertical_lines in H
    | unfold plot_with_one_axis_and_error_bars_BYLIST in H
    | unfold plot_with_one_axis_with_points in H
    | unfold plot_with_two_axes_with_N_curves_with_VERTICAL_lines in H
    | unfold one_axis__N_Y_with_error_bars__with_N_fits in H
    | unfold plot_dynamic_subplots in H ];
    walk_to at_show ltac:(reflexivity) H Hacc.
  all: open_body H.
  all: destruct Hacc as (t & E & F); exists t; split; [| exact F].
  all: apply events_since_app; simpl; rewrite E, <- app_assoc; reflexivity.
Qed.

(** At [plot_with_one_axis]. *)
Lemma show_ends_the_call_witness :
  let c := one_axis_call 0 "out" in
  let run := exec quiet_lib c sample_state in
  run = (run.1, Ok tt) /\
  exists t,
    events_since sample_state run.1 = t ++ [ECall (plt "show" [] [])] /\
    Forall (fun e => is_show e = false) t.
Proof.
  intros c run.
  assert (R : run = (run.1, Ok tt)) by (vm_compute; reflexivity).
  split; [exact R |].
  exact (show_ends_the_call quiet_lib c sample_state run.1 R).
Defined.

(** ** Drawing and saving *)

(** The run of [H] saves a document: split its events at the save, with
    [P1] holding before and [P2] after. *)
Ltac around_save P1 P2 N H :=
  match type of H with
  | _ ?s = (?s', _) =>
      let Hacc := fresh "Hacc" in
      pose proof (law_refl _ (law_extends P1) s) as Hacc;
      walk_to at_save ltac:(reflexivity) H Hacc;
      let sa := fresh "s" in let xa := fresh "x" in
      let Hsave := fresh "Hsave" in
      apply bind_Ok_inv in H; destruct H as (sa & xa & Hsave & H);
      apply (save_unless_Ok _ _ _ _ _ _ _ N) in Hsave;
      let Hrest := fresh "Hrest" in
      the_rest P2 H Hrest;
      let t1 := fresh "t" in let E1 := fresh "E" in let F1 := fresh "F" in
      let t2 := fresh "t" in let E2 := fresh "E" in let F2 := fresh "F" in
      destruct Hacc as (t1 & E1 & F1); destruct Hrest as (t2 & E2 & F2);
      exists t1; eexists; exists t2;
      split; [| split; [exact F1 | exact F2]];
      apply events_since_app;
      rewrite E2, Hsave, E1, <- !app_assoc; reflexivity
  end.

(** A call that returns normally and saves a document has issued every
    curve, error-bar and subplot call before [savefig], and [savefig]
    once: the document holds all the data series. *)
Theorem data_drawn_before_saving lib (c : plot_call) (s s' : pystate) :
  filename_of c <> default_filename c ->
  exec lib c s = (s', Ok tt) ->
  exists t1 kw t2,
    events_since s s' = t1 ++ savefig_of c kw :: t2 /\
    Forall (fun e => is_save e = false) t1 /\
    Forall (fun e => is_save e || is_drawing e = false) t2.
Proof.
  intros N H.
  destruct c; simpl in N; unfold exec in H;
    [ unfold plot_with_one_axis in H
    | unfold plot_with_one_axis_with_vertical_lines in H
    | unfold plot_with_one_axis_and_error_bars_BYLIST in H
    | unfold plot_with_one_axis_with_points in H
    | unfold plot_with_two_axes_with_N_curves_with_VERTICAL_lines in H
    | unfold one_axis__N_Y_with_error_bars__with_N_fits in H
    | unfold plot_dynamic_subplots in H ];
    around_save (fun e => is_save e = false)
      (fun e => is_save e || is_drawing e = false) N H.
Qed.

(** At [plot_with_one_axis]. *)
Lemma data_drawn_before_saving_witness :
  let c := one_axis_call 0 "out" in
  let run := exec quiet_lib c sample_state in
  filename_of c <> default_filename c /\
  run = (run.1, Ok tt) /\
  exists t1 kw t2,
    events_since sample_state run.1 = t1 ++ savefig_of c kw :: t2 /\
    Forall (fun e => is_save e = false) t1 /\
    Forall (fun e => is_save e || is_drawing e = false) t2.
Proof.
  intros c run.
  assert (N : filename_of c <> default_filename c) by discriminate.
  assert (R : run = (run.1, Ok tt)) by (vm_compute; reflexivity).
  split; [exact N |]. split; [exact R |].
  exact (data_drawn_before_saving quiet_lib c sample_state run.1 N R).
Defined.

(** The vertical lines and the saved document, in general: when a
    document is saved, the two-axes function has drawn every vertical line
    before [savefig], and [plot_with_one_axis_with_vertical_lines] draws
    every one of them after it. *)
Theorem vertical_lines_and_saving lib (s s' : pystate) :
  (forall d1 d2 nx n1 n2 c1 c2 ti f ms fs ls ll vl xt,
     f <> "nopdf" ->
     plot_with_two_axes_with_N_curves_with_VERTICAL_lines lib d1 d2 nx n1 n2
       c1 c2 ti f ms fs ls ll vl xt s = (s', Ok tt) ->
     exists t1 kw t2,
       events_since s s'
       = t1 ++ ECall (plt "savefig" [VStr (String.append f ".pdf")] kw) :: t2 /\
       Forall (fun e => is_save e = false) t1 /\
       Forall (fun e => is_axvline e = false) t2) /\
  (forall l nx ny ti f ms fs ots ll ls xl vl yl,
     f <> "nosvg" ->
     plot_with_one_axis_with_vertical_lines lib l nx ny ti f ms fs ots ll ls
       xl vl yl s = (s', Ok tt) ->
     exists t1 kw t2,
       events_since s s'
       = t1 ++ ECall (plt "savefig" [VStr (String.append f ".pdf")] kw) :: t2 /\
       Forall (fun e => is_axvline e = false) t1 /\
       Forall (fun e => is_save e = false) t2).
Proof.
  split.
  - intros d1 d2 nx n1 n2 c1 c2 ti f ms fs ls ll vl xt N H.
    unfold plot_with_two_axes_with_N_curves_with_VERTICAL_lines in H.
    around_save (fun e => is_save e = false)
      (fun e => is_axvline e = false) N H.
  - intros l nx ny ti f ms fs ots ll ls xl vl yl N H.
    unfold plot_with_one_axis_with_vertical_lines in H.
    around_save (fun e => is_axvline e = false)
      (fun e => is_save e = false) N H.
Qed.

(** At the two functions, with one vertical line. *)
Lemma vertical_lines_and_saving_witness :
  let run :=
    plot_with_one_axis_with_vertical_lines quiet_lib 0 (VStr "x") (VStr "y")
      (VStr "title") "out" (VStr "5") (VInt 16) (VInt 16) (VStr "best")
      (VInt 16) (VInt 5) (VTuple [vline_1]) VNone sample_state in
  "out" <> "nosvg" /\
  run = (run.1, Ok tt) /\
  exists t1 kw t2,
    events_since sample_state run.1
    = t1 ++ ECall (plt "savefig" [VStr (String.append "out" ".pdf")] kw)
         :: t2 /\
    Forall (fun e => is_axvline e = false) t1 /\
    Forall (fun e => is_save e = false) t2.
Proof.
  intros run.
  assert (N : "out" <> "nosvg") by discriminate.
  assert (R : run = (run.1, Ok tt)) by (vm_compute; reflexivity).
  split; [exact N |]. split; [exact R |].
  exact (proj2 (vertical_lines_and_saving quiet_lib sample_state run.1)
           0 (VStr "x") (VStr "y") (VStr "title") "out" (VStr "5") (VInt 16)
           (VInt 16) (VStr "best") (VInt 16) (VInt 5) (VTuple [vline_1])
           VNone N R).
Defined.

(** ** Labels without a legend *)


(** ** Palettes are new lists *)

Lemma fresh_list_twice f (items : list pyval) (v : pyval) (s : pystate) :
  let palette := bind (enter f) (fun _ =>
                   bind (alloc items) (fun a => ret (VList a))) in
  let run := palette_twice palette v s in
  exists a b,
    run.2 = Ok (VList a, VList b) /\ a <> b /\
    read (heap run.1) a = items ++ [v] /\
    read (heap run.1) b = items /\
    heap s `prefix_of` heap run.1.
Proof.
  intros palette run.
  exists (length (heap s)), (S (length (heap s))).
  subst run palette. unfold palette_twice, bind, enter, alloc, list_append, ret.
  cbn [heap module_vars trace fst snd].
  rewrite length_alter, length_app. simpl length.
  replace (length (heap s) + 1) with (S (length (heap s))) by lia.
  split; [reflexivity |]. split; [lia |].
  assert (L1 : length (alter (fun l => l ++ [v]) (length (heap s))
                         (heap s ++ [items])) = S (length (heap s)))
    by (rewrite length_alter, length_app; simpl; lia).
  split; [| split].
  - rewrite read_alloc_old by lia. rewrite read_append.
    destruct (decide (length (heap s) = length (heap s))); [| congruence].
    rewrite length_app. simpl length.
    destruct (decide (length (heap s) < length (heap s) + 1)); [| lia].
    rewrite read_new_object. reflexivity.
  - rewrite <- L1 at 1. apply read_new_object.
  - rewrite alter_app_r_alt by lia. rewrite <- app_assoc.
    apply prefix_app_r. reflexivity.
Qed.

(** A palette function builds a new list at every call: after a caller
    has appended to the list it got, a second call still returns the
    colours of the source, in a list that is another object, and no list
    that existed before is touched. *)
Theorem palettes_are_fresh_lists (s : pystate) (v : pyval) :
  (exists a b,
     (palette_twice c_scheme v s).2 = Ok (VList a, VList b) /\ a <> b /\
     read (heap (palette_twice c_scheme v s).1) a = palette_01 ++ [v] /\
     read (heap (palette_twice c_scheme v s).1) b = palette_01 /\
     heap s `prefix_of` heap (palette_twice c_scheme v s).1) /\
  (exists a b,
     (palette_twice c_scheme_02 v s).2 = Ok (VList a, VList b) /\ a <> b /\
     read (heap (palette_twice c_scheme_02 v s).1) a = palette_02 ++ [v] /\
     read (heap (palette_twice c_scheme_02 v s).1) b = palette_02 /\
     heap s `prefix_of` heap (palette_twice c_scheme_02 v s).1) /\
  (exists a b,
     (palette_twice c_scheme_03 v s).2 = Ok (VList a, VList b) /\ a <> b /\
     read (heap (palette_twice c_scheme_03 v s).1) a = palette_03 ++ [v] /\
     read (heap (palette_twice c_scheme_03 v s).1) b = palette_03 /\
     heap s `prefix_of` heap (palette_twice c_scheme_03 v s).1).
Proof.
  split; [| split].
  - exact (fresh_list_twice "c_scheme" palette_01 v s).
  - exact (fresh_list_twice "c_scheme_02" palette_02 v s).
  - exact (fresh_list_twice "c_scheme_03" palette_03 v s).
Qed.

(** ** Error bars and fits *)

Section FitBodies.

Variable lib : list event -> call -> outcome.

Lemma fits_data_entry_data mt ms ce al d s1 s2 :
  fits_data_entry lib mt ms ce al d s1 = (s2, Ok tt) ->
  heap s2 = heap s1 /\
  exists t, trace s2 = trace s1 ++ t /\
            forall i, draws_styled_error_series (heap s1) mt i d
                        (List.filter is_data t).
Proof.
  intros H. destruct (fits_data_entry_Ok lib _ _ _ _ _ _ _ H) as (Hh & _).
  unfold fits_data_entry in H. open_body H.
  repeat match goal with
         | E1 : items_of ?h ?v = Some ?a, E2 : items_of ?h ?v = Some ?b |- _ =>
             rewrite E1 in E2; injection E2 as <-
         end.
  match goal with
  | E : items_of _ _ = Some ?items |- _ =>
      do 6 (destruct items as [| ? items]; [simpl in *; discriminate |])
  end.
  simpl in *.
  repeat match goal with
         | E : Some _ = Some _ |- _ => injection E as ->
         end.
  split; [reflexivity |].
  eexists. split; [reflexivity |]. intros i. simpl.
  unfold draws_styled_error_series. do 8 eexists.
  split; [reflexivity |]. split; [reflexivity |]. split; [eassumption |].
  repeat split.
Qed.

Lemma fits_fit_entry_Ok f s1 s2 :
  fits_fit_entry lib f s1 = (s2, Ok tt) ->
  heap s2 = heap s1 /\
  exists t, trace s2 = trace s1 ++ t /\
            forall i, draws_fit (heap s1) i f (List.filter is_data t).
Proof.
  unfold fits_fit_entry. intros H. open_body H.
  repeat match goal with
         | E1 : items_of ?h ?v = Some ?a, E2 : items_of ?h ?v = Some ?b |- _ =>
             rewrite E1 in E2; injection E2 as <-
         end.
  match goal with
  | E : items_of _ _ = Some ?items |- _ =>
      do 4 (destruct items as [| ? items]; [simpl in *; discriminate |])
  end.
  simpl in *.
  repeat match goal with
         | E : Some _ = Some _ |- _ => injection E as ->
         end.
  split; [reflexivity |].
  eexists. split; [reflexivity |]. intros i. simpl.
  unfold draws_fit. do 5 eexists. split; [eassumption | reflexivity].
Qed.

End FitBodies.

(** A call of [one_axis__N_Y_with_error_bars__with_N_fits] that returns
    normally has drawn the error bars of every data entry, in order, and
    then one curve per fit, in order, from the first four items of the fit
    (x values, y values, label, colour) and with no other styling. *)
Theorem fits_follow_error_bars lib l fit nx ny ti f mt ms ce al fs ots ls ll
    xl (s s' : pystate) :
  one_axis__N_Y_with_error_bars__with_N_fits lib l fit nx ny ti f mt ms ce al
    fs ots ls ll xl s = (s', Ok tt) ->
  exists t1 t2,
    List.filter is_data (events_since s s') = t1 ++ t2 /\
    blocks (draws_styled_error_series (heap s) mt) 0 (read (heap s) l) t1 /\
    blocks (draws_fit (heap s)) 0 (read (heap s) fit) t2.
Proof.
  intros H. unfold one_axis__N_Y_with_error_bars__with_N_fits in H.
  assert (Hacc : both (extends_with (fun e => is_data e = false)) same_store
                   s s None)
    by (apply law_refl; solve_law).
  walk_to at_loop ltac:(reflexivity) H Hacc. open_read_list.
  destruct Hacc as [(t0 & E0 & F0) [Hh0 _]].
  apply bind_Ok_inv in H. destruct H as (sa & [] & Hloop1 & H).
  apply (for_each_blocks is_data (draws_styled_error_series (heap s) mt)
           (fun _ => True) (fun st => heap st = heap s)) in Hloop1;
    [ | intros ? ? ? _ HI Hb; apply fits_data_entry_data in Hb;
        rewrite HI in Hb; destruct Hb as (? & ?); auto
      | apply Forall_true; auto
      | exact Hh0 ].
  destruct Hloop1 as (Hha & t1 & E1 & B1).
  cbv beta in H.
  assert (Hacc : both (extends_with (fun e => is_data e = false)) same_store
                   sa sa None)
    by (apply law_refl; solve_law).
  walk_to at_loop ltac:(reflexivity) H Hacc. open_read_list.
  destruct Hacc as [(t2 & E2 & F2) [Hh2 _]].
  apply bind_Ok_inv in H. destruct H as (sb & [] & Hloop2 & H).
  apply (for_each_blocks is_data (draws_fit (heap s))
           (fun _ => True) (fun st => heap st = heap s)) in Hloop2;
    [ | intros ? ? ? _ HI Hb; apply fits_fit_entry_Ok in Hb;
        rewrite HI in Hb; destruct Hb as (? & ?); auto
      | apply Forall_true; auto
      | congruence ].
  destruct Hloop2 as (_ & t3 & E3 & B3).
  the_rest (fun e => is_data e = false) H Hrest.
  destruct Hrest as (t4 & E4 & F4).
  exists (List.filter is_data t1), (List.filter is_data t3).
  rewrite (events_since_app s s' (t0 ++ t1 ++ t2 ++ t3 ++ t4))
    by (rewrite E4, E3, E2, E1, E0, <- !app_assoc; reflexivity).
  rewrite !List.filter_app, (filter_none _ _ F0), (filter_none _ _ F2),
    (filter_none _ _ F4), app_nil_r.
  rewrite Hh0 in B1. rewrite ?Hh2, ?Hha in B3. auto.
Qed.

(** At one data entry and one fit. *)
Lemma fits_follow_error_bars_witness :
  let run :=
    one_axis__N_Y_with_error_bars__with_N_fits quiet_lib 4 5 (VStr "name_x")
      (VStr "name_y") (VStr "title") "nopdf" (VStr "o") (VStr "5") (VInt 5)
      (VFloat (1 # 2)) (VInt 16) (VInt 16) (VInt 16) (VStr "best") (VInt 5)
      sample_state in
  run = (run.1, Ok tt) /\
  exists t1 t2,
    List.filter is_data (events_since sample_state run.1) = t1 ++ t2 /\
    blocks (draws_styled_error_series (heap sample_state) (VStr "o")) 0
      (read (heap sample_state) 4) t1 /\
    blocks (draws_fit (heap sample_state)) 0 (read (heap sample_state) 5) t2.
Proof.
  intros run.
  assert (R : run = (run.1, Ok tt)) by (vm_compute; reflexivity).
  split; [exact R |].
  exact (fits_follow_error_bars quiet_lib 4 5 (VStr "name_x")
           (VStr "name_y") (VStr "title") "nopdf" (VStr "o") (VStr "5")
           (VInt 5) (VFloat (1 # 2)) (VInt 16) (VInt 16) (VInt 16)
           (VStr "best") (VInt 5) sample_state run.1 R).
Defined.

(** ** The optional elements: axis limits and vertical lines *)

Section OptionalBodies.

Variable lib : list event -> call -> outcome.

Lemma apply_y_lim_Ok y_lim s1 s2 :
  apply_y_lim lib y_lim s1 = (s2, Ok tt) ->
  heap s2 = heap s1 /\
  exists t, trace s2 = trace s1 ++ t /\
            limits_set (heap s1) y_lim (List.filter is_ylim t).
Proof.
  unfold apply_y_lim, limits_set. intros H.
  apply bind_Ok_inv in H. destruct H as (sa & b & Hb & H).
  apply truthy_Ok in Hb. destruct Hb as [-> ->].
  destruct (truth (heap s1) y_lim).
  - apply bind_Ok_inv in H. destruct H as (sb & lim & Hi & H).
    apply iter_Ok in Hi. destruct Hi as [-> Hi].
    open_body H. split; [reflexivity |].
    eexists. split; [reflexivity |]. exists lim. split; [exact Hi | reflexivity].
  - apply ret_Ok in H. destruct H as [-> _]. split; [reflexivity |].
    exists []. rewrite app_nil_r. auto.
Qed.

Lemma vline_entry_Ok target v s1 s2 :
  bind (unpack3 v) (fun '(x_val, color, linestyle) =>
    bind (lib_call lib (Call target "axvline" []
            [("x", x_val); ("color", color); ("linestyle", linestyle)]))
         (fun _ => ret tt)) s1 = (s2, Ok tt) ->
  heap s2 = heap s1 /\
  exists t, trace s2 = trace s1 ++ t /\
            forall i, one_vline (heap s1) target i v (List.filter is_axvline t).
Proof.
  intros H. open_body H. split; [reflexivity |].
  eexists. split; [reflexivity |]. intros i.
  do 3 eexists. split; [eassumption | reflexivity].
Qed.

Lemma draw_vlines_Ok target vlines s1 s2 :
  draw_vlines lib target vlines s1 = (s2, Ok tt) ->
  heap s2 = heap s1 /\
  exists t, trace s2 = trace s1 ++ t /\
            vlines_drawn (heap s1) target vlines (List.filter is_axvline t).
Proof.
  unfold draw_vlines, vlines_drawn. intros H.
  apply bind_Ok_inv in H. destruct H as (sa & b & Hb & H).
  apply truthy_Ok in Hb. destruct Hb as [-> ->].
  destruct (truth (heap s1) vlines).
  - apply bind_Ok_inv in H. destruct H as (sb & entries & Hi & H).
    apply iter_Ok in Hi. destruct Hi as [-> Hi].
    apply (for_each_blocks is_axvline (one_vline (heap s1) target)
             (fun _ => True) (fun st => heap st = heap s1)) in H;
      [ | intros ? ? ? _ HI Hb; apply vline_entry_Ok in Hb;
          rewrite HI in Hb; destruct Hb as (? & ?); auto
        | apply Forall_true; auto
        | reflexivity ].
    destruct H as (Hh & t & E & B).
    split; [exact Hh |]. exists t. split; [exact E |].
    exists entries. auto.
  - apply ret_Ok in H. destruct H as [-> _]. split; [reflexivity |].
    exists []. rewrite app_nil_r. auto.
Qed.

End OptionalBodies.

Ltac at_y_lim m := lazymatch m with apply_y_lim _ _ => idtac end.
Ltac at_vlines m := lazymatch m with draw_vlines _ _ _ => idtac end.

(** The optional elements of the one-axis functions follow their
    arguments, in a call that returns normally: [plt.ylim] is called once,
    with the items of [y_lim] as its arguments, when [y_lim] is true, and
    not at all otherwise; [plt.axvline] is called once per entry of
    [vlines], in order, with the entry's position, colour and line style,
    when [vlines] is true, and not at all otherwise. *)
Theorem optional_elements_follow_arguments lib (s s' : pystate) :
  (forall l nx ny ti f ms fs ots ll ls xl xn lw yl,
     plot_with_one_axis lib l nx ny ti f ms fs ots ll ls xl xn lw yl s
     = (s', Ok tt) ->
     limits_set (heap s) yl (List.filter is_ylim (events_since s s'))) /\
  (forall l nx ny ti f ms fs ots ll ls xl vl yl,
     plot_with_one_axis_with_vertical_lines lib l nx ny ti f ms fs ots ll ls
       xl vl yl s = (s', Ok tt) ->
     limits_set (heap s) yl (List.filter is_ylim (events_since s s')) /\
     vlines_drawn (heap s) Pyplot vl
       (List.filter is_axvline (events_since s s'))).
Proof.
  split.
  - intros l nx ny ti f ms fs ots ll ls xl xn lw yl H.
    unfold plot_with_one_axis in H.
    assert (Hacc : both (extends_with (fun e => is_ylim e = false)) same_store
                     s s None)
      by (apply law_refl; solve_law).
    walk_to at_y_lim ltac:(reflexivity) H Hacc.
    destruct Hacc as [(t0 & E0 & F0) [Hh0 _]].
    apply bind_Ok_inv in H. destruct H as (sa & [] & Hy & H).
    apply apply_y_lim_Ok in Hy. destruct Hy as (Hha & t1 & E1 & L1).
    cbv beta in H.
    the_rest (fun e => is_ylim e = false) H Hrest.
    destruct Hrest as (t2 & E2 & F2).
    rewrite (events_since_app s s' (t0 ++ t1 ++ t2))
      by (rewrite E2, E1, E0, <- !app_assoc; reflexivity).
    rewrite !List.filter_app, (filter_none _ _ F0), (filter_none _ _ F2),
      app_nil_r.
    simpl. rewrite Hh0 in L1. exact L1.
  - intros l nx ny ti f ms fs ots ll ls xl vl yl H.
    unfold plot_with_one_axis_with_vertical_lines in H.
    assert (Hacc : both (extends_with
                           (fun e => is_ylim e || is_axvline e = false))
                     same_store s s None)
      by (apply law_refl; solve_law).
    walk_to at_y_lim ltac:(reflexivity) H Hacc.
    destruct Hacc as [(t0 & E0 & F0) [Hh0 _]].
    apply bind_Ok_inv in H. destruct H as (sa & [] & Hy & H).
    the_rest (fun e => is_axvline e = false) Hy Fy.
    apply apply_y_lim_Ok in Hy. destruct Hy as (Hha & t1 & E1 & L1).
    cbv beta in H.
    assert (Hacc : both (extends_with
                           (fun e => is_ylim e || is_axvline e = false))
                     same_store sa sa None)
      by (apply law_refl; solve_law).
    walk_to at_vlines ltac:(no_save_side) H Hacc.
    destruct Hacc as [(t2 & E2 & F2) [Hh2 _]].
    apply bind_Ok_inv in H. destruct H as (sb & [] & Hv & H).
    the_rest (fun e => is_ylim e = false) Hv Fv.
    apply draw_vlines_Ok in Hv. destruct Hv as (Hhb & t3 & E3 & L3).
    cbv beta in H.
    the_rest (fun e => is_ylim e || is_axvline e = false) H Hrest.
    destruct Hrest as (t4 & E4 & F4).
    rewrite (events_since_app s s' (t0 ++ t1 ++ t2 ++ t3 ++ t4))
      by (rewrite E4, E3, E2, E1, E0, <- !app_assoc; reflexivity).
    destruct Fy as (t1' & E1' & Fy). destruct Fv as (t3' & E3' & Fv).
    rewrite E1 in E1'. apply app_inv_head in E1'. subst t1'.
    rewrite E3 in E3'. apply app_inv_head in E3'. subst t3'.
    assert (N : forall t, Forall (fun e => is_ylim e || is_axvline e = false) t ->
                Forall (fun e => is_ylim e = false) t /\
                Forall (fun e => is_axvline e = false) t).
    { intros t Ft. split; eapply Forall_impl; try exact Ft;
        intros e He; apply orb_false_elim in He; tauto. }
    destruct (N _ F0) as [Y0 V0]. destruct (N _ F2) as [Y2 V2].
    destruct (N _ F4) as [Y4 V4].
    rewrite !List.filter_app.
    rewrite (filter_none _ _ Y0), (filter_none _ _ Y2), (filter_none _ _ Y4),
      (filter_none _ _ Fv), (filter_none _ _ V0), (filter_none _ _ V2),
      (filter_none _ _ V4), (filter_none _ _ Fy), !app_nil_r.
    simpl. rewrite Hh0 in L1. rewrite Hh2, Hha, Hh0 in L3. auto.
Qed.

(** At [plot_with_one_axis_with_vertical_lines], with limits and one
    vertical line. *)
Lemma optional_elements_follow_arguments_witness :
  let run :=
    plot_with_one_axis_with_vertical_lines quiet_lib 0 (VStr "x") (VStr "y")
      (VStr "title") "out" (VStr "5") (VInt 16) (VInt 16) (VStr "best")
      (VInt 16) (VInt 5) (VTuple [vline_1]) (VTuple [VInt 0; VInt 5])
      sample_state in
  run = (run.1, Ok tt) /\
  limits_set (heap sample_state) (VTuple [VInt 0; VInt 5])
    (List.filter is_ylim (events_since sample_state run.1)) /\
  vlines_drawn (heap sample_state) Pyplot (VTuple [vline_1])
    (List.filter is_axvline (events_since sample_state run.1)).
Proof.
  intros run.
  assert (R : run = (run.1, Ok tt)) by (vm_compute; reflexivity).
  split; [exact R |].
  exact (proj2 (optional_elements_follow_arguments quiet_lib sample_state
                  run.1)
           0 (VStr "x") (VStr "y") (VStr "title") "out" (VStr "5") (VInt 16)
           (VInt 16) (VStr "best") (VInt 16) (VInt 5) (VTuple [vline_1])
           (VTuple [VInt 0; VInt 5]) R).
Defined.

(** ** Calls that fail on their input *)

Section Failing.

Variable lib : list event -> call -> outcome.
Variable P : event -> Prop.

Lemma fails_within_bind {A B} (m : M A) (k : A -> M B) :
  obeys (extends_with P) m ->
  (forall x, fails_within P (k x)) ->
  fails_within P (bind m k).
Proof.
  intros Hm Hk s e. specialize (Hm s). unfold bind.
  destruct (m s) as [s1 [x | e1]] eqn:E; simpl in *.
  - intros He Hi. destruct Hm as (t1 & E1 & F1).
    destruct (Hk x s1 e He Hi) as (t2 & E2 & F2).
    exists (t1 ++ t2). split.
    + rewrite E2, E1, <- app_assoc. reflexivity.
    + apply Forall_app. auto.
  - intros _ _. exact Hm.
Qed.

(** The library raises exceptions of its own only. *)
Lemma show_fails_within :
  fails_within P (bind (lib_call lib (plt "show" [] [])) (fun _ => ret tt)).
Proof.
  intros s e. unfold bind, lib_call, ret.
  destruct (lib (trace s) _); simpl; intros He; [discriminate He |].
  injection He as <-. intros [].
Qed.

Lemma save_and_show_fail_within sentinel filename kw :
  fails_within P
    (bind (save_unless lib sentinel filename kw) (fun _ =>
       bind (lib_call lib (plt "show" [] [])) (fun _ => ret tt))).
Proof.
  intros s e. unfold save_unless, bind, lib_call, ret.
  destruct (negb (filename =? sentinel)%string); simpl.
  - destruct (lib (trace s) _); simpl.
    + destruct (lib _ _); simpl; intros He; [discriminate He |].
      injection He as <-. intros [].
    + intros He. injection He as <-. intros [].
  - destruct (lib (trace s) _); simpl; intros He; [discriminate He |].
    injection He as <-. intros [].
Qed.

End Failing.

(** [fails side stop closing] proves [fails_within P m] for a sequence of
    steps [m]: the steps before the first one on which [stop] succeeds obey
    [extends_with P], and [closing] proves the goal from that step on. *)
Ltac fails side stop closing :=
  lazymatch goal with
  | |- fails_within _ (bind ?m _) =>
      tryif stop m then closing else
        (apply fails_within_bind;
         [ obey side
         | let x := fresh "x" in
           intros x; split_tuple x; cbv beta iota; fails side stop closing ])
  end.

Lemma plot_calls_fail_unshown lib (c : plot_call) :
  fails_within (fun e => is_show e = false) (exec lib c).
Proof.
  destruct c; unfold exec;
    [ unfold plot_with_one_axis
    | unfold plot_with_one_axis_with_vertical_lines
    | unfold plot_with_one_axis_and_error_bars_BYLIST
    | unfold plot_with_one_axis_with_points
    | unfold plot_with_two_axes_with_N_curves_with_VERTICAL_lines
    | unfold one_axis__N_Y_with_error_bars__with_N_fits
    | unfold plot_dynamic_subplots ];
    fails ltac:(no_save_side) at_show ltac:(apply show_fails_within).
Qed.

Lemma plot_calls_fail_unsaved lib (c : plot_call) :
  function_name c <> "plot_with_one_axis_with_vertical_lines" ->
  fails_within (fun e => is_save e = false) (exec lib c).
Proof.
  destruct c; simpl function_name; intros N; try congruence; unfold exec;
    [ unfold plot_with_one_axis
    | unfold plot_with_one_axis_and_error_bars_BYLIST
    | unfold plot_with_one_axis_with_points
    | unfold plot_with_two_axes_with_N_curves_with_VERTICAL_lines
    | unfold one_axis__N_Y_with_error_bars__with_N_fits
    | unfold plot_dynamic_subplots ];
    fails ltac:(reflexivity) at_save ltac:(apply save_and_show_fail_within).
Qed.

(** A call that fails on its input, with an exception that the interpreter
    raises while a value is unpacked, iterated or subscripted, has not
    shown the figure; and it has not saved a document either, unless the
    function is [plot_with_one_axis_with_vertical_lines], which unpacks the
    vertical lines after it has saved. *)
Theorem malformed_input_shows_nothing lib (c : plot_call) (s : pystate) e :
  (exec lib c s).2 = Err e ->
  interpreter_error e ->
  Forall (fun ev => is_show ev = false) (events_since s (exec lib c s).1) /\
  (function_name c <> "plot_with_one_axis_with_vertical_lines" ->
   Forall (fun ev => is_save ev = false) (events_since s (exec lib c s).1)).
Proof.
  intros He Hi. split.
  - destruct (plot_calls_fail_unshown lib c s e He Hi) as (t & E & F).
    rewrite (events_since_app _ _ _ E). exact F.
  - intros N.
    destruct (plot_calls_fail_unsaved lib c N s e He Hi) as (t & E & F).
    rewrite (events_since_app _ _ _ E). exact F.
Qed.

(** At [plot_with_one_axis_with_points], given series of six fields. *)
Lemma malformed_input_shows_nothing_witness :
  let c := points_call 0 9 "out" in
  let e := ValueError "too many values to unpack" in
  (exec quiet_lib c sample_state).2 = Err e /\
  interpreter_error e /\
  Forall (fun ev => is_show ev = false)
    (events_since sample_state (exec quiet_lib c sample_state).1) /\
  (function_name c <> "plot_with_one_axis_with_vertical_lines" ->
   Forall (fun ev => is_save ev = false)
     (events_since sample_state (exec quiet_lib c sample_state).1)).
Proof.
  intros c e.
  assert (R : (exec quiet_lib c sample_state).2 = Err e)
    by (vm_compute; reflexivity).
  assert (Hi : interpreter_error e) by exact I.
  split; [exact R |]. split; [exact Hi |].
  exact (malformed_input_shows_nothing quiet_lib c sample_state e R Hi).
Defined.

(** The exception is needed: given a vertical line of two fields,
    [plot_with_one_axis_with_vertical_lines] has saved the document when
    the interpreter raises. *)
Example vertical_lines_fail_after_saving :
  let c := vlines_call 0 "out" (VTuple [VTuple [VInt 1; VStr "red"]]) in
  let run := exec quiet_lib c sample_state in
  (exists e, run.2 = Err e /\ interpreter_error e) /\
  List.filter is_save (events_since sample_state run.1)
  = [ECall (plt "savefig" [VStr "out.pdf"] [])].
Proof.
  vm_compute. split; [| reflexivity].
  eexists. split; [reflexivity | exact I].
Qed.

(** ** The vertical lines of the two-axes function *)

Lemma blocks_impl (R R' : Z -> pyval -> list event -> Prop) (D : pyval -> Prop) :
  (forall i d es, D d -> R i d es -> R' i d es) ->
  forall items i t, Forall D items -> blocks R i items t -> blocks R' i items t.
Proof.
  intros HR. induction items as [| d rest IH]; intros i t HD H.
  - exact H.
  - destruct H as (es & t' & E & Hd & Hrest).
    apply Forall_cons in HD. destruct HD as [Hd' HD].
    exists es, t'. split; [exact E |]. split; [apply HR; assumption |].
    apply IH; assumption.
Qed.

Lemma vlines_drawn_frame (h0 h : list (list pyval)) target vl t :
  kept h0 h -> allocated h0 vl ->
  (forall items, items_of h0 vl = Some items -> Forall (allocated h0) items) ->
  vlines_drawn h target vl t -> vlines_drawn h0 target vl t.
Proof.
  intros K Hv Hitems. unfold vlines_drawn.
  rewrite (truth_frame h0 h vl K Hv), (items_of_frame h0 h vl K Hv).
  destruct (truth h0 vl); [| auto].
  intros (items & E & B). exists items. split; [exact E |].
  refine (blocks_impl _ _ (allocated h0) _ items 0%Z t (Hitems items E) B).
  intros i d es Hd (x & c & l & Ed & Ees).
  rewrite (items_of_frame h0 h d K Hd) in Ed.
  exists x, c, l. auto.
Qed.

Lemma alloc_above P n s0 s s1 items a :
  n <= length (heap s0) ->
  both (extends_with P) (frame n) s0 s None ->
  alloc items s = (s1, Ok a) -> n <= a.
Proof.
  intros Hn [_ Hf] Ha. apply alloc_Ok in Ha. destruct Ha as [_ ->].
  exact (proj1 (Hf Hn)).
Qed.

(** [walk_to] for a run that makes list objects and appends to them: the
    relation of [Hacc] has a frame of [n] objects, [Hn] says that the heap
    held [n] objects at the start, and every list made on the way is
    recorded as being outside the frame. *)
Ltac walk_frame stop side Hn H Hacc :=
  lazymatch type of H with
  | bind ?m ?k ?s = (_, Ok _) =>
      tryif stop m then idtac else
        (let s1 := fresh "s" in
         let x := fresh "x" in
         let Hm := fresh "Hm" in
         let Hq := fresh "Hq" in
         apply bind_Ok_inv in H; destruct H as (s1 & x & Hm & H);
         lazymatch m with
         | alloc _ =>
             let Hx := fresh "Hx" in
             pose proof (alloc_above _ _ _ _ _ _ _ Hn Hacc Hm) as Hx
         | _ => idtac
         end;
         lazymatch type of Hacc with
         | ?Q ?s0 _ _ =>
             assert (Hq : Q s s1 None)
               by (apply (obeys_run Q m s s1 (Ok x));
                   [obey side | exact Hm]);
             apply (law_trans Q ltac:(solve_law) _ _ _ _ Hacc) in Hq;
             clear Hacc; rename Hq into Hacc
         end;
         split_tuple x; cbv beta iota in H;
         walk_frame stop side Hn H Hacc)
  end.

(** The vertical lines of the two-axes function are drawn on the first
    axes: in a call that returns normally, [axvline] is called on the axes
    that [plt.subplots()] returned, once per entry of [vlines] and in
    order, with the entry's position, colour and line style, when [vlines]
    is true, and not at all otherwise.  ([vlines] and its entries are
    values of the caller: if they are list objects these exist before the
    call.) *)
Theorem two_axes_vertical_lines lib d1 d2 nx n1 n2 c1 c2 ti f ms fs ls ll vl
    xt (s s' : pystate) :
  allocated (heap s) vl ->
  (forall items, items_of (heap s) vl = Some items ->
                 Forall (allocated (heap s)) items) ->
  plot_with_two_axes_with_N_curves_with_VERTICAL_lines lib d1 d2 nx n1 n2 c1
    c2 ti f ms fs ls ll vl xt s = (s', Ok tt) ->
  exists r fig ax1,
    subplots_returns lib s r fig ax1 /\
    vlines_drawn (heap s) (Method ax1) vl
      (List.filter is_axvline (events_since s s')).
Proof.
  intros Hvl Hitems H.
  unfold plot_with_two_axes_with_N_curves_with_VERTICAL_lines in H.
  apply bind_Ok_inv in H. destruct H as (se & [] & He & H).
  apply enter_Ok in He. cbv beta in H.
  apply bind_Ok_inv in H. destruct H as (sl & r & Hl & H).
  apply lib_call_Ok in Hl. destruct Hl as [Esl Hr]. cbv beta in H.
  apply bind_Ok_inv in H. destruct H as (su & [fig ax1] & Hu & H).
  apply unpack2_Ok in Hu. destruct Hu as [-> Hu]. cbv beta iota in H.
  assert (Hh : heap sl = heap s) by (subst sl se; reflexivity).
  assert (Ht : trace sl = trace s ++
                [EEnter "plot_with_two_axes_with_N_curves_with_VERTICAL_lines";
                 ECall (plt "subplots" [] [])])
    by (subst sl se; simpl; rewrite <- app_assoc; reflexivity).
  exists r, fig, ax1. split.
  { split; [subst se; exact Hr | rewrite <- Hh; exact Hu]. }
  clear Esl He Hr Hu.
  set (n := length (heap s)) in *.
  assert (Hn : n <= length (heap sl)) by (rewrite Hh; reflexivity).
  assert (Hacc : both (extends_with (fun e => is_axvline e = false)) (frame n)
                   sl sl None)
    by (apply law_refl; solve_law).
  walk_frame at_vlines ltac:(reflexivity) Hn H Hacc.
  destruct Hacc as [(t0 & E0 & F0) Hf0].
  destruct (Hf0 Hn) as (L0 & T0 & _).
  apply bind_Ok_inv in H. destruct H as (sv & [] & Hv & H).
  apply draw_vlines_Ok in Hv. destruct Hv as (_ & t1 & E1 & V1).
  cbv beta in H.
  the_rest (fun e => is_axvline e = false) H Hrest.
  destruct Hrest as (t2 & E2 & F2).
  rewrite (events_since_app s s'
             ([EEnter "plot_with_two_axes_with_N_curves_with_VERTICAL_lines";
               ECall (plt "subplots" [] [])] ++ t0 ++ t1 ++ t2))
    by (rewrite E2, E1, E0, Ht, <- !app_assoc; reflexivity).
  rewrite !List.filter_app, (filter_none _ _ F0), (filter_none _ _ F2),
    app_nil_r.
  simpl.
  refine (vlines_drawn_frame (heap s) _ _ _ _ _ Hvl Hitems V1).
  unfold kept. fold n. rewrite T0, Hh. apply take_ge. reflexivity.
Qed.

(** At two series on the first axes, one on the second and one vertical
    line. *)
Lemma two_axes_vertical_lines_witness :
  let run :=
    plot_with_two_axes_with_N_curves_with_VERTICAL_lines quiet_lib 0 8
      (VStr "name_x") (VStr "name_y1") (VStr "name_y2") (VStr "red")
      (VStr "blue") (VStr "title") "out" (VStr "5") (VInt 18) (VInt 18)
      (VStr "best") (VTuple [vline_1]) (VBool true) sample_state in
  allocated (heap sample_state) (VTuple [vline_1]) /\
  (forall items, items_of (heap sample_state) (VTuple [vline_1]) = Some items ->
                 Forall (allocated (heap sample_state)) items) /\
  run = (run.1, Ok tt) /\
  exists r fig ax1,
    subplots_returns quiet_lib sample_state r fig ax1 /\
    vlines_drawn (heap sample_state) (Method ax1) (VTuple [vline_1])
      (List.filter is_axvline (events_since sample_state run.1)).
Proof.
  intros run.
  assert (A : allocated (heap sample_state) (VTuple [vline_1])) by exact I.
  assert (B : forall items,
             items_of (heap sample_state) (VTuple [vline_1]) = Some items ->
             Forall (allocated (heap sample_state)) items).
  { intros items E. injection E as <-. repeat constructor. }
  assert (R : run = (run.1, Ok tt)) by (vm_compute; reflexivity).
  split; [exact A |]. split; [exact B |]. split; [exact R |].
  exact (two_axes_vertical_lines quiet_lib 0 8 (VStr "name_x")
           (VStr "name_y1") (VStr "name_y2") (VStr "red") (VStr "blue")
           (VStr "title") "out" (VStr "5") (VInt 18) (VInt 18) (VStr "best")
           (VTuple [vline_1]) (VBool true) sample_state run.1 A B R).
Defined.

(** ** The legend of the two-axes function *)

Section Legend.

Variable lib : list event -> call -> outcome.

Lemma returned_app sel t1 : forall history t2,
  returned lib sel history (t1 ++ t2)
  = returned lib sel history t1 ++ returned lib sel (history ++ t1) t2.
Proof.
  induction t1 as [| e t1 IH]; intros history t2; simpl.
  - rewrite app_nil_r. reflexivity.
  - rewrite IH, <- !app_assoc. reflexivity.
Qed.

Lemma returned_none sel t : forall history,
  Forall (fun e => sel e = false) t -> returned lib sel history t = [].
Proof.
  induction t as [| e t IH]; intros history F; [reflexivity |].
  apply Forall_cons in F. destruct F as [He F]. simpl.
  rewrite (IH _ F), app_nil_r. destruct e; [reflexivity |].
  rewrite He. reflexivity.
Qed.

Lemma returned_known h sel t : forall history,
  (forall e, sel e = true -> is_curve e = true) ->
  lines_known lib h -> Forall (allocated h) (returned lib sel history t).
Proof.
  intros history Hsel K. revert history.
  induction t as [| e t IH]; intros history; simpl; [constructor |].
  apply Forall_app. split; [| apply IH].
  destruct e as [f | c]; [constructor |].
  destruct (sel (ECall c)) eqn:S; [| constructor].
  destruct (lib history c) as [v | x] eqn:L; [| constructor].
  repeat constructor. exact (K history c v (Hsel _ S) L).
Qed.

Lemma alloc_Ok' items s s' a :
  alloc items s = (s', Ok a) ->
  a = length (heap s) /\ heap s' = heap s ++ [items] /\ trace s' = trace s.
Proof. intros H. apply alloc_Ok in H. destruct H as [-> ->]. auto. Qed.

Lemma lib_call_Ok' c s s' v :
  lib_call lib c s = (s', Ok v) ->
  heap s' = heap s /\ trace s' = trace s ++ [ECall c] /\
  lib (trace s) c = Returns v.
Proof. intros H. apply lib_call_Ok in H. destruct H as [-> H]. auto. Qed.

Lemma flatten_Ok items : forall s s' xs,
  flatten items s = (s', Ok xs) ->
  s' = s /\
  exists itemss,
    Forall2 (fun r it => items_of (heap s) r = Some it) items itemss /\
    xs = concat itemss.
Proof.
  induction items as [| r rest IH]; intros s s' xs H; simpl in H.
  - apply ret_Ok in H. destruct H as [-> ->]. split; [reflexivity |].
    exists []. split; [constructor | reflexivity].
  - apply bind_Ok_inv in H. destruct H as (s1 & it & Hi & H).
    apply iter_Ok in Hi. destruct Hi as [-> Hi].
    apply bind_Ok_inv in H. destruct H as (s2 & ys & Hf & H).
    apply IH in Hf. destruct Hf as (-> & itemss & F & ->).
    apply ret_Ok in H. destruct H as [-> ->]. split; [reflexivity |].
    exists (it :: itemss). split; [constructor; assumption | reflexivity].
Qed.

Lemma collect_labels_Ok items : forall s s' ys,
  collect items (fun l => lib_call lib (method l "get_label" [] [])) s
  = (s', Ok ys) ->
  heap s' = heap s /\
  trace s' = trace s ++ map asks_label items /\
  ys = returned lib is_get_label (trace s) (map asks_label items).
Proof.
  induction items as [| l rest IH]; intros s s' ys H; simpl in H.
  - apply ret_Ok in H. destruct H as [-> ->]. rewrite app_nil_r. auto.
  - apply bind_Ok_inv in H. destruct H as (s1 & y & Hl & H).
    apply lib_call_Ok' in Hl. destruct Hl as (Hh1 & Ht1 & Hy).
    apply bind_Ok_inv in H. destruct H as (s2 & rest' & Hc & H).
    apply IH in Hc. destruct Hc as (Hh2 & Ht2 & ->).
    apply ret_Ok in H. destruct H as [-> ->].
    split; [congruence |]. split.
    + rewrite Ht2, Ht1, <- app_assoc. reflexivity.
    + simpl. unfold asks_label at 1. rewrite Hy, Ht1. reflexivity.
Qed.

Lemma alter_new_object (h : list (list pyval)) (x : list pyval) :
  alter (fun l => l ++ x) (length h) (h ++ [[]]) = h ++ [x].
Proof.
  rewrite alter_app_r_alt by lia. rewrite Nat.sub_diag. reflexivity.
Qed.

Lemma two_axes_loop_lines ax acc ms : forall entries i s s',
  for_enumerate i entries (fun _ d => plot_on_axis lib ax acc ms d) s
  = (s', Ok tt) ->
  exists t,
    trace s' = trace s ++ t /\
    heap s' = alter (fun l => l ++ returned lib is_curve (trace s) t) acc
                (heap s) /\
    returned lib is_get_label (trace s) t = [] /\
    Forall (fun e => is_legend e || is_get_label e = false) t.
Proof.
  induction entries as [| d rest IH]; intros i s s' H; simpl in H.
  - apply ret_Ok in H. destruct H as [-> _]. exists [].
    rewrite app_nil_r. split; [reflexivity |]. split; [| split; constructor].
    simpl. symmetry. apply list_alter_id. intros x. apply app_nil_r.
  - apply bind_Ok_inv in H. destruct H as (s1 & [] & Hb & H).
    apply IH in H. destruct H as (t & Et & Eh & Eg & Ft).
    unfold plot_on_axis in Hb.
    apply bind_Ok_inv in Hb. destruct Hb as (s2 & x & Hu & Hb).
    split_tuple x. cbv beta iota in Hb.
    apply unpack6_Ok in Hu. destruct Hu as [-> _].
    apply bind_Ok_inv in Hb. destruct Hb as (s3 & ln & Hl & Hb).
    apply lib_call_Ok' in Hl. destruct Hl as (Hh3 & Ht3 & Hln).
    apply list_append_Ok in Hb. subst s1. cbn [heap module_vars trace] in *.
    eexists. split; [rewrite Et, Ht3, <- app_assoc; reflexivity |].
    rewrite Ht3 in Eh, Eg. rewrite Hh3 in Eh.
    split; [| split].
    + rewrite Eh. simpl. rewrite Hln. rewrite list_alter_alter_eq.
      apply list_alter_ext; [| reflexivity].
      intros x _. simpl. rewrite <- app_assoc. reflexivity.
    + simpl. exact Eg.
    + constructor; [reflexivity | exact Ft].
Qed.

End Legend.

Ltac at_read m := lazymatch m with read_list _ => idtac end.

Lemma read_at (h l : list (list pyval)) k :
  read (h ++ l) (length h + k) = default [] (l !! k).
Proof. unfold read. rewrite lookup_app_r by lia. f_equal. f_equal. lia. Qed.

Lemma not_legend_split t :
  Forall not_legend t ->
  Forall (fun e => is_curve e = false) t /\
  Forall (fun e => is_legend e = false) t /\
  Forall (fun e => is_get_label e = false) t.
Proof.
  intros F. repeat split; eapply Forall_impl; try exact F;
    intros e He; unfold not_legend in He;
    apply orb_false_elim in He; destruct He as [He ?];
    apply orb_false_elim in He; tauto.
Qed.

Lemma asks_label_only items :
  Forall (fun e => is_curve e = false) (map asks_label items) /\
  Forall (fun e => is_legend e = false) (map asks_label items) /\
  List.filter is_get_label (map asks_label items) = map asks_label items.
Proof.
  induction items as [| l rest (IH1 & IH2 & IH3)]; simpl.
  - repeat split; constructor.
  - repeat split; try (constructor; [reflexivity | assumption]).
    rewrite IH3. reflexivity.
Qed.

Lemma loop_split t :
  Forall (fun e => is_legend e || is_get_label e = false) t ->
  Forall (fun e => is_legend e = false) t /\
  Forall (fun e => is_get_label e = false) t.
Proof.
  intros F. split; eapply Forall_impl; try exact F;
    intros e He; apply orb_false_elim in He; tauto.
Qed.

Lemma items_frame_all (h0 h : list (list pyval)) rs : forall itemss,
  kept h0 h -> Forall (allocated h0) rs ->
  Forall2 (fun r it => items_of h r = Some it) rs itemss ->
  Forall2 (fun r it => items_of h0 r = Some it) rs itemss.
Proof.
  intros itemss K A F. induction F as [| r it rs itemss Hr F IH].
  - constructor.
  - apply Forall_cons in A. destruct A as [Ar A].
    constructor; [| exact (IH A)].
    rewrite <- (items_of_frame h0 h r K Ar). exact Hr.
Qed.

Ltac next H s x Hm :=
  apply bind_Ok_inv in H; destruct H as (s & x & Hm & H); cbv beta in H.

Ltac state_of E sx :=
  match type of E with trace ?s0 = _ => rename s0 into sx end.

(** The legend of the two-axes function: a call that returns normally
    calls [plt.legend] once, with two list objects of its own.  The first
    holds the lines that the [plot] calls returned, in the order of the
    calls (each call returns a sequence of lines; the sequences are
    concatenated, those of the first axes first); the second holds what
    [get_label] returned for each of these lines, [get_label] being called
    once per line, in the same order. *)
Theorem legend_lists_every_line lib d1 d2 nx n1 n2 c1 c2 ti f ms fs ls ll vl
    xt (s s' : pystate) :
  lines_known lib (heap s) ->
  plot_with_two_axes_with_N_curves_with_VERTICAL_lines lib d1 d2 nx n1 n2 c1
    c2 ti f ms fs ls ll vl xt s = (s', Ok tt) ->
  exists lns labels itemss,
    List.filter is_legend (events_since s s')
    = [ECall (plt "legend" [VList lns; VList labels]
                [("loc", ll); ("fontsize", ls)])] /\
    length (heap s) <= lns /\ length (heap s) <= labels /\ lns <> labels /\
    Forall2 (fun r items => items_of (heap s) r = Some items)
      (returned lib is_curve (trace s) (events_since s s')) itemss /\
    read (heap s') lns = concat itemss /\
    List.filter is_get_label (events_since s s')
    = map asks_label (concat itemss) /\
    read (heap s') labels
    = returned lib is_get_label (trace s) (events_since s s').
Proof.
  intros K H.
  unfold plot_with_two_axes_with_N_curves_with_VERTICAL_lines in H.
  assert (Hacc : both (extends_with not_legend) (frame (length (heap s)))
                   s s None)
    by (apply law_refl; solve_law).
  walk_to at_loop_or_alloc ltac:(reflexivity) H Hacc.
  destruct Hacc as [(t0 & E0 & F0) Hf0].
  destruct (Hf0 (Nat.le_refl _)) as (L0 & T0 & _).
  rewrite (take_ge (heap s)) in T0 by reflexivity.
  state_of E0 sA. set (h := heap sA) in *.
  (* the first axes *)
  next H sp plot_1 Hal.
  apply alloc_Ok' in Hal. destruct Hal as (Ep1 & Hhp & Htp). fold h in Ep1, Hhp.
  next H sq entries1 Hr. apply read_list_Ok in Hr. destruct Hr as [-> ->].
  next H sa u Hloop1. destruct u.
  apply two_axes_loop_lines in Hloop1.
  destruct Hloop1 as (t1 & E1 & Hha & G1 & F1).
  rewrite Htp in E1, Hha, G1. rewrite Hhp, Ep1, alter_new_object in Hha.
  set (ret1 := returned lib is_curve (trace sA) t1) in *.
  (* the second axes *)
  assert (Hacc : both (extends_with not_legend) same_store sa sa None)
    by (apply law_refl; solve_law).
  walk_to at_loop_or_alloc ltac:(reflexivity) H Hacc.
  destruct Hacc as [(t2 & E2 & F2) [Hh2 _]].
  state_of E2 sB. rewrite Hha in Hh2.
  next H sr plot_2 Hal.
  apply alloc_Ok' in Hal. destruct Hal as (Ep2 & Hhr & Htr).
  next H sq entries2 Hr. apply read_list_Ok in Hr. destruct Hr as [-> ->].
  next H sb u Hloop2. destruct u.
  apply two_axes_loop_lines in Hloop2.
  destruct Hloop2 as (t3 & E3 & Hhb & G3 & F3).
  rewrite Htr in E3, Hhb, G3. rewrite Hhr, Ep2, alter_new_object, Hh2 in Hhb.
  set (ret2 := returned lib is_curve (trace sB) t3) in *.
  (* the lines *)
  assert (Hacc : both (extends_with not_legend) same_store sb sb None)
    by (apply law_refl; solve_law).
  walk_to at_read ltac:(reflexivity) H Hacc.
  destruct Hacc as [(t4 & E4 & F4) [Hh4 _]].
  state_of E4 sC. rewrite Hhb, <- app_assoc in Hh4. simpl in Hh4.
  assert (P1 : plot_1 = length h + 0) by lia.
  assert (P2 : plot_2 = length h + 1)
    by (rewrite Ep2, Hh2, length_app; simpl; lia).
  next H sq sublists1 Hr. apply read_list_Ok in Hr. destruct Hr as [-> ->].
  rewrite Hh4, P1, read_at in H. simpl in H.
  next H sq lines1 Hf. apply flatten_Ok in Hf.
  destruct Hf as (-> & itemss1 & A1 & ->).
  next H sf flat1 Hal. apply alloc_Ok' in Hal. destruct Hal as (Ef1 & Hhf & Htf).
  rewrite Hh4, <- app_assoc in Hhf. simpl in Hhf.
  next H sq sublists2 Hr. apply read_list_Ok in Hr. destruct Hr as [-> ->].
  rewrite Hhf, P2, read_at in H. simpl in H.
  next H sq lines2 Hf. apply flatten_Ok in Hf.
  destruct Hf as (-> & itemss2 & A2 & ->).
  next H sg flat2 Hal. apply alloc_Ok' in Hal. destruct Hal as (Ef2 & Hhg & Htg).
  rewrite Hhf, <- app_assoc in Hhg. simpl in Hhg.
  assert (P3 : flat1 = length h + 2)
    by (rewrite Ef1, Hh4, length_app; simpl; lia).
  assert (P4 : flat2 = length h + 3)
    by (rewrite Ef2, Hhf, length_app; simpl; lia).
  next H sq lft Hr. apply read_list_Ok in Hr. destruct Hr as [-> ->].
  next H sq rgt Hr. apply read_list_Ok in Hr. destruct Hr as [-> ->].
  rewrite Hhg, P3, P4, !read_at in H. simpl in H.
  next H sl lns Hal. apply alloc_Ok' in Hal. destruct Hal as (El & Hhl & Htl).
  rewrite Hhg, <- app_assoc in Hhl. simpl in Hhl.
  assert (P5 : lns = length h + 4)
    by (rewrite El, Hhg, length_app; simpl; lia).
  next H sq lns_items Hr. apply read_list_Ok in Hr. destruct Hr as [-> ->].
  rewrite Hhl, P5, read_at in H. simpl in H. rewrite <- P5 in H.
  (* the labels *)
  next H sm labels_items Hc. apply collect_labels_Ok in Hc.
  destruct Hc as (Hhm & E5 & ->).
  rewrite Htl, Htg, Htf in E5. rewrite Htl, Htg, Htf in H.
  next H sn labels Hal. apply alloc_Ok' in Hal. destruct Hal as (En & Hhn & Htn).
  rewrite Hhm, Hhl, <- app_assoc in Hhn. simpl in Hhn.
  assert (P6 : labels = length h + 5)
    by (rewrite En, Hhm, Hhl, length_app; simpl; lia).
  next H so r1 Hl. apply lib_call_Ok' in Hl. destruct Hl as (Hho & E6 & _).
  next H sz r2 Hl. apply lib_call_Ok' in Hl. destruct Hl as (Hhz & E7 & _).
  (* the rest *)
  assert (Hz : both (extends_with not_legend) same_store sz s' None).
  { match type of H with
    | ?m _ = _ => apply (obeys_run _ m sz s' (Ok tt));
                  [obey ltac:(no_save_side) | exact H]
    end. }
  destruct Hz as [(t5 & E8 & F5) [Hh8 _]].
  rewrite Hhz, Hho, Hhn in Hh8. rewrite Htn in E6.
  destruct (not_legend_split _ F0) as (C0 & L0' & G0).
  destruct (not_legend_split _ F2) as (C2 & L2 & G2).
  destruct (not_legend_split _ F4) as (C4 & L4 & G4).
  destruct (not_legend_split _ F5) as (C5 & L5 & G5).
  destruct (loop_split _ F1) as (L1 & G1').
  destruct (loop_split _ F3) as (L3 & G3').
  set (lines := concat itemss1 ++ concat itemss2) in *.
  destruct (asks_label_only lines) as (C6 & L6 & G6).
  set (title := ECall (plt "title" [ti] [("fontsize", fs)])) in *.
  set (legend := ECall (plt "legend" [VList lns; VList labels]
                          [("loc", ll); ("fontsize", ls)])) in *.
  assert (Ev : events_since s s'
               = t0 ++ t1 ++ t2 ++ t3 ++ t4 ++ map asks_label lines
                 ++ [title] ++ [legend] ++ t5).
  { apply events_since_app.
    rewrite E8, E7, E6, E5, E4, E3, E2, E1, E0, <- !app_assoc. reflexivity. }
  assert (Rall : forall sel,
            returned lib sel (trace s) (events_since s s')
            = returned lib sel (trace s) t0 ++ returned lib sel (trace sA) t1
              ++ returned lib sel (trace sa) t2
              ++ returned lib sel (trace sB) t3
              ++ returned lib sel (trace sb) t4
              ++ returned lib sel (trace sC) (map asks_label lines)
              ++ returned lib sel (trace sm) [title]
              ++ returned lib sel (trace so) [legend]
              ++ returned lib sel (trace sz) t5).
  { intros sel. rewrite Ev.
    rewrite returned_app, <- E0, returned_app, <- E1, returned_app, <- E2,
      returned_app, <- E3, returned_app, <- E4, returned_app, <- E5,
      returned_app, <- E6, returned_app, <- E7. reflexivity. }
  exists lns, labels, (itemss1 ++ itemss2).
  rewrite concat_app. fold lines.
  split; [| split; [lia | split; [lia | split; [lia |]]]].
  { rewrite Ev, !List.filter_app.
    rewrite (filter_none _ _ L0'), (filter_none _ _ L1), (filter_none _ _ L2),
      (filter_none _ _ L3), (filter_none _ _ L4), (filter_none _ _ L5),
      (filter_none _ _ L6).
    reflexivity. }
  split; [| split; [| split]].
  - rewrite (Rall is_curve).
    rewrite (returned_none lib _ _ _ C0), (returned_none lib _ _ _ C2),
      (returned_none lib _ _ _ C4), (returned_none lib _ _ _ C5),
      (returned_none lib _ _ _ C6).
    simpl. rewrite app_nil_r. fold ret1 ret2.
    assert (Ks : kept (heap s) (heap sC)).
    { unfold kept. rewrite Hh4, take_app_le by exact L0. exact T0. }
    apply Forall2_app.
    + apply (items_frame_all (heap s) (heap sC)); [exact Ks | | exact A1].
      apply returned_known; [auto | exact K].
    + apply (items_frame_all (heap s) (heap sf)); [| | exact A2].
      * rewrite Hhf. replace (h ++ [ret1; ret2; concat itemss1])
          with (heap sC ++ [concat itemss1])
          by (rewrite Hh4, <- app_assoc; reflexivity).
        apply kept_alloc. exact Ks.
      * apply returned_known; [auto | exact K].
  - rewrite Hh8, P5, read_at. reflexivity.
  - rewrite Ev, !List.filter_app.
    rewrite (filter_none _ _ G0), (filter_none _ _ G1'), (filter_none _ _ G2),
      (filter_none _ _ G3'), (filter_none _ _ G4), (filter_none _ _ G5), G6.
    simpl. rewrite app_nil_r. reflexivity.
  - rewrite Hh8, P6, read_at. simpl.
    rewrite (Rall is_get_label).
    rewrite (returned_none lib _ _ _ G0), (returned_none lib _ _ _ G2),
      (returned_none lib _ _ _ G4), (returned_none lib _ _ _ G5), G1, G3.
    simpl. rewrite app_nil_r. reflexivity.
Qed.

(** At two series on the first axes and one on the second. *)
Lemma legend_lists_every_line_witness :
  let run :=
    plot_with_two_axes_with_N_curves_with_VERTICAL_lines quiet_lib 0 8
      (VStr "name_x") (VStr "name_y1") (VStr "name_y2") (VStr "red")
      (VStr "blue") (VStr "title") "nopdf" (VStr "5") (VInt 18) (VInt 18)
      (VStr "best") VNone (VBool true) sample_state in
  lines_known quiet_lib (heap sample_state) /\
  run = (run.1, Ok tt) /\
  exists lns labels itemss,
    List.filter is_legend (events_since sample_state run.1)
    = [ECall (plt "legend" [VList lns; VList labels]
                [("loc", VStr "best"); ("fontsize", VInt 18)])] /\
    length (heap sample_state) <= lns /\
    length (heap sample_state) <= labels /\ lns <> labels /\
    Forall2 (fun r items => items_of (heap sample_state) r = Some items)
      (returned quiet_lib is_curve (trace sample_state)
         (events_since sample_state run.1)) itemss /\
    read (heap run.1) lns = concat itemss /\
    List.filter is_get_label (events_since sample_state run.1)
    = map asks_label (concat itemss) /\
    read (heap run.1) labels
    = returned quiet_lib is_get_label (trace sample_state)
        (events_since sample_state run.1).
Proof.
  intros run.
  assert (K : lines_known quiet_lib (heap sample_state)).
  { intros history c v Hc E. unfold quiet_lib in E.
    unfold is_curve, calls in Hc. rewrite Hc in E.
    destruct (fn c =? "subplots")%string; injection E as <-; exact I. }
  assert (R : run = (run.1, Ok tt)) by (vm_compute; reflexivity).
  split; [exact K |]. split; [exact R |].
  exact (legend_lists_every_line quiet_lib 0 8 (VStr "name_x")
           (VStr "name_y1") (VStr "name_y2") (VStr "red") (VStr "blue")
           (VStr "title") "nopdf" (VStr "5") (VInt 18) (VInt 18) (VStr "best")
           VNone (VBool true) sample_state run.1 K R).
Defined.
